(** * graph-builder-service: session cache, tabular-to-graph projection, bulk writer

    A shallow embedding of the Python sources under [app/] and the
    properties of the service's core that are checked against it:

    - [app/utils/data_manip.py]            ([check_cols_exist_in_db])
    - [app/services/neo4j/ingest.py]       ([find_data_frame],
                                            [create_data_frame_from_props_block])
    - [app/services/neo4j/graph_api.py]    ([graph_element_props],
                                            [source_to_target_rels], [create_graph_api])
    - [app/services/neo4j/database.py]     ([_create_batch], [create_graph_data])
    - [app/services/session_manager2.py]   ([SessionManager])
    - [app/services/ingest.py]             ([_create_data_frame_from_files])
    - [app/api/v1/endpoints/files.py]      ([upload_files])
    - [app/api/v1/endpoints/graph_builder.py], [sessions.py]

    Conventions.  Python [str] and [bytes] are Rocq strings (sequences of
    bytes, UTF-8 for text).  A [dict] whose iteration order is observable is
    an association list with unique keys; a [dict] used as a map is a
    [gmap].  A raised exception is the [Err] case of [result]; mutable
    objects are threaded through as explicit state.  [time.time()] is read
    once per operation and passed in as [now], on an integer clock. *)

From Stdlib Require Import ZArith Ascii String List Bool Lia.
From stdpp Require Import base option list strings gmap sorting.

Local Open Scope string_scope.
Local Open Scope list_scope.

(* ===================================================================== *)
(** ** Python values, exceptions and string formatting *)
(* ===================================================================== *)

Module Py.

(** Scalars a table cell or a property can hold. *)
Inductive Value : Type :=
| VNone
| VBool (b : bool)
| VInt (z : Z)
| VStr (s : string).

#[global] Instance Value_eq_dec : EqDecision Value.
Proof. solve_decision. Defined.

(** The text of an exception, kept structured where the source formats it
    with an f-string. *)
Inductive exn : Type :=
| ValueError (arg : exn_arg)
| KeyError (key : string)
| IndexError
| AttributeError (attr : string)
| TypeError (msg : string)
| OSError (msg : string)
| RuntimeError (msg : string)
| StoreError (msg : string)
| Neo4jConnectionError (message : string)
| GraphCreationError (message : string) (details : list (string * Value))
| DataIngestionError (message : string) (cause : exn)
| InvalidFileFormatError (filename : string) (expected_formats : list string)
| FileTooLargeError (filename : string) (size max_size : nat)
| HTTPException (status_code : Z) (detail : string)
with exn_arg : Type :=
| Msg (s : string)
| NoDataFrameFor (props : list string)
| Wrapped (e : exn).

Inductive result (A : Type) : Type :=
| Ok (a : A)
| Err (e : exn).
Arguments Ok {A} a.
Arguments Err {A} e.

Definition bind {A B} (r : result A) (k : A -> result B) : result B :=
  match r with
  | Ok a => k a
  | Err e => Err e
  end.

Definition is_ok {A} (r : result A) : bool :=
  match r with Ok _ => true | Err _ => false end.

Definition raises {A} (r : result A) : Prop :=
  exists e, r = Err e.

#[global] Instance result_ret : MRet result := fun A a => Ok a.
#[global] Instance result_bind : MBind result := fun A B k r => bind r k.

(** [str(n)] for a Python [int]. *)
Definition digit (d : Z) : ascii :=
  ascii_of_N (Z.to_N (48 + d)).

Fixpoint str_pos (fuel : nat) (n : Z) (acc : string) : string :=
  match fuel with
  | O => acc
  | S fuel' =>
      let acc' := String (digit (n mod 10)) acc in
      if (n / 10 =? 0)%Z then acc' else str_pos fuel' (n / 10) acc'
  end.

Definition str_int (n : Z) : string :=
  if (n <? 0)%Z
  then "-" +:+ str_pos (S (Z.to_nat (Z.log2 (- n)))) (- n) ""
  else str_pos (S (Z.to_nat (Z.log2 n))) n "".

Definition hex_digit (d : Z) : ascii :=
  if (d <? 10)%Z then ascii_of_N (Z.to_N (48 + d)) else ascii_of_N (Z.to_N (87 + d)).

Definition hex_byte (b : Z) : string :=
  String (hex_digit (b / 16)) (String (hex_digit (b mod 16)) "").

Definition ord (c : ascii) : Z := Z.of_N (N_of_ascii c).

Definition str_contains_char (c : ascii) (s : string) : bool :=
  existsb (fun d => bool_decide (c = d)) (list_ascii_of_string s).

(** [repr(s)] for a [str] of ASCII text.  A byte above 0x7f is left as it
    is, which is Python's answer for the printable characters only: how
    other text is escaped depends on the interpreter's Unicode tables,
    which are not modelled.  The properties that quote a [repr] are stated
    for ASCII text. *)
Definition repr_char (quote : ascii) (c : ascii) : string :=
  if bool_decide (c = quote) then String "\" (String c "")
  else if bool_decide (c = "\"%char) then "\\"
  else if (ord c =? 9)%Z then "\t"
  else if (ord c =? 10)%Z then "\n"
  else if (ord c =? 13)%Z then "\r"
  else if ((ord c <? 32) || (ord c =? 127))%Z then "\x" +:+ hex_byte (ord c)
  else String c "".

Definition dquote : ascii := ascii_of_N 34.

Definition repr_str (s : string) : string :=
  let quote :=
    if str_contains_char "'"%char s && negb (str_contains_char dquote s)
    then dquote else "'"%char in
  String quote
    (String.concat "" (map (repr_char quote) (list_ascii_of_string s))
     +:+ String quote "").

Definition repr (v : Value) : string :=
  match v with
  | VNone => "None"
  | VBool true => "True"
  | VBool false => "False"
  | VInt z => str_int z
  | VStr s => repr_str s
  end.

Definition repr_str_list (l : list string) : string :=
  "[" +:+ String.concat ", " (map repr_str l) +:+ "]".

(** [str(e)]: the message of an application exception, the argument of a
    builtin one. *)
Fixpoint str_exn (e : exn) : string :=
  match e with
  | ValueError a => str_exn_arg a
  | KeyError k => repr_str k
  | IndexError => "list index out of range"
  | AttributeError a => "'DataFrame' object has no attribute '" +:+ a +:+ "'"
  | TypeError m => m
  | OSError m => m
  | RuntimeError m => m
  | StoreError m => m
  | Neo4jConnectionError m => m
  | GraphCreationError m _ => m
  | DataIngestionError m _ => m
  | InvalidFileFormatError f fmts =>
      "Invalid file format for " +:+ f +:+ ". Expected: " +:+ String.concat ", " fmts
  | FileTooLargeError f size max_size =>
      "File " +:+ f +:+ " is too large (" +:+ str_int (Z.of_nat size)
      +:+ " bytes). Maximum size: " +:+ str_int (Z.of_nat max_size) +:+ " bytes"
  | HTTPException c d => str_int c +:+ ": " +:+ d
  end
with str_exn_arg (a : exn_arg) : string :=
  match a with
  | Msg s => s
  | NoDataFrameFor props =>
      "No dataframe found containing all required properties: " +:+ repr_str_list props
  | Wrapped e => str_exn e
  end.

(** [s[:n]] and [s[n:]] *)
Fixpoint string_take (n : nat) (s : string) : string :=
  match n, s with
  | S n', String c s' => String c (string_take n' s')
  | _, _ => EmptyString
  end.

Fixpoint string_drop (n : nat) (s : string) : string :=
  match n, s with
  | S n', String _ s' => string_drop n' s'
  | _, _ => s
  end.

(** [s.startswith(p)] *)
Fixpoint starts_with (p s : string) : bool :=
  match p, s with
  | EmptyString, _ => true
  | String a p', String b s' => bool_decide (a = b) && starts_with p' s'
  | String _ _, EmptyString => false
  end.

(** Consecutive pieces of [size] elements, the last one possibly shorter. *)
Fixpoint chunks {A} (fuel size : nat) (l : list A) : list (list A) :=
  match fuel with
  | O => []
  | S fuel' =>
      match l with
      | [] => []
      | _ => take size l :: chunks fuel' size (drop size l)
      end
  end.

(** Truthiness of the values the endpoints test with [not]. *)
Definition truthy_list {A} (l : list A) : bool :=
  match l with [] => false | _ => true end.

End Py.
Export Py.

(* ===================================================================== *)
(** ** hashlib: SHA-1 and MD5 digests (FIPS 180-4, RFC 1321) *)
(* ===================================================================== *)

Module Hashlib.

Local Open Scope Z_scope.

Definition w32 (x : Z) : Z := Z.land x 0xffffffff.
Definition rotl (n x : Z) : Z :=
  w32 (Z.lor (Z.shiftl x n) (Z.shiftr x (32 - n))).
Definition not32 (x : Z) : Z := Z.lxor x 0xffffffff.

Definition bytes_of (s : string) : list Z :=
  map ord (list_ascii_of_string s).

(** The [n] low bytes of [x], most significant first. *)
Fixpoint be_bytes (n : nat) (x : Z) : list Z :=
  match n with
  | O => []
  | S n' => Z.land (Z.shiftr x (8 * Z.of_nat n')) 0xff :: be_bytes n' x
  end.

Definition le_bytes (n : nat) (x : Z) : list Z := rev (be_bytes n x).

Definition be_word (bs : list Z) : Z :=
  fold_left (fun acc b => Z.lor (Z.shiftl acc 8) b) bs 0.

Definition le_word (bs : list Z) : Z := be_word (rev bs).

(** Message padding: a one bit, zeros up to 56 mod 64, the bit length. *)
Definition pad (len_bytes : nat -> Z -> list Z) (msg : list Z) : list Z :=
  let len := Z.of_nat (length msg) in
  msg ++ [0x80] ++ repeat 0 (Z.to_nat ((55 - len) mod 64)) ++ len_bytes 8%nat (8 * len).

Definition blocks (word : list Z -> Z) (msg : list Z) : list (list Z) :=
  map (fun blk => map word (chunks 16 4 blk)) (chunks (length msg) 64 msg).

Definition hex (bs : list Z) : string :=
  String.concat "" (map hex_byte bs).

(** *** SHA-1 *)

Fixpoint sha1_schedule (n : nat) (w : list Z) : list Z :=
  match n with
  | O => w
  | S n' =>
      let i := length w in
      let x k := nth (i - k) w 0 in
      sha1_schedule n'
        (w ++ [rotl 1 (Z.lxor (Z.lxor (x 3%nat) (x 8%nat)) (Z.lxor (x 14%nat) (x 16%nat)))])
  end.

Definition sha1_round (st : Z * Z * Z * Z * Z) (iw : nat * Z) : Z * Z * Z * Z * Z :=
  let '(a, b, c, d, e) := st in
  let '(i, w) := iw in
  let '(f, k) :=
    if (i <? 20)%nat then (Z.lor (Z.land b c) (Z.land (not32 b) d), 0x5a827999)
    else if (i <? 40)%nat then (Z.lxor (Z.lxor b c) d, 0x6ed9eba1)
    else if (i <? 60)%nat
      then (Z.lor (Z.lor (Z.land b c) (Z.land b d)) (Z.land c d), 0x8f1bbcdc)
    else (Z.lxor (Z.lxor b c) d, 0xca62c1d6) in
  (w32 (rotl 5 a + f + e + k + w), a, rotl 30 b, c, d).

Definition sha1_block (h : Z * Z * Z * Z * Z) (blk : list Z) : Z * Z * Z * Z * Z :=
  let w := sha1_schedule 64 blk in
  let '(a, b, c, d, e) := fold_left sha1_round (combine (seq 0 80) w) h in
  let '(h0, h1, h2, h3, h4) := h in
  (w32 (h0 + a), w32 (h1 + b), w32 (h2 + c), w32 (h3 + d), w32 (h4 + e)).

Definition sha1_hexdigest (msg : string) : string :=
  let '(h0, h1, h2, h3, h4) :=
    fold_left sha1_block (blocks be_word (pad be_bytes (bytes_of msg)))
      (0x67452301, 0xefcdab89, 0x98badcfe, 0x10325476, 0xc3d2e1f0) in
  hex (flat_map (be_bytes 4) [h0; h1; h2; h3; h4]).

(** *** MD5 *)

Definition md5_K : list Z :=
  [0xd76aa478; 0xe8c7b756; 0x242070db; 0xc1bdceee;
   0xf57c0faf; 0x4787c62a; 0xa8304613; 0xfd469501;
   0x698098d8; 0x8b44f7af; 0xffff5bb1; 0x895cd7be;
   0x6b901122; 0xfd987193; 0xa679438e; 0x49b40821;
   0xf61e2562; 0xc040b340; 0x265e5a51; 0xe9b6c7aa;
   0xd62f105d; 0x02441453; 0xd8a1e681; 0xe7d3fbc8;
   0x21e1cde6; 0xc33707d6; 0xf4d50d87; 0x455a14ed;
   0xa9e3e905; 0xfcefa3f8; 0x676f02d9; 0x8d2a4c8a;
   0xfffa3942; 0x8771f681; 0x6d9d6122; 0xfde5380c;
   0xa4beea44; 0x4bdecfa9; 0xf6bb4b60; 0xbebfbc70;
   0x289b7ec6; 0xeaa127fa; 0xd4ef3085; 0x04881d05;
   0xd9d4d039; 0xe6db99e5; 0x1fa27cf8; 0xc4ac5665;
   0xf4292244; 0x432aff97; 0xab9423a7; 0xfc93a039;
   0x655b59c3; 0x8f0ccc92; 0xffeff47d; 0x85845dd1;
   0x6fa87e4f; 0xfe2ce6e0; 0xa3014314; 0x4e0811a1;
   0xf7537e82; 0xbd3af235; 0x2ad7d2bb; 0xeb86d391].

Definition md5_S : list Z :=
  [7; 12; 17; 22; 7; 12; 17; 22; 7; 12; 17; 22; 7; 12; 17; 22;
   5; 9; 14; 20; 5; 9; 14; 20; 5; 9; 14; 20; 5; 9; 14; 20;
   4; 11; 16; 23; 4; 11; 16; 23; 4; 11; 16; 23; 4; 11; 16; 23;
   6; 10; 15; 21; 6; 10; 15; 21; 6; 10; 15; 21; 6; 10; 15; 21].

Definition md5_round (m : list Z) (st : Z * Z * Z * Z) (i : nat) : Z * Z * Z * Z :=
  let '(a, b, c, d) := st in
  let '(f, g) :=
    if (i <? 16)%nat then (Z.lor (Z.land b c) (Z.land (not32 b) d), i)
    else if (i <? 32)%nat
      then (Z.lor (Z.land d b) (Z.land (not32 d) c), ((5 * i + 1) mod 16)%nat)
    else if (i <? 48)%nat then (Z.lxor (Z.lxor b c) d, ((3 * i + 5) mod 16)%nat)
    else (Z.lxor c (Z.lor b (not32 d)), ((7 * i) mod 16)%nat) in
  let f' := w32 (f + a + nth i md5_K 0 + nth g m 0) in
  (d, w32 (b + rotl (nth i md5_S 0) f'), b, c).

Definition md5_block (h : Z * Z * Z * Z) (blk : list Z) : Z * Z * Z * Z :=
  let '(a, b, c, d) := fold_left (md5_round blk) (seq 0 64) h in
  let '(a0, b0, c0, d0) := h in
  (w32 (a0 + a), w32 (b0 + b), w32 (c0 + c), w32 (d0 + d)).

Definition md5_hexdigest (msg : string) : string :=
  let '(a, b, c, d) :=
    fold_left md5_block (blocks le_word (pad le_bytes (bytes_of msg)))
      (0x67452301, 0xefcdab89, 0x98badcfe, 0x10325476) in
  hex (flat_map (le_bytes 4) [a; b; c; d]).

End Hashlib.

(* ===================================================================== *)
(** ** pandas: the part of [DataFrame] the service uses *)
(* ===================================================================== *)

Module Pandas.

(** A Python [dict] with [str] keys, in insertion order. *)
Definition dict (V : Type) : Type := list (string * V).

(** [d[k] = v]: replaces the value in place, or appends a new key. *)
Fixpoint dict_set {V} (k : string) (v : V) (d : dict V) : dict V :=
  match d with
  | [] => [(k, v)]
  | (k', v') :: d' =>
      if bool_decide (k = k') then (k, v) :: d' else (k', v') :: dict_set k v d'
  end.

Fixpoint dict_get {V} (k : string) (d : dict V) : option V :=
  match d with
  | [] => None
  | (k', v) :: d' => if bool_decide (k = k') then Some v else dict_get k d'
  end.

Definition keys {V} (d : dict V) : list string := map fst d.

(** A frame with the default [RangeIndex]: ordered column labels and the
    rows, each row holding one cell per column. *)
Record DataFrame : Type := {
  columns : list string;
  rows : list (list Value)
}.

#[global] Instance DataFrame_eq_dec : EqDecision DataFrame.
Proof. solve_decision. Defined.

Definition len (df : DataFrame) : nat := length (rows df).

(** [Index.get_loc]. *)
Fixpoint get_loc (c : string) (cols : list string) : option nat :=
  match cols with
  | [] => None
  | c' :: cols' => if bool_decide (c = c') then Some O else S <$> get_loc c cols'
  end.

Fixpoint traverse {A B} (f : A -> result B) (l : list A) : result (list B) :=
  match l with
  | [] => Ok []
  | x :: l' => y ← f x; ys ← traverse f l'; Ok (y :: ys)
  end.

(** [df[cols]] for a list of labels: [KeyError] on a label that is not a
    column. *)
Definition getitem (df : DataFrame) (cols : list string) : result DataFrame :=
  locs ← traverse (fun c => match get_loc c (columns df) with
                            | Some i => Ok i
                            | None => Err (KeyError c)
                            end) cols;
  Ok {| columns := cols;
        rows := map (fun r => map (fun i => nth i r VNone) locs) (rows df) |}.

(** [df.to_dict(orient="records")]: one [dict] per row, keyed by column. *)
Definition to_dict_records (df : DataFrame) : list (dict Value) :=
  map (fun r => fold_left (fun d kv => dict_set kv.1 kv.2 d) (zip (columns df) r) [])
      (rows df).

(** [set(df.columns)] *)
Definition column_set (df : DataFrame) : gset string := list_to_set (columns df).

(** [DataFrame.join(other, on=..., how=...)] belongs to pandas, not to the
    service; the development is parametric in it. *)
Class PandasJoin : Type :=
  df_join : DataFrame -> DataFrame -> list string -> string -> result DataFrame.

(** Attribute lookup [df.collect] followed by a call.  A pandas frame has
    no such method: the lookup falls back to the column of that name (a
    [Series], which is not callable) and fails otherwise. *)
Definition collect (df : DataFrame) : result DataFrame :=
  if bool_decide ("collect" ∈ columns df)
  then Err (TypeError "'Series' object is not callable")
  else Err (AttributeError "collect").

End Pandas.
Export Pandas.

(* ===================================================================== *)
(** ** app/models/graph_config.py *)
(* ===================================================================== *)

Record GraphElement : Type := {
  label : string;
  properties : list string
}.

Record GraphConfig : Type := {
  source : GraphElement;
  target : GraphElement;
  rels : GraphElement
}.

(* ===================================================================== *)
(** ** app/utils/data_manip.py *)
(* ===================================================================== *)

Module DataManip.

Definition check_cols_step (data : DataFrame)
    (acc : list string * dict string) (col : string) : list string * dict string :=
  let '(exists_, info) := acc in
  if bool_decide (col ∈ columns data)
  then (exists_ ++ [col], dict_set col "exist in data columns" info)
  else (exists_, dict_set col "not in data columns" info).

Definition check_cols_exist_in_db (data : DataFrame) (cols : list string)
    : result (list string * dict string) :=
  let '(exists_, info) := fold_left (check_cols_step data) cols ([], []) in
  if truthy_list exists_
  then Ok (exists_, info)
  else Err (ValueError (Msg "Your columns does not exist in the data columns")).

End DataManip.
Export DataManip.

(* ===================================================================== *)
(** ** app/services/neo4j/ingest.py *)
(* ===================================================================== *)

Module Ingest.

(** [data_dico] is a [dict] of named frames, scanned in insertion order.
    The [try] catches [ValueError] only; any other exception escapes. *)
Fixpoint find_data_frame (data_dico : list (string * DataFrame)) (props : list string)
    : result (string * DataFrame) :=
  match data_dico with
  | [] => Err (ValueError (NoDataFrameFor props))
  | (df_name, df) :: rest =>
      match (r ← check_cols_exist_in_db df props;
             sub ← getitem df r.1;
             Ok (df_name, sub)) with
      | Ok found => Ok found
      | Err (ValueError _) => find_data_frame rest props
      | Err e => Err e
      end
  end.

Section Join.
Context `{PandasJoin}.

Definition create_data_frame_from_props_block
    (data_dico : list (string * DataFrame)) (props_block : GraphConfig)
    : result DataFrame :=
  s ← find_data_frame data_dico (properties (source props_block));
  t ← find_data_frame data_dico (properties (target props_block));
  r ← find_data_frame data_dico (properties (rels props_block));
  let source_df := s.2 in
  let target_df := t.2 in
  let rels_df := r.2 in
  let st_intersection := column_set source_df ∩ column_set target_df in
  st_df_lazy ← df_join source_df target_df (elements st_intersection) "right";
  let str_intersection := column_set st_df_lazy ∩ column_set rels_df in
  str_df_lazy ← df_join st_df_lazy rels_df (elements str_intersection) "right";
  collect str_df_lazy.

End Join.

End Ingest.
Export Ingest.

(* ===================================================================== *)
(** ** app/services/neo4j/graph_api.py *)
(* ===================================================================== *)

Module GraphApi.

(** One synthesized node or relationship: the [dict] with keys ["label"]
    and ["properties"] that [graph_element_props] builds. *)
Record GraphElementRecord : Type := {
  rec_label : string;
  rec_properties : dict Value
}.

(** The [dict] with keys ["source"], ["target"] and ["rels"]. *)
Record ProjectedEdge : Type := {
  edge_source : GraphElementRecord;
  edge_target : GraphElementRecord;
  edge_rels : GraphElementRecord
}.

#[global] Instance GraphElementRecord_eq_dec : EqDecision GraphElementRecord.
Proof. solve_decision. Defined.
#[global] Instance ProjectedEdge_eq_dec : EqDecision ProjectedEdge.
Proof. solve_decision. Defined.

(** Order of [(key, value)] tuples under [sorted]: tuples compare by their
    first component first, and the keys of a [dict] are distinct, so the
    values are never compared. *)
Definition item_le (a b : string * Value) : Prop :=
  String.leb a.1 b.1 = true.

#[global] Instance item_le_dec : RelDecision item_le.
Proof. intros a b. unfold item_le. apply _. Defined.

(** [sorted(props.items())] *)
Definition sorted (items : dict Value) : list (string * Value) :=
  merge_sort item_le items.

(** [repr] of a list of 2-tuples. *)
Definition repr_item (kv : string * Value) : string :=
  "(" +:+ repr_str kv.1 +:+ ", " +:+ repr kv.2 +:+ ")".

Definition repr_items (l : list (string * Value)) : string :=
  "[" +:+ String.concat ", " (map repr_item l) +:+ "]".

(** [f"{label}:{sorted(props.items())}"] *)
Definition raw_key (label : string) (props : dict Value) : string :=
  label +:+ ":" +:+ repr_items (sorted props).

(** The body of the [for] loop: hash the row's properties, then store the
    digest under ["id"] in that same [dict]. *)
Definition with_id (label : string) (props : dict Value) : GraphElementRecord :=
  {| rec_label := label;
     rec_properties :=
       dict_set "id" (VStr (Hashlib.sha1_hexdigest (raw_key label props))) props |}.

Definition graph_element_props (data : DataFrame) (label : string) (props : list string)
    : result (list GraphElementRecord) :=
  match (r ← check_cols_exist_in_db data props;
         graph_element_df ← getitem data r.1;
         Ok (map (with_id label) (to_dict_records graph_element_df))) with
  | Ok graph_elements => Ok graph_elements
  | Err e => Err (ValueError (Wrapped e))
  end.

(** [zip] of three lists stops at the shortest. *)
Fixpoint zip3 (ss ts rs : list GraphElementRecord) : list ProjectedEdge :=
  match ss, ts, rs with
  | s :: ss', t :: ts', r :: rs' =>
      {| edge_source := s; edge_target := t; edge_rels := r |} :: zip3 ss' ts' rs'
  | _, _, _ => []
  end.

Definition source_to_target_rels (data : DataFrame) (graph_config : GraphConfig)
    : result (list ProjectedEdge) :=
  source_props_list ←
    graph_element_props data (label (source graph_config)) (properties (source graph_config));
  target_props_list ←
    graph_element_props data (label (target graph_config)) (properties (target graph_config));
  rels_props_list ←
    graph_element_props data (label (rels graph_config)) (properties (rels graph_config));
  Ok (zip3 source_props_list target_props_list rels_props_list).

(** [for x in xs: full_graph_elements.extend(body(x))], leaving the loop
    at the first exception. *)
Fixpoint extend_loop {A} (body : A -> result (list ProjectedEdge)) (xs : list A)
    (full_graph_elements : list ProjectedEdge) : result (list ProjectedEdge) :=
  match xs with
  | [] => Ok full_graph_elements
  | x :: xs' =>
      r ← body x;
      extend_loop body xs' (full_graph_elements ++ r)
  end.

Section Join.
Context `{PandasJoin}.

Definition create_graph_api (graph_config_list : list GraphConfig)
    (data_dico : list (string * DataFrame)) : result (list ProjectedEdge) :=
  if bool_decide (1 < length data_dico) then
    extend_loop
      (fun graph_config_bloc =>
         data ← create_data_frame_from_props_block data_dico graph_config_bloc;
         source_to_target_rels data graph_config_bloc)
      graph_config_list []
  else
    match data_dico with
    | [] => Err IndexError
    | (_, data) :: _ =>
        extend_loop (fun graph_config_bloc => source_to_target_rels data graph_config_bloc)
          graph_config_list []
    end.

End Join.

End GraphApi.
Export GraphApi.

(* ===================================================================== *)
(** ** app/services/neo4j/database.py *)
(* ===================================================================== *)

Module Database.

(** One entry of [configs_data], the parameter of the Cypher query. *)
Record BatchConfig : Type := {
  source_label : string;
  source_props : dict Value;
  target_label : string;
  target_props : dict Value;
  rel_label : string;
  rel_props : dict Value
}.

(** The graph store as seen through one driver session: the queries it
    has committed, in order, the number of queries issued to it so far, and
    its behaviour on each future query ([faults k] is the error text the
    store answers the [k]-th query with, if it fails it). *)
Record Neo4jSession : Type := {
  committed : list (list BatchConfig);
  attempts : nat;
  faults : nat -> option string
}.

(** [await session.run(query, configs=...)] followed by [consume()]: an
    auto-commit transaction. *)
Definition run (session : Neo4jSession) (configs : list BatchConfig)
    : Neo4jSession * result unit :=
  let k := attempts session in
  match faults session k with
  | Some msg =>
      ({| committed := committed session; attempts := S k; faults := faults session |},
       Err (StoreError msg))
  | None =>
      ({| committed := committed session ++ [configs]; attempts := S k;
          faults := faults session |},
       Ok tt)
  end.

Definition config_of (cfg : ProjectedEdge) : BatchConfig :=
  {| source_label := rec_label (edge_source cfg);
     source_props := rec_properties (edge_source cfg);
     target_label := rec_label (edge_target cfg);
     target_props := rec_properties (edge_target cfg);
     rel_label := rec_label (edge_rels cfg);
     rel_props := rec_properties (edge_rels cfg) |}.

Definition _create_batch (session : Neo4jSession) (batch : list ProjectedEdge)
    : Neo4jSession * result unit :=
  if negb (truthy_list batch) then (session, Ok tt)
  else run session (map config_of batch).

(** [range(0, stop, step)] for a length [stop]. *)
Fixpoint range_up (fuel : nat) (i stop step : Z) : list Z :=
  match fuel with
  | O => []
  | S fuel' => if (i <? stop)%Z then i :: range_up fuel' (i + step) stop step else []
  end.

Definition range0 (stop step : Z) : result (list Z) :=
  if (step =? 0)%Z then Err (ValueError (Msg "range() arg 3 must not be zero"))
  else if (step <? 0)%Z then Ok []
  else Ok (range_up (Z.to_nat stop) 0 stop step).

(** [l[i:j]] for [0 <= i]. *)
Definition slice {A} (l : list A) (i j : Z) : list A :=
  take (Z.to_nat j - Z.to_nat i) (drop (Z.to_nat i) l).

(** The statistics returned on success (the elapsed wall time is left
    out). *)
Record Stats : Type := {
  configs_processed : nat;
  batches : nat
}.

(** [for batch_idx, batch in enumerate(batches, 1)] with its inner
    [try]. *)
Fixpoint batch_loop (session : Neo4jSession) (batch_idx : nat)
    (todo : list (list ProjectedEdge)) : Neo4jSession * result unit :=
  match todo with
  | [] => (session, Ok tt)
  | batch :: rest =>
      match _create_batch session batch with
      | (session', Ok _) => batch_loop session' (S batch_idx) rest
      | (session', Err e) =>
          (session',
           Err (GraphCreationError
                  ("Failed to process batch " +:+ str_int (Z.of_nat batch_idx))
                  [("error", VStr (str_exn e));
                   ("batch_size", VInt (Z.of_nat (length batch)))]))
      end
  end.

(** [or] on two integers. *)
Definition or_int (a : option Z) (b : Z) : Z :=
  match a with
  | Some x => if (x =? 0)%Z then b else x
  | None => b
  end.

Definition create_graph_data (self_batch_size : Z)
    (graph_config_list : list ProjectedEdge) (batch_size : option Z)
    (session : Neo4jSession) : Neo4jSession * result Stats :=
  let total_configs := length graph_config_list in
  if bool_decide (total_configs = 0) then
    (session, Err (GraphCreationError "Empty graph configuration list" []))
  else
    let batch_size := or_int batch_size self_batch_size in
    match range0 (Z.of_nat total_configs) batch_size with
    | Err e => (session, Err e)
    | Ok starts =>
        let batches := map (fun i => slice graph_config_list i (i + batch_size)) starts in
        match batch_loop session 1 batches with
        | (session', Ok _) =>
            (session',
             Ok {| configs_processed := total_configs; batches := length batches |})
        | (session', Err (Neo4jConnectionError m)) =>
            (session', Err (Neo4jConnectionError m))
        | (session', Err e) =>
            (session',
             Err (GraphCreationError "Failed to create graph"
                    [("error", VStr (str_exn e));
                     ("configs", VInt (Z.of_nat total_configs))]))
        end
    end.

End Database.

(* ===================================================================== *)
(** ** app/services/session_manager2.py *)
(* ===================================================================== *)

Module SessionManager2.

(** [app/models/response_data.py] *)
Record TableData : Type := {
  table_name : string;
  td_columns : list string;
  total_rows : nat;
  total_columns : nat;
  preview : option (list (dict Value))
}.

(** The [session_data] dictionary.  [dataframes] is [None] in the copy
    that [get_session_info] returns, which has that key popped. *)
Record SessionData : Type := {
  session_id : string;
  created_at : Z;
  source_type : string;
  table_data : dict TableData;
  dataframe_count : nat;
  sd_total_rows : nat;
  dataframes : option (list (string * DataFrame))
}.

(** What a file of the cache directory holds: a pickled session, or bytes
    that [pickle.load] rejects. *)
Inductive File : Type :=
| Pickle (d : SessionData)
| Garbage.

(** The manager and the cache directory it owns.  [faulty] names the files
    on which [open(.., 'wb')] and [unlink()] raise [OSError].  The
    directory itself exists ([_ensure_initialized] succeeds). *)
Record SessionManager : Type := {
  cache_dir : gmap string File;
  faulty : gset string;
  session_timeout : Z;
  _sessions : gmap string SessionData
}.

Definition with_sessions (self : SessionManager) (m : gmap string SessionData)
    : SessionManager :=
  {| cache_dir := cache_dir self; faulty := faulty self;
     session_timeout := session_timeout self; _sessions := m |}.

Definition with_cache_dir (self : SessionManager) (fs : gmap string File)
    : SessionManager :=
  {| cache_dir := fs; faulty := faulty self;
     session_timeout := session_timeout self; _sessions := _sessions self |}.

Definition _get_session_path (session_id : string) : string :=
  "session_" +:+ session_id +:+ ".pkl".

Definition delete_session (self : SessionManager) (session_id : string)
    : SessionManager * bool :=
  let self := with_sessions self (delete session_id (_sessions self)) in
  let session_path := _get_session_path session_id in
  if bool_decide (is_Some (cache_dir self !! session_path)) then
    if bool_decide (session_path ∈ faulty self) then (self, false)
    else (with_cache_dir self (delete session_path (cache_dir self)), true)
  else (self, true).

Definition _load_session_metadata (now : Z) (self : SessionManager) (session_id : string)
    : SessionManager * option SessionData :=
  match cache_dir self !! _get_session_path session_id with
  | None => (self, None)
  | Some Garbage => (self, None)
  | Some (Pickle session_data) =>
      if (now - created_at session_data >? session_timeout self)%Z
      then ((delete_session self session_id).1, None)
      else (self, Some session_data)
  end.

Definition _save_session_metadata (self : SessionManager) (session_id : string)
    (session_data : SessionData) : result SessionManager :=
  let session_path := _get_session_path session_id in
  if bool_decide (session_path ∈ faulty self)
  then Err (RuntimeError "Failed to save session data")
  else Ok (with_cache_dir self (<[session_path := Pickle session_data]> (cache_dir self))).

Definition sum_list (l : list nat) : nat := fold_left Nat.add l 0.

Definition create_session (now : Z) (self : SessionManager) (session_id : string)
    (dataframes : list (string * DataFrame)) (table_data : dict TableData)
    (source_type : string) : result (SessionManager * string) :=
  let session_data :=
    {| session_id := session_id;
       created_at := now;
       source_type := source_type;
       table_data := table_data;
       dataframe_count := length dataframes;
       sd_total_rows := sum_list (map (fun d => len d.2) dataframes);
       dataframes := Some dataframes |} in
  self ← _save_session_metadata self session_id session_data;
  Ok (with_sessions self (<[session_id := session_data]> (_sessions self)), session_id).

Definition get_session (now : Z) (self : SessionManager) (session_id : string)
    : SessionManager * option SessionData :=
  let cached :=
    match _sessions self !! session_id with
    | Some session_data =>
        if (now - created_at session_data <=? session_timeout self)%Z
        then inl session_data
        else inr (with_sessions self (delete session_id (_sessions self)))
    | None => inr self
    end in
  match cached with
  | inl session_data => (self, Some session_data)
  | inr self =>
      match _load_session_metadata now self session_id with
      | (self, Some session_data) =>
          (with_sessions self (<[session_id := session_data]> (_sessions self)),
           Some session_data)
      | (self, None) => (self, None)
      end
  end.

Definition get_dataframes (now : Z) (self : SessionManager) (session_id : string)
    : SessionManager * option (list (string * DataFrame)) :=
  let '(self, session) := get_session now self session_id in
  (self, session ≫= dataframes).

Definition get_table_data (now : Z) (self : SessionManager) (session_id : string)
    : SessionManager * option (dict TableData) :=
  let '(self, session) := get_session now self session_id in
  (self, table_data <$> session).

(** [info = session.copy(); info.pop('dataframes', None)] *)
Definition info_of (session : SessionData) : SessionData :=
  {| session_id := session_id session;
     created_at := created_at session;
     source_type := source_type session;
     table_data := table_data session;
     dataframe_count := dataframe_count session;
     sd_total_rows := sd_total_rows session;
     dataframes := None |}.

Definition get_session_info (now : Z) (self : SessionManager) (session_id : string)
    : SessionManager * option SessionData :=
  let '(self, session) := get_session now self session_id in
  (self, info_of <$> session).

(** [s.replace(old, "")]: [skip] counts the characters of the occurrence
    being dropped. *)
Fixpoint remove_all (old : string) (skip : nat) (s : string) : string :=
  match s with
  | EmptyString => EmptyString
  | String c s' =>
      match skip with
      | S k => remove_all old k s'
      | O =>
          if starts_with old s then remove_all old (String.length old - 1) s'
          else String c (remove_all old 0 s')
      end
  end.

Definition ends_with (suffix s : string) : bool :=
  bool_decide (string_drop (String.length s - String.length suffix) s = suffix).

(** [fnmatch] of a file name against ["session_*.pkl"]. *)
Definition glob_match (name : string) : bool :=
  starts_with "session_" name && ends_with ".pkl" (string_drop 8 name).

(** [session_file.stem.replace("session_", "")] for a name ending in
    [".pkl"]. *)
Definition session_id_of_file (name : string) : string :=
  remove_all "session_" 0 (string_take (String.length name - 4) name).



Definition glob (self : SessionManager) : list string :=
  filter (fun name => glob_match name = true) (map fst (map_to_list (cache_dir self))).


Definition expired (now : Z) (self : SessionManager) (session_data : SessionData) : bool :=
  (now - created_at session_data >? session_timeout self)%Z.

Definition cleanup_file (now : Z) (acc : SessionManager * nat) (session_file : string)
    : SessionManager * nat :=
  let '(self, removed_count) := acc in
  let unlink :=
    if bool_decide (session_file ∈ faulty self) then None
    else Some (with_cache_dir self (delete session_file (cache_dir self))) in
  match cache_dir self !! session_file with
  | Some (Pickle session_data) =>
      if expired now self session_data then
        match unlink with
        | Some self' => (self', S removed_count)
        | None => (self, removed_count)
        end
      else (self, removed_count)
  | Some Garbage =>
      match unlink with
      | Some self' => (self', S removed_count)
      | None => (self, removed_count)
      end
  | None => (self, removed_count)
  end.

Definition cleanup_expired_sessions (now : Z) (self : SessionManager)
    : SessionManager * nat :=
  let stale := filter (fun kv => expired now self kv.2 = true) (map_to_list (_sessions self)) in
  let self1 := with_sessions self (foldr (fun kv m => delete kv.1 m) (_sessions self) stale) in
  fold_left (cleanup_file now) (glob self1) (self1, length stale).

End SessionManager2.
Export SessionManager2.

(* ===================================================================== *)
(** ** app/services/ingest.py and app/api/v1/endpoints/files.py *)
(* ===================================================================== *)

Module Files.

(** An uploaded file: its name and a byte stream with a read position. *)
Record UploadFile : Type := {
  filename : string;
  stream : string;
  position : nat
}.

(** [await file.read()]: the bytes from the position to the end; the
    position moves to the end. *)
Definition read (file : UploadFile) : string * UploadFile :=
  (string_drop (position file) (stream file),
   {| filename := filename file; stream := stream file;
      position := String.length (stream file) |}).

(** [await file.seek(0)] *)
Definition seek0 (file : UploadFile) : UploadFile :=
  {| filename := filename file; stream := stream file; position := 0 |}.

(** What the upload path takes from outside the core: the file decoders
    ([load_file]), [pathlib]'s [stem], the filename policy of
    [app/core/security.py], the settings, and the white-space stripping
    that pydantic applies to every [str] it validates for a model derived
    from [BaseSchema] ([str_strip_whitespace=True] in
    [app/models/base.py]).  The development is parametric in them. *)
Class UploadEnv : Type := {
  load_file : string -> string -> result DataFrame;
  path_stem : string -> string;
  strip : string -> string;
  sanitize_filename : string -> string;
  check_file_extension : string -> bool;
  allowed_extensions : list string;
  max_upload_size : nat
}.

Record DataResponses : Type := {
  message : string;
  total_tables : nat;
  data_tables : dict TableData
}.

Record UploadResponse : Type := {
  success : bool;
  response_session_id : string;
  data_responses : DataResponses
}.

Section Upload.
Context `{UploadEnv}.

(** [df.head(5).to_dict(orient="records")] *)
Definition preview_of (df : DataFrame) : option (list (dict Value)) :=
  if bool_decide (0 < len df)
  then Some (to_dict_records {| columns := columns df; rows := take 5 (rows df) |})
  else None.

(** [TableData(table_name=..., columns=..., ...)]: the model validates its
    fields and strips the strings among them, the table name and each
    column name.  The keys and values of the preview are not typed [str]
    and stay as they are. *)
Definition make_TableData (table_name : string) (columns : list string)
    (total_rows total_columns : nat) (preview : option (list (dict Value)))
    : TableData :=
  {| table_name := strip table_name;
     td_columns := map strip columns;
     total_rows := total_rows;
     total_columns := total_columns;
     preview := preview |}.

(** A [Dict[str, V]] field validated by a model: every key is stripped,
    and an entry whose stripped key is already there replaces the value
    under it. *)
Definition strip_keys {V} (d : dict V) : dict V :=
  fold_left (fun acc kv => dict_set (strip kv.1) kv.2 acc) d [].

(** [DataResponses(message=..., total_tables=..., data_tables=...)] *)
Definition make_DataResponses (message : string) (total_tables : nat)
    (data_tables : dict TableData) : DataResponses :=
  {| message := strip message;
     total_tables := total_tables;
     data_tables := strip_keys data_tables |}.

(** The [for file in files] loop of [_create_data_frame_from_files]; the
    files read so far stay read when a later one fails to load. *)
Fixpoint load_loop (files : list UploadFile)
    (table_data : dict TableData) (dataframes : list (string * DataFrame))
    : list UploadFile * result (dict TableData * list (string * DataFrame)) :=
  match files with
  | [] => ([], Ok (table_data, dataframes))
  | file :: rest =>
      let '(content, file) := read file in
      let filename := if bool_decide (filename file = "") then "unknown" else filename file in
      let table_name := path_stem filename in
      match load_file content filename with
      | Err e => (file :: rest, Err e)
      | Ok df =>
          let dataframes := dict_set table_name df dataframes in
          let table_data :=
            dict_set table_name
              (make_TableData table_name (columns df) (len df) (length (columns df))
                 (preview_of df)) table_data in
          let '(rest, r) := load_loop rest table_data dataframes in
          (file :: rest, r)
      end
  end.

Definition _create_data_frame_from_files (files : list UploadFile)
    : list UploadFile * result (dict TableData * list (string * DataFrame)) :=
  load_loop files [] [].

(** The validation loop of [upload_files]. *)
Fixpoint validate (files : list UploadFile) : result (list UploadFile) :=
  match files with
  | [] => Ok []
  | file :: rest =>
      let file := {| filename := sanitize_filename (filename file);
                     stream := stream file; position := position file |} in
      if negb (check_file_extension (filename file))
      then Err (InvalidFileFormatError (filename file) allowed_extensions)
      else
        let '(content, file) := read file in
        if bool_decide (max_upload_size < String.length content)
        then Err (FileTooLargeError (filename file) (String.length content) max_upload_size)
        else
          let file := seek0 file in
          rest ← validate rest;
          Ok (file :: rest)
  end.

Definition upload_files (now : Z) (files : list UploadFile)
    (session_manager : SessionManager) : SessionManager * result UploadResponse :=
  if negb (truthy_list files)
  then (session_manager, Err (HTTPException 400 "No files provided"))
  else
    match validate files with
    | Err e => (session_manager, Err e)
    | Ok files =>
        let failed e :=
          (session_manager, Err (DataIngestionError "Failed to process uploaded files" e)) in
        match _create_data_frame_from_files files with
        | (_, Err e) => failed e
        | (files, Ok (table_data, dataframes)) =>
            match files with
            | [] => failed IndexError
            | first :: _ =>
                let first_file_content := (read first).1 in
                let session_id := Hashlib.md5_hexdigest first_file_content in
                match create_session now session_manager session_id
                        dataframes table_data "file" with
                | Err e => failed e
                | Ok (session_manager, _) =>
                    (session_manager,
                     Ok {| success := true;
                           response_session_id := session_id;
                           data_responses :=
                             make_DataResponses
                               ("Successfully uploaded "
                                +:+ str_int (Z.of_nat (length files)) +:+ " file(s)")
                               (length table_data) table_data |})
                end
            end
        end
    end.

End Upload.

End Files.

(* ===================================================================== *)
(** ** app/api/v1/endpoints/graph_builder.py and sessions.py *)
(* ===================================================================== *)

Module Endpoints.

Section Join.
Context `{PandasJoin}.

(** [graph_api[:limit]] *)
Definition slice_to {A} (l : list A) (limit : Z) : list A :=
  if (limit <? 0)%Z then take (length l - Z.to_nat (- limit)) l
  else take (Z.to_nat limit) l.

Definition create_graph_data (now : Z) (session_id : string)
    (graph_config_list : list GraphConfig) (limit : option Z)
    (session_manager : SessionManager) (store : Database.Neo4jSession)
    : SessionManager * Database.Neo4jSession * result Database.Stats :=
  let '(session_manager, session_info) := get_session_info now session_manager session_id in
  match session_info with
  | None =>
      (session_manager, store, Err (HTTPException 404 "Session not found or expired"))
  | Some _ =>
      let '(session_manager, dataframes) := get_dataframes now session_manager session_id in
      match dataframes with
      | None | Some [] =>
          (session_manager, store, Err (HTTPException 404 "No data found for this session"))
      | Some dataframes =>
          if negb (truthy_list graph_config_list) then
            (session_manager, store,
             Err (HTTPException 400 "Graph configuration list is empty"))
          else
            let failed e :=
              Err (HTTPException 500 ("Failed to create graph data: " +:+ str_exn e)) in
            match create_graph_api graph_config_list dataframes with
            | Err e => (session_manager, store, failed e)
            | Ok graph_api =>
                let graph_api_to_process :=
                  match limit with
                  | Some n => if (n =? 0)%Z then graph_api else slice_to graph_api n
                  | None => graph_api
                  end in
                match Database.create_graph_data 1000 graph_api_to_process (Some 1000%Z) store with
                | (store, Ok result) => (session_manager, store, Ok result)
                | (store, Err e) => (session_manager, store, failed e)
                end
            end
      end
  end.

End Join.

(** [DELETE /{session_id}] *)
Definition delete_session_endpoint (session_id : string) (session_manager : SessionManager)
    : SessionManager * result string :=
  let '(session_manager, success) := delete_session session_manager session_id in
  if negb success then (session_manager, Err (HTTPException 404 "Session not found"))
  else (session_manager, Ok "Session deleted successfully").

End Endpoints.

(* ===================================================================== *)
(** ** app/core/security.py: file names, extensions, sizes *)
(* ===================================================================== *)

Module Security.

(** String operations of Python used below.  Names are ASCII text, where
    bytes and characters coincide. *)

(** [''.join(c for c in s if keep(c))] *)
Fixpoint str_filter (keep : ascii -> bool) (s : string) : string :=
  match s with
  | EmptyString => EmptyString
  | String c s' => if keep c then String c (str_filter keep s') else str_filter keep s'
  end.

(** [s.replace(c, '')] for a single character [c]. *)
Definition remove_char (c : ascii) (s : string) : string :=
  str_filter (fun d => negb (bool_decide (d = c))) s.

(** [s.split(sep)[-1]]: what follows the last [sep], all of [s] when it
    has none. *)
Fixpoint after_last (sep : ascii) (s : string) : string :=
  match s with
  | EmptyString => EmptyString
  | String c s' => if str_contains_char sep s then after_last sep s' else s
  end.

(** [s.rsplit(sep, 1)[0]] for an [s] that contains [sep]. *)
Fixpoint before_last (sep : ascii) (s : string) : string :=
  match s with
  | EmptyString => EmptyString
  | String c s' =>
      if str_contains_char sep s' then String c (before_last sep s') else EmptyString
  end.

(** [s[:k]]; a negative [k] counts from the end. *)
Definition slice_to (k : Z) (s : string) : string :=
  if (k <? 0)%Z then string_take (String.length s - Z.to_nat (- k)) s
  else string_take (Z.to_nat k) s.

Definition lower_char (c : ascii) : ascii :=
  if ((65 <=? ord c) && (ord c <=? 90))%Z then ascii_of_N (N_of_ascii c + 32) else c.

(** [s.lower()] *)
Fixpoint lower (s : string) : string :=
  match s with
  | EmptyString => EmptyString
  | String c s' => String (lower_char c) (lower s')
  end.

Definition dot : ascii := "."%char.

(** [get_file_extension] *)
Definition get_file_extension (filename : string) : option string :=
  if negb (str_contains_char dot filename) then None
  else Some (lower (after_last dot filename)).

(** [check_file_extension]; the default of [allowed_extensions] is the
    setting of that name. *)
Definition check_file_extension (filename : string) (allowed_extensions : list string)
    : bool :=
  if negb (str_contains_char dot filename) then false
  else
    let extension := lower (after_last dot filename) in
    bool_decide (extension ∈ map lower allowed_extensions).

Definition dangerous_chars : list ascii :=
  ["<"; ">"; ":"; dquote; "|"; "?"; "*"]%char.

(** The name after the removal steps of [sanitize_filename], before its
    length is limited. *)
Definition cleaned (filename : string) : string :=
  let filename := after_last "\"%char (after_last "/"%char filename) in
  let filename := str_filter (fun c => (32 <=? ord c)%Z) filename in
  let filename := remove_char (ascii_of_N 0) filename in
  fold_left (fun name c => remove_char c name) dangerous_chars filename.

(** The length limit of [sanitize_filename]. *)
Definition limited (max_length : Z) (filename : string) : string :=
  if (max_length <? Z.of_nat (String.length filename))%Z then
    if str_contains_char dot filename then
      let name := before_last dot filename in
      let ext := after_last dot filename in
      let max_name_length := (max_length - Z.of_nat (String.length ext) - 1)%Z in
      slice_to max_name_length name +:+ "." +:+ ext
    else slice_to max_length filename
  else filename.

Definition sanitize_filename (filename : string) (max_length : Z) : string :=
  if bool_decide (filename = "") then "unnamed"
  else
    let filename := limited max_length (cleaned filename) in
    if bool_decide (filename = "") || bool_decide (filename ∈ ["."; ".."])
    then "unnamed"
    else filename.

End Security.

(* ===================================================================== *)
(** ** app/api/v1/endpoints/graph_builder.py: [validate_graph_config] *)
(* ===================================================================== *)

Module Validation.

(** The three shapes of the answer. *)
Inductive Answer : Type :=
| EmptyList                       (* success False, one error *)
| Invalid (errors : list string)  (* success False, the errors *)
| Valid (message : string).       (* success True *)

Definition missing (i : nat) (what : string) (element : GraphElement) : list string :=
  if bool_decide (label element = "")
  then ["Config " +:+ str_int (Z.of_nat i) +:+ ": Missing " +:+ what +:+ " label"]
  else [].

(** The body of [for i, config in enumerate(graph_config)]. *)
Definition config_errors (i : nat) (config : GraphConfig) : list string :=
  missing i "source" (source config)
  ++ missing i "target" (target config)
  ++ missing i "relationship" (rels config).

Definition validate_graph_config (graph_config : list GraphConfig) : Answer :=
  if negb (truthy_list graph_config) then EmptyList
  else
    let validation_errors := concat (imap config_errors graph_config) in
    if truthy_list validation_errors then Invalid validation_errors
    else Valid ("Validated " +:+ str_int (Z.of_nat (length graph_config))
                +:+ " graph configurations").

End Validation.

(* ===================================================================== *)
(** ** Sample data *)
(* ===================================================================== *)

Module Samples.

(** Stripping, on ASCII text: the white space at both ends goes. *)
Definition is_space (c : ascii) : bool :=
  bool_decide (c ∈ [" "; "009"; "010"; "011"; "012"; "013"]%char).

Fixpoint lstrip (s : string) : string :=
  match s with
  | String c s' => if is_space c then lstrip s' else s
  | EmptyString => EmptyString
  end.

Fixpoint rstrip (s : string) : string :=
  match s with
  | String c s' =>
      match rstrip s' with
      | EmptyString => if is_space c then EmptyString else String c EmptyString
      | r => String c r
      end
  | EmptyString => EmptyString
  end.

Definition ascii_strip (s : string) : string := rstrip (lstrip s).

(** A toy decoder for the upload path: one column holding the raw text. *)
Definition raw_env : Files.UploadEnv :=
  {| Files.load_file := fun content filename =>
       Ok {| columns := ["raw"]; rows := [[VStr content]] |};
     Files.path_stem := fun name => string_take (String.length name - 4) name;
     Files.strip := ascii_strip;
     Files.sanitize_filename := fun name => name;
     Files.check_file_extension := fun name => ends_with ".csv" name;
     Files.allowed_extensions := ["csv"];
     Files.max_upload_size := 1000 |}.

Definition people : DataFrame :=
  {| columns := ["id"; "name"; "age"; "city"];
     rows := [[VInt 1; VStr "John"; VInt 30; VStr "NYC"];
              [VInt 2; VStr "Jane"; VInt 25; VStr "LA"]] |}.

Definition cities : DataFrame :=
  {| columns := ["id"; "zip"];
     rows := [[VInt 1; VStr "10001"]; [VInt 3; VStr "60601"]] |}.

(** The rule of [tests/conftest.py] ([sample_graph_config]). *)
Definition sample_graph_config : GraphConfig :=
  {| source := {| label := "Person"; properties := ["id"; "name"; "age"] |};
     target := {| label := "City"; properties := ["city"] |};
     rels := {| label := "LIVES_IN"; properties := [] |} |}.

(** The same rule with a relationship property. *)
Definition lives_in_city : GraphConfig :=
  {| source := {| label := "Person"; properties := ["id"; "name"; "age"] |};
     target := {| label := "City"; properties := ["city"] |};
     rels := {| label := "LIVES_IN"; properties := ["city"] |} |}.

(** Two tables that share the column [id]. *)
Definition persons : DataFrame :=
  {| columns := ["id"; "name"];
     rows := [[VInt 1; VStr "John"]; [VInt 2; VStr "Jane"]] |}.

Definition homes : DataFrame :=
  {| columns := ["id"; "city"];
     rows := [[VInt 1; VStr "NYC"]; [VInt 3; VStr "LA"]] |}.

Definition person_home : GraphConfig :=
  {| source := {| label := "Person"; properties := ["name"] |};
     target := {| label := "City"; properties := ["city"] |};
     rels := {| label := "LIVES_IN"; properties := ["city"] |} |}.

Definition empty_manager (timeout : Z) : SessionManager :=
  {| cache_dir := ∅; faulty := ∅; session_timeout := timeout; _sessions := ∅ |}.

Definition healthy_store : Database.Neo4jSession :=
  {| Database.committed := []; Database.attempts := 0;
     Database.faults := fun _ => None |}.

(** A store that fails the second query it receives. *)
Definition second_query_fails : Database.Neo4jSession :=
  {| Database.committed := []; Database.attempts := 0;
     Database.faults := fun k => if bool_decide (k = 1) then Some "boom" else None |}.

(** A manager with a five-minute timeout that cached [people] at time
    1000. *)
Definition cached_session : SessionData :=
  {| session_id := "d41d8cd98f00b204e9800998ecf8427e";
     created_at := 1000;
     source_type := "file";
     table_data := [];
     dataframe_count := 1;
     sd_total_rows := 2;
     dataframes := Some [("people", people)] |}.

Definition cached_manager : SessionManager :=
  match create_session 1000 (empty_manager 300) "d41d8cd98f00b204e9800998ecf8427e"
          [("people", people)] [] "file" with
  | Ok r => r.1
  | Err _ => empty_manager 300
  end.

(** Two uploads of one file each, with different contents. *)
Definition first_upload : Files.UploadFile :=
  {| Files.filename := "people.csv"; Files.stream := "id,name"; Files.position := 0 |}.

Definition second_upload : Files.UploadFile :=
  {| Files.filename := "cities.csv"; Files.stream := "zip"; Files.position := 0 |}.

Definition response_of (r : SessionManager * result Files.UploadResponse)
    : Files.UploadResponse :=
  match r.2 with
  | Ok response => response
  | Err _ =>
      {| Files.success := false; Files.response_session_id := "";
         Files.data_responses :=
           {| Files.message := ""; Files.total_tables := 0; Files.data_tables := [] |} |}
  end.

Definition uploaded_first : Files.UploadResponse :=
  response_of (Files.upload_files (H := raw_env) 5 [first_upload] (empty_manager 300)).

Definition uploaded_second : Files.UploadResponse :=
  response_of
    (Files.upload_files (H := raw_env) 6 [second_upload]
       (Files.upload_files (H := raw_env) 5 [first_upload] (empty_manager 300)).1).

Definition sample_edge : ProjectedEdge :=
  {| edge_source := with_id "Person" [("name", VStr "John")];
     edge_target := with_id "City" [("city", VStr "NYC")];
     edge_rels := with_id "LIVES_IN" [("since", VInt 2020)] |}.

Definition edges2500 : list ProjectedEdge := repeat sample_edge 2500.

(** [people] narrowed to the source columns and to the target column of
    [lives_in_city]. *)
Definition people_source : DataFrame :=
  {| columns := ["id"; "name"; "age"];
     rows := [[VInt 1; VStr "John"; VInt 30]; [VInt 2; VStr "Jane"; VInt 25]] |}.

Definition people_target : DataFrame :=
  {| columns := ["city"]; rows := [[VStr "NYC"]; [VStr "LA"]] |}.

(** Two rows that agree on [city]. *)
Definition residents : DataFrame :=
  {| columns := ["name"; "city"];
     rows := [[VStr "John"; VStr "NYC"]; [VStr "Jane"; VStr "NYC"]] |}.

(** An upload environment with the file-name policy of
    [app/core/security.py]; the decoder and [stem] are those of [raw_env]. *)
Definition policy_env : Files.UploadEnv :=
  {| Files.load_file := fun content filename =>
       Ok {| columns := ["raw"]; rows := [[VStr content]] |};
     Files.path_stem := fun name => string_take (String.length name - 4) name;
     Files.strip := ascii_strip;
     Files.sanitize_filename := fun name => Security.sanitize_filename name 255;
     Files.check_file_extension := fun name => Security.check_file_extension name ["csv"];
     Files.allowed_extensions := ["csv"];
     Files.max_upload_size := 1000 |}.


End Samples.

(* ===================================================================== *)
(** * Vocabulary of the properties *)
(* ===================================================================== *)

(** The name of the table a column list resolves to. *)
Definition resolved_table (data_dico : list (string * DataFrame)) (props : list string)
    : option string :=
  match find_data_frame data_dico props with
  | Ok found => Some found.1
  | Err _ => None
  end.

(** The edges of a loop whose bodies returned [rs]. *)
Definition edges_of (rs : result (list (list ProjectedEdge))) : result (list ProjectedEdge) :=
  match rs with
  | Ok rs => Ok (concat rs)
  | Err e => Err e
  end.

(** The store answers the next [n] queries without a fault. *)
Definition no_fault_before (session : Database.Neo4jSession) (n : nat) : Prop :=
  forall k, k < n -> Database.faults session (Database.attempts session + k) = None.

(** [b] differs from [a] at most in the copies of session [sid]. *)
Definition same_elsewhere (sid : string) (a b : SessionManager) : Prop :=
  session_timeout b = session_timeout a /\ faulty b = faulty a /\
  (forall k, k <> sid -> _sessions b !! k = _sessions a !! k) /\
  (forall p, p <> _get_session_path sid -> cache_dir b !! p = cache_dir a !! p).

(** Session [sid] is held with data [d]: on disk, and in memory if it is
    cached at all. *)
Definition stored (self : SessionManager) (sid : string) (d : SessionData) : Prop :=
  cache_dir self !! _get_session_path sid = Some (Pickle d)
  /\ (_sessions self !! sid = None \/ _sessions self !! sid = Some d).

(** No copy of session [sid] is left. *)
Definition absent (self : SessionManager) (sid : string) : Prop :=
  cache_dir self !! _get_session_path sid = None /\ _sessions self !! sid = None.

(** The read position of an uploaded file is at the end of its stream. *)
Definition at_end (file : Files.UploadFile) : Prop :=
  Files.position file = String.length (Files.stream file).

(** The [session_data] that [create_session] builds for an upload. *)
Definition session_of (now : Z) (session_id : string)
    (table_data : dict TableData) (dataframes : list (string * DataFrame)) : SessionData :=
  {| session_id := session_id;
     created_at := now;
     source_type := "file";
     table_data := table_data;
     dataframe_count := length dataframes;
     sd_total_rows := sum_list (map (fun d => len d.2) dataframes);
     dataframes := Some dataframes |}.








(** What [check_cols_exist_in_db] reports about a column. *)
Definition column_status (data : DataFrame) (c : string) : string :=
  if bool_decide (c ∈ columns data) then "exist in data columns" else "not in data columns".

(** The cell of a row under a column label. *)
Definition cell (df : DataFrame) (row : list Value) (c : string) : Value :=
  match get_loc c (columns df) with
  | Some i => nth i row VNone
  | None => VNone
  end.

(** The [dict] of a row restricted to [cols]. *)
Definition row_dict (df : DataFrame) (cols : list string) (row : list Value) : dict Value :=
  fold_left (fun d kv => dict_set kv.1 kv.2 d) (map (fun c => (c, cell df row c)) cols) [].


(** A file that the cleanup unlinks once it visits it: one that can be
    unlinked and holds an expired session or fails to load. *)
Definition removable (now : Z) (self : SessionManager) (name : string) : bool :=
  negb (bool_decide (name ∈ faulty self))
  && match cache_dir self !! name with
     | Some (Pickle d) => expired now self d
     | Some Garbage => true
     | None => false
     end.

(** A character that may stay in a file name: no control character, no
    path separator and none of the characters the sanitizer removes. *)
Definition safe_char (c : ascii) : Prop :=
  (32 <= ord c)%Z /\ c ∉ ("/"%char :: "\"%char :: Security.dangerous_chars).

(** A rule with its three property lists emptied. *)
Definition without_properties (config : GraphConfig) : GraphConfig :=
  {| source := {| label := label (source config); properties := [] |};
     target := {| label := label (target config); properties := [] |};
     rels := {| label := label (rels config); properties := [] |} |}.

(** The three elements of a rule, under the names the validation messages
    give them. *)
Definition elements_of (config : GraphConfig) : list (string * GraphElement) :=
  [("source", source config); ("target", target config); ("relationship", rels config)].

(** The metadata [_create_data_frame_from_files] records for a frame:
    the name and the column names stripped, the counts, and the preview. *)
Definition describe `{Files.UploadEnv} (name : string) (df : DataFrame) : TableData :=
  {| table_name := Files.strip name;
     td_columns := map Files.strip (columns df);
     total_rows := len df;
     total_columns := length (columns df);
     preview := Files.preview_of df |}.

Definition describe_all `{Files.UploadEnv} (dataframes : list (string * DataFrame))
    : dict TableData :=
  map (fun d => (d.1, describe d.1 d.2)) dataframes.

(** [file.filename or "unknown"] *)
Definition name_of (file : Files.UploadFile) : string :=
  if bool_decide (Files.filename file = "") then "unknown" else Files.filename file.

(** What the size check of the upload measures: the bytes from the read
    position on. *)
Definition unread (file : Files.UploadFile) : string :=
  string_drop (Files.position file) (Files.stream file).

(** A rule each of whose three elements names a column of the frame. *)
Definition projectable (data : DataFrame) (graph_config : GraphConfig) : Prop :=
  Forall (fun el => exists c, c ∈ properties el /\ c ∈ columns data)
    [source graph_config; target graph_config; rels graph_config].

(** Text, cells and frames in ASCII, where the model of [repr] above is
    Python's. *)
Definition ascii_text (s : string) : bool :=
  forallb (fun c => (ord c <? 128)%Z) (list_ascii_of_string s).

Definition ascii_value (v : Value) : bool :=
  match v with
  | VStr s => ascii_text s
  | _ => true
  end.

Definition ascii_frame (df : DataFrame) : bool :=
  forallb ascii_text (columns df) && forallb (forallb ascii_value) (rows df).


(* ===================================================================== *)
(** * Properties *)
(* ===================================================================== *)

(** ** The models of [hashlib] and of [repr] on known values *)

(** Digests computed by Python's [hashlib], across the padding boundaries
    (55, 56 and 64 bytes) and over more than one block. *)
Lemma hashlib_test_vectors :
  Hashlib.sha1_hexdigest ""
    = "da39a3ee5e6b4b0d3255bfef95601890afd80709"
  /\ Hashlib.md5_hexdigest ""
    = "d41d8cd98f00b204e9800998ecf8427e"
  /\ Hashlib.sha1_hexdigest "abc"
    = "a9993e364706816aba3e25717850c26c9cd0d89d"
  /\ Hashlib.md5_hexdigest "abc"
    = "900150983cd24fb0d6963f7d28e17f72"
  /\ Hashlib.sha1_hexdigest "aaaaaaaaaaaaaaaaaaaaaaaaaaaaaaaaaaaaaaaaaaaaaaaaaaaaaaa"
    = "c1c8bbdc22796e28c0e15163d20899b65621d65a"
  /\ Hashlib.md5_hexdigest "aaaaaaaaaaaaaaaaaaaaaaaaaaaaaaaaaaaaaaaaaaaaaaaaaaaaaaa"
    = "ef1772b6dff9a122358552954ad0df65"
  /\ Hashlib.sha1_hexdigest "aaaaaaaaaaaaaaaaaaaaaaaaaaaaaaaaaaaaaaaaaaaaaaaaaaaaaaaa"
    = "c2db330f6083854c99d4b5bfb6e8f29f201be699"
  /\ Hashlib.md5_hexdigest "aaaaaaaaaaaaaaaaaaaaaaaaaaaaaaaaaaaaaaaaaaaaaaaaaaaaaaaa"
    = "3b0c8ac703f828b04c6c197006d17218"
  /\ Hashlib.sha1_hexdigest "aaaaaaaaaaaaaaaaaaaaaaaaaaaaaaaaaaaaaaaaaaaaaaaaaaaaaaaaaaaaaaaa"
    = "0098ba824b5c16427bd7a1122a5a442a25ec644d"
  /\ Hashlib.md5_hexdigest "aaaaaaaaaaaaaaaaaaaaaaaaaaaaaaaaaaaaaaaaaaaaaaaaaaaaaaaaaaaaaaaa"
    = "014842d480b571495a4a0363793f7367"
  /\ Hashlib.sha1_hexdigest "Person:[('age', 30), ('id', 1), ('name', 'John')]"
    = "b4351c260aec4aa0305fbf98d068554de8cfb3dc"
  /\ Hashlib.md5_hexdigest "Person:[('age', 30), ('id', 1), ('name', 'John')]"
    = "6b409112887d0495455be9f397dfeb25"
  /\ Hashlib.sha1_hexdigest "The quick brown fox jumps over the lazy dogThe quick brown fox jumps over the lazy dogThe quick brown fox jumps over the lazy dog"
    = "d42f858ad812fd986fd8dc7216af5f88bcaa1463"
  /\ Hashlib.md5_hexdigest "The quick brown fox jumps over the lazy dogThe quick brown fox jumps over the lazy dogThe quick brown fox jumps over the lazy dog"
    = "4e67db4a7a406b0cfdadd887cde7888e".
Proof. vm_compute. repeat split. Qed.

Lemma repr_examples :
  raw_key "Person" [("id", VInt 1); ("name", VStr "John"); ("age", VInt 30)]
    = "Person:[('age', 30), ('id', 1), ('name', 'John')]"
  /\ repr (VInt (-120)) = "-120"
  /\ repr (VInt 0) = "0"
  /\ repr (VBool true) = "True"
  /\ repr VNone = "None"
  /\ repr (VStr "it's") = String dquote ("it's" +:+ String dquote "")
  /\ repr (VStr "a\b") = "'a\\b'"
  /\ str_exn (ValueError (NoDataFrameFor ["id"; "city"]))
     = "No dataframe found containing all required properties: ['id', 'city']".
Proof. vm_compute. repeat split. Qed.

(** ** Node identity ([graph_element_props]) *)

Section StringOrder.

Lemma ascii_compare_refl c : Ascii.compare c c = Eq.
Proof. unfold Ascii.compare. apply N.compare_refl. Qed.

Lemma ascii_compare_lt_trans a b c :
  Ascii.compare a b = Lt -> Ascii.compare b c = Lt -> Ascii.compare a c = Lt.
Proof.
  unfold Ascii.compare. rewrite !N.compare_lt_iff. apply N.lt_trans.
Qed.

Lemma string_compare_le_trans s1 : forall s2 s3,
  String.compare s1 s2 <> Gt -> String.compare s2 s3 <> Gt -> String.compare s1 s3 <> Gt.
Proof.
  induction s1 as [|c1 s1 IH]; intros [|c2 s2] [|c3 s3]; simpl; try congruence.
  destruct (Ascii.compare c1 c2) eqn:E12; try congruence;
    destruct (Ascii.compare c2 c3) eqn:E23; try congruence; intros H12 H23.
  - apply Ascii.compare_eq_iff in E12, E23. subst.
    rewrite ascii_compare_refl. eauto.
  - apply Ascii.compare_eq_iff in E12. subst. rewrite E23. congruence.
  - apply Ascii.compare_eq_iff in E23. subst. rewrite E12. congruence.
  - rewrite (ascii_compare_lt_trans _ _ _ E12 E23). congruence.
Qed.

Lemma string_leb_trans s1 s2 s3 :
  String.leb s1 s2 = true -> String.leb s2 s3 = true -> String.leb s1 s3 = true.
Proof.
  unfold String.leb. intros H12 H23.
  pose proof (string_compare_le_trans s1 s2 s3) as T.
  destruct (String.compare s1 s2); destruct (String.compare s2 s3);
    destruct (String.compare s1 s3); try congruence; exfalso; apply T; congruence.
Qed.

End StringOrder.

#[global] Instance item_le_trans : Transitive item_le.
Proof. intros a b c. unfold item_le. apply string_leb_trans. Qed.

#[global] Instance item_le_total : Total item_le.
Proof. intros a b. unfold item_le. apply String.leb_total. Qed.

Lemma sorted_sorted props : Sorted item_le (sorted props).
Proof. apply Sorted_merge_sort, _. Qed.

Lemma sorted_perm props : sorted props ≡ₚ props.
Proof. apply merge_sort_Permutation. Qed.

Lemma NoDup_keys_inj (props : dict Value) (x y : string * Value) :
  NoDup (keys props) -> x ∈ props -> y ∈ props -> x.1 = y.1 -> x = y.
Proof.
  unfold keys. induction props as [|p props IH]; intros ND Hx Hy E.
  - inversion Hx.
  - apply NoDup_cons in ND as [Hp ND].
    apply elem_of_cons in Hx as [->|Hx]; apply elem_of_cons in Hy as [->|Hy]; auto.
    + exfalso. apply Hp. rewrite E. by apply (list_elem_of_fmap_2 fst).
    + exfalso. apply Hp. rewrite <- E. by apply (list_elem_of_fmap_2 fst).
Qed.

Lemma sorted_permutation_invariant (props props' : dict Value) :
  NoDup (keys props) -> props ≡ₚ props' -> sorted props = sorted props'.
Proof.
  intros ND P.
  apply (StronglySorted_unique_strong item_le).
  - intros x y Hx Hy Hxy Hyx.
    apply (NoDup_keys_inj props); auto.
    + by rewrite <- (sorted_perm props).
    + rewrite P. by rewrite <- (sorted_perm props').
    + unfold item_le in *. by apply String.leb_antisym.
  - apply StronglySorted_merge_sort; apply _.
  - apply StronglySorted_merge_sort; apply _.
  - by rewrite !sorted_perm.
Qed.

Lemma dict_get_set {V} k (v : V) d : dict_get k (dict_set k v d) = Some v.
Proof.
  induction d as [|[k' v'] d IH]; simpl.
  - by rewrite bool_decide_eq_true_2.
  - destruct (bool_decide (k = k')) eqn:E; simpl.
    + by rewrite bool_decide_eq_true_2.
    + by rewrite E.
Qed.

Lemma dict_set_keys_NoDup {V} k (v : V) d :
  NoDup (keys d) -> NoDup (keys (dict_set k v d)).
Proof.
  unfold keys. induction d as [|[k' v'] d IH]; simpl; intros ND.
  - apply NoDup_singleton.
  - apply NoDup_cons in ND as [Hk ND].
    case_bool_decide as E; simpl.
    + subst. by apply NoDup_cons.
    + apply NoDup_cons. split; [|by apply IH].
      intros Hin. apply Hk. clear -Hin E.
      induction d as [|[k2 v2] d IH]; simpl in *.
      * apply list_elem_of_singleton in Hin. congruence.
      * case_bool_decide; simpl in *; subst.
        -- apply elem_of_cons in Hin as [?|?]; [congruence|].
           apply elem_of_cons. by right.
        -- apply elem_of_cons in Hin as [->|?]; apply elem_of_cons; auto.
Qed.

(** Every [dict] that [to_dict] hands to the hashing loop has distinct
    keys. *)
Lemma to_dict_records_NoDup df d :
  d ∈ to_dict_records df -> NoDup (keys d).
Proof.
  unfold to_dict_records. intros Hd.
  apply list_elem_of_fmap in Hd as (r & -> & _).
  generalize (zip (columns df) r). intros l.
  assert (G : forall acc : dict Value, NoDup (keys acc) ->
            NoDup (keys (fold_left (fun d kv => dict_set kv.1 kv.2 d) l acc))).
  { induction l as [|kv l IH]; simpl; intros acc ND; [done|].
    apply IH. by apply dict_set_keys_NoDup. }
  apply G. constructor.
Qed.

(** ** Column resolution and projection *)

Import Samples.

Lemma check_cols_fold data cols p :
  exists info',
    fold_left (check_cols_step data) cols p
    = (p.1 ++ filter (fun c => c ∈ columns data) cols, info').
Proof.
  revert p. induction cols as [|c cols IH]; intros [acc info]; simpl.
  - exists info. by rewrite app_nil_r.
  - rewrite filter_cons. case_bool_decide as E.
    + rewrite decide_True by done.
      destruct (IH (acc ++ [c], dict_set c "exist in data columns" info)) as [info' ->].
      exists info'. simpl. by rewrite <- app_assoc.
    + rewrite decide_False by done. apply IH.
Qed.

(** [check_cols_exist_in_db] keeps the requested columns that the frame
    has, and complains only when it has none of them. *)
Lemma check_cols_exist_in_db_spec data cols :
  match check_cols_exist_in_db data cols with
  | Ok r => r.1 = filter (fun c => c ∈ columns data) cols /\ r.1 <> []
  | Err e => filter (fun c => c ∈ columns data) cols = []
             /\ e = ValueError (Msg "Your columns does not exist in the data columns")
  end.
Proof.
  unfold check_cols_exist_in_db.
  edestruct (check_cols_fold data cols) as [info' ->]. simpl.
  destruct (filter _ cols); simpl; auto.
Qed.

Lemma collect_raises df : raises (collect df).
Proof. unfold collect, raises. case_bool_decide; eauto. Qed.

Lemma props_block_never_returns `{PandasJoin} data_dico props_block :
  raises (create_data_frame_from_props_block data_dico props_block).
Proof.
  unfold create_data_frame_from_props_block, raises.
  destruct (find_data_frame data_dico (properties (source props_block))); simpl; eauto.
  destruct (find_data_frame data_dico (properties (target props_block))); simpl; eauto.
  destruct (find_data_frame data_dico (properties (rels props_block))); simpl; eauto.
  destruct (df_join _ _ _ _); simpl; eauto.
  destruct (df_join _ _ _ _); simpl; eauto.
  apply collect_raises.
Qed.

Lemma extend_loop_traverse {A} (body : A -> result (list ProjectedEdge)) xs acc :
  extend_loop body xs acc
  = match traverse body xs with
    | Ok rs => Ok (acc ++ concat rs)
    | Err e => Err e
    end.
Proof.
  revert acc. induction xs as [|x xs IH]; intros acc; simpl.
  - by rewrite app_nil_r.
  - destruct (body x) as [r|e]; simpl; [|done].
    rewrite IH. destruct (traverse body xs); simpl; [|done].
    by rewrite app_assoc.
Qed.

Lemma traverse_length {A B} (f : A -> result B) xs ys :
  traverse f xs = Ok ys -> length ys = length xs.
Proof.
  revert ys. induction xs as [|x xs IH]; intros ys; simpl.
  - by intros [= <-].
  - destruct (f x); simpl; [|done].
    destruct (traverse f xs); simpl; [|done].
    intros [= <-]. simpl. f_equal. by apply IH.
Qed.

Lemma graph_element_props_length data lbl props recs :
  graph_element_props data lbl props = Ok recs -> length recs = len data.
Proof.
  unfold graph_element_props.
  destruct (check_cols_exist_in_db data props) as [r|]; simpl; [|done].
  unfold getitem.
  destruct (traverse _ r.1); simpl; [|done].
  intros [= <-]. unfold to_dict_records, len. simpl.
  by rewrite !length_map.
Qed.

Lemma zip3_length ss ts rs n :
  length ss = n -> length ts = n -> length rs = n -> length (zip3 ss ts rs) = n.
Proof.
  revert ts rs n. induction ss as [|s ss IH]; intros [|t ts] [|r rs] n; simpl;
    try congruence.
  intros <- [= Ht] [= Hr]. f_equal. by apply IH.
Qed.

(** One edge per row of the frame. *)
Lemma source_to_target_rels_length data graph_config edges :
  source_to_target_rels data graph_config = Ok edges -> length edges = len data.
Proof.
  unfold source_to_target_rels.
  destruct (graph_element_props data (label (source graph_config)) _) eqn:Es; simpl; [|done].
  destruct (graph_element_props data (label (target graph_config)) _) eqn:Et; simpl; [|done].
  destruct (graph_element_props data (label (rels graph_config)) _) eqn:Er; simpl; [|done].
  intros [= <-].
  apply zip3_length; eauto using graph_element_props_length.
Qed.

Lemma traverse_concat_length data cfgs rs :
  traverse (source_to_target_rels data) cfgs = Ok rs ->
  length (concat rs) = length cfgs * len data.
Proof.
  revert rs. induction cfgs as [|cfg cfgs IH]; intros rs; simpl.
  - by intros [= <-].
  - destruct (source_to_target_rels data cfg) eqn:E; simpl; [|done].
    destruct (traverse _ cfgs); simpl; [|done].
    intros [= <-]. simpl. rewrite length_app.
    rewrite (source_to_target_rels_length _ _ _ E). f_equal. by apply IH.
Qed.

Lemma get_loc_is_Some c cols : c ∈ cols -> is_Some (get_loc c cols).
Proof.
  induction cols as [|c' cols IH]; simpl; intros Hc.
  - inversion Hc.
  - case_bool_decide; [eauto|].
    apply elem_of_cons in Hc as [?|Hc]; [done|].
    destruct (IH Hc) as [i ->]. simpl. eauto.
Qed.

Lemma getitem_existing df cols :
  Forall (fun c => c ∈ columns df) cols ->
  exists sub, getitem df cols = Ok sub /\ columns sub = cols.
Proof.
  intros Hall. unfold getitem.
  assert (exists locs,
    traverse (fun c => match get_loc c (columns df) with
                       | Some i => Ok i
                       | None => Err (KeyError c)
                       end) cols = Ok locs) as [locs ->].
  { induction Hall as [|c cols Hc _ [locs IH]]; simpl; [eauto|].
    destruct (get_loc_is_Some _ _ Hc) as [i ->]. simpl. rewrite IH. simpl. eauto. }
  simpl. eauto.
Qed.

(** What [find_data_frame] does at the head of the mapping: a table that
    has at least one of the required columns is returned, narrowed to the
    required columns it has; a table that has none of them is skipped. *)
Lemma find_data_frame_first_overlap df_name df rest props :
  filter (fun c => c ∈ columns df) props <> [] ->
  exists sub,
    find_data_frame ((df_name, df) :: rest) props = Ok (df_name, sub)
    /\ columns sub = filter (fun c => c ∈ columns df) props.
Proof.
  intros Hne. simpl.
  pose proof (check_cols_exist_in_db_spec df props) as S.
  destruct (check_cols_exist_in_db df props) as [r|e]; [|by destruct S].
  destruct S as [E _]. simpl.
  destruct (getitem_existing df r.1) as (sub & -> & Hsub).
  { rewrite E. apply Forall_forall. intros c Hc.
    by apply list_elem_of_filter in Hc as [? _]. }
  simpl. exists sub. by rewrite Hsub, E.
Qed.

Lemma find_data_frame_skip df_name df rest props :
  filter (fun c => c ∈ columns df) props = [] ->
  find_data_frame ((df_name, df) :: rest) props = find_data_frame rest props.
Proof.
  intros Hnil. simpl.
  pose proof (check_cols_exist_in_db_spec df props) as S.
  destruct (check_cols_exist_in_db df props) as [r|e].
  - destruct S as [E Hne]. congruence.
  - destruct S as [_ ->]. done.
Qed.

(** C1.  [find_data_frame] evaluated where the resolver's contract and the
    code part: asked for [id] and [city], it returns the first table that
    has [id], narrowed to [id] alone, whether or not a later table has
    both columns; it raises only when no table has any of the columns. *)
Theorem find_data_frame_partial_match :
  find_data_frame [("cities", cities)] ["id"; "city"]
    = Ok ("cities", {| columns := ["id"]; rows := [[VInt 1]; [VInt 3]] |})
  /\ find_data_frame [("cities", cities); ("people", people)] ["id"; "city"]
    = Ok ("cities", {| columns := ["id"]; rows := [[VInt 1]; [VInt 3]] |})
  /\ find_data_frame [("cities", cities); ("people", people)] ["email"]
    = Err (ValueError (NoDataFrameFor ["email"])).
Proof. vm_compute. repeat split. Qed.

(** C2.  The projection of the sample rule of [tests/conftest.py] over the
    single table [people]: the empty relationship column list makes
    [check_cols_exist_in_db] raise, so no edge is produced.  With a
    relationship column the two edges are produced, and the digest stored
    under [id] replaces the value of the table's own [id] column. *)
Theorem sample_rule_projection `{PandasJoin} :
  create_graph_api [sample_graph_config] [("people", people)]
    = Err (ValueError (Wrapped (ValueError
             (Msg "Your columns does not exist in the data columns"))))
  /\ (exists e1 e2,
        create_graph_api [lives_in_city] [("people", people)] = Ok [e1; e2]
        /\ edge_source e1
           = {| rec_label := "Person";
                rec_properties :=
                  [("id", VStr "b4351c260aec4aa0305fbf98d068554de8cfb3dc");
                   ("name", VStr "John"); ("age", VInt 30)] |}
        /\ edge_target e1
           = {| rec_label := "City";
                rec_properties :=
                  [("city", VStr "NYC");
                   ("id", VStr "d8daca9c87a52cb07decf8deda85009a4333a599")] |}).
Proof.
  split; [vm_compute; reflexivity|].
  eexists _, _. vm_compute. repeat split.
Qed.

(** C3.  The multi-table path never produces a row set: after the two
    joins, [create_data_frame_from_props_block] calls [collect()], which a
    pandas frame does not have, so it raises whatever the joins returned;
    in particular the two-table rule over [persons] and [homes] yields no
    edge. *)
Theorem multi_table_join_raises `{PandasJoin} :
  (forall data_dico props_block,
     raises (create_data_frame_from_props_block data_dico props_block))
  /\ raises (create_graph_api [person_home] [("persons", persons); ("homes", homes)]).
Proof.
  split; [apply @props_block_never_returns|].
  unfold create_graph_api. rewrite bool_decide_eq_true_2 by (simpl; lia).
  simpl.
  destruct (props_block_never_returns [("persons", persons); ("homes", homes)] person_home)
    as [e ->].
  simpl. by exists e.
Qed.

(** C4 (the claim fails).  With two tables in the session and a rule
    whose three column lists all resolve to [people], iterating [people]
    directly gives the edges, yet [create_graph_api] does not skip the
    join: it joins the source columns of [people] with its target column,
    and an error of that [join] is the answer of the whole call. *)
Lemma same_table_still_joined :
  resolved_table [("people", people); ("cities", cities)]
    (properties (source lives_in_city)) = Some "people"
  /\ resolved_table [("people", people); ("cities", cities)]
    (properties (target lives_in_city)) = Some "people"
  /\ resolved_table [("people", people); ("cities", cities)]
    (properties (rels lives_in_city)) = Some "people"
  /\ is_ok (source_to_target_rels people lives_in_city) = true
  /\ (forall (J : PandasJoin) (e : exn),
        @df_join J people_source people_target
          (elements (column_set people_source ∩ column_set people_target)) "right"
        = Err e ->
        @create_graph_api J [lives_in_city] [("people", people); ("cities", cities)]
        = Err e).
Proof.
  split; [vm_compute; reflexivity|].
  split; [vm_compute; reflexivity|].
  split; [vm_compute; reflexivity|].
  split; [vm_compute; reflexivity|].
  intros J e Hjoin. unfold create_graph_api. rewrite bool_decide_eq_true_2 by (simpl; lia).
  cbn [extend_loop]. unfold create_data_frame_from_props_block.
  replace (find_data_frame [("people", people); ("cities", cities)]
             (properties (source lives_in_city)))
    with (Ok ("people", people_source)) by (vm_compute; reflexivity).
  replace (find_data_frame [("people", people); ("cities", cities)]
             (properties (target lives_in_city)))
    with (Ok ("people", people_target)) by (vm_compute; reflexivity).
  replace (find_data_frame [("people", people); ("cities", cities)]
             (properties (rels lives_in_city)))
    with (Ok ("people", people_target)) by (vm_compute; reflexivity).
  cbn [mbind result_bind bind snd]. rewrite Hjoin. reflexivity.
Qed.

(** C4 (amended).  The gate is the number of tables in the session.  With
    exactly one table the engine resolves nothing and joins nothing: every
    rule is projected over that table's rows, one edge per row.  With two
    or more tables every rule goes through
    [create_data_frame_from_props_block], whatever tables its column lists
    resolve to, the same table included: the frames the resolver returned
    are handed to [join], and an error of either [join] is the error of
    the block. *)
Theorem create_graph_api_gate `{PandasJoin} (graph_config_list : list GraphConfig) :
  (forall df_name data,
     create_graph_api graph_config_list [(df_name, data)]
     = edges_of (traverse (source_to_target_rels data) graph_config_list))
  /\ (forall df_name data,
        match create_graph_api graph_config_list [(df_name, data)] with
        | Ok edges => length edges = length graph_config_list * len data
        | Err _ => True
        end)
  /\ (forall d1 d2 rest,
        create_graph_api graph_config_list (d1 :: d2 :: rest)
        = edges_of (traverse
                      (fun cfg =>
                         data ← create_data_frame_from_props_block (d1 :: d2 :: rest) cfg;
                         source_to_target_rels data cfg)
                      graph_config_list))
  /\ (forall data_dico cfg s t r e,
        find_data_frame data_dico (properties (source cfg)) = Ok s ->
        find_data_frame data_dico (properties (target cfg)) = Ok t ->
        find_data_frame data_dico (properties (rels cfg)) = Ok r ->
        df_join s.2 t.2 (elements (column_set s.2 ∩ column_set t.2)) "right" = Err e ->
        create_data_frame_from_props_block data_dico cfg = Err e)
  /\ (forall data_dico cfg s t r st e,
        find_data_frame data_dico (properties (source cfg)) = Ok s ->
        find_data_frame data_dico (properties (target cfg)) = Ok t ->
        find_data_frame data_dico (properties (rels cfg)) = Ok r ->
        df_join s.2 t.2 (elements (column_set s.2 ∩ column_set t.2)) "right" = Ok st ->
        df_join st r.2 (elements (column_set st ∩ column_set r.2)) "right" = Err e ->
        create_data_frame_from_props_block data_dico cfg = Err e).
Proof.
  repeat split.
  - intros. unfold create_graph_api. simpl. by rewrite extend_loop_traverse.
  - intros. unfold create_graph_api. simpl. rewrite extend_loop_traverse.
    destruct (traverse _ graph_config_list) eqn:E; [|done].
    simpl. by apply traverse_concat_length.
  - intros. unfold create_graph_api.
    rewrite bool_decide_eq_true_2 by (simpl; lia).
    by rewrite extend_loop_traverse.
  - intros data_dico cfg s t r e Hs Ht Hr Hj. unfold create_data_frame_from_props_block.
    rewrite Hs, Ht, Hr. cbn [mbind result_bind bind]. by rewrite Hj.
  - intros data_dico cfg s t r st e Hs Ht Hr Hj1 Hj2.
    unfold create_data_frame_from_props_block.
    rewrite Hs, Ht, Hr. cbn [mbind result_bind bind]. rewrite Hj1.
    cbn [mbind result_bind bind]. by rewrite Hj2.
Qed.

(** ** The bulk writer ([create_graph_data]) *)

Lemma chunks_concat {A} fuel size (l : list A) :
  0 < size -> length l <= fuel -> concat (chunks fuel size l) = l.
Proof.
  intros Hs. revert l. induction fuel as [|fuel IH]; intros l Hl; simpl.
  - destruct l; simpl in *; [done|lia].
  - destruct l as [|x l]; [done|].
    simpl concat. rewrite IH.
    + apply take_drop.
    + rewrite length_drop. simpl in *. lia.
Qed.

Lemma chunks_sizes {A} fuel size (l : list A) :
  0 < size -> Forall (fun b => 0 < length b <= size) (chunks fuel size l).
Proof.
  intros Hs. revert l. induction fuel as [|fuel IH]; intros l; simpl; [constructor|].
  destruct l as [|x l]; constructor; [|apply IH].
  rewrite length_take. simpl. lia.
Qed.

Lemma chunks_full {A} fuel size (l : list A) i b :
  0 < size -> chunks fuel size l !! i = Some b -> S i < length (chunks fuel size l) ->
  length b = size.
Proof.
  intros Hs. revert l i. induction fuel as [|fuel IH]; intros l i; simpl; [done|].
  destruct l as [|x l]; [done|].
  destruct i as [|i]; simpl.
  - intros [= <-] Hlen. rewrite length_take.
    destruct fuel as [|fuel]; simpl in Hlen; [lia|].
    destruct (drop size (x :: l)) eqn:E; simpl in Hlen; [lia|].
    assert (length (drop size (x :: l)) > 0) by (rewrite E; simpl; lia).
    rewrite length_drop in *. lia.
  - intros Hb Hlen. eapply IH; eauto. lia.
Qed.

(** The list comprehension over [range(0, total, batch_size)] cuts the
    list into consecutive chunks. *)
Lemma batches_are_chunks {A} (l : list A) (bs : Z) fuel (i : nat) :
  (0 < bs)%Z ->
  map (fun j => Database.slice l j (j + bs))
      (Database.range_up fuel (Z.of_nat i) (Z.of_nat (length l)) bs)
  = chunks fuel (Z.to_nat bs) (drop i l).
Proof.
  intros Hbs. revert i. induction fuel as [|fuel IH]; intros i; simpl; [done|].
  destruct (Z.ltb_spec (Z.of_nat i) (Z.of_nat (length l))) as [Hlt|Hge].
  - destruct (drop i l) eqn:E.
    + assert (length (drop i l) = 0) as Hd by (by rewrite E).
      rewrite length_drop in Hd. lia.
    + rewrite <- E. simpl. f_equal.
      * unfold Database.slice. rewrite Nat2Z.id. f_equal. lia.
      * replace (Z.of_nat i + bs)%Z with (Z.of_nat (i + Z.to_nat bs)) by lia.
        rewrite IH. by rewrite drop_drop.
  - rewrite drop_ge by lia. done.
Qed.

Lemma batches_are_chunks0 {A} (l : list A) (bs : Z) fuel :
  (0 < bs)%Z ->
  map (fun j => Database.slice l j (j + bs))
      (Database.range_up fuel 0 (Z.of_nat (length l)) bs)
  = chunks fuel (Z.to_nat bs) l.
Proof. intros Hbs. exact (batches_are_chunks l bs fuel 0 Hbs). Qed.

Lemma batch_loop_abort (todo : list (list ProjectedEdge)) :
  forall session idx n msg batch,
    Forall (fun b => 0 < length b) todo ->
    todo !! n = Some batch ->
    no_fault_before session n ->
    Database.faults session (Database.attempts session + n) = Some msg ->
    Database.batch_loop session idx todo
    = ({| Database.committed :=
            Database.committed session ++ map (map Database.config_of) (take n todo);
          Database.attempts := Database.attempts session + S n;
          Database.faults := Database.faults session |},
       Err (GraphCreationError
              ("Failed to process batch " +:+ str_int (Z.of_nat (idx + n)))
              [("error", VStr msg);
               ("batch_size", VInt (Z.of_nat (length batch)))])).
Proof.
  induction todo as [|b todo IH]; intros session idx n msg batch Hne Hn Hok Hfail; [done|].
  apply Forall_cons in Hne as [Hb Hne].
  simpl. unfold Database._create_batch.
  destruct b as [|e b]; [simpl in Hb; lia|]. simpl truthy_list. simpl negb. cbv iota.
  unfold Database.run.
  destruct n as [|n].
  - simpl in Hn. injection Hn as <-.
    rewrite Nat.add_0_r in Hfail. rewrite Hfail.
    rewrite !Nat.add_0_r. simpl take. simpl map at 2. rewrite app_nil_r.
    by rewrite Nat.add_1_r.
  - replace (Database.faults session (Database.attempts session)) with (@None string)
      by (rewrite <- (Hok 0) by lia; f_equal; lia).
    simpl in Hn.
    erewrite (IH _ (S idx) n msg batch); eauto.
    + simpl. rewrite <- app_assoc. simpl.
      replace (S (idx + n)) with (idx + S n) by lia.
      by replace (S (Database.attempts session + S n))
        with (Database.attempts session + S (S n)) by lia.
    + intros k Hk. simpl. rewrite <- (Hok (S k)) by lia. f_equal. lia.
    + simpl. rewrite <- Hfail. f_equal. lia.
Qed.

Lemma batch_loop_all (todo : list (list ProjectedEdge)) :
  forall session idx,
    Forall (fun b => 0 < length b) todo ->
    no_fault_before session (length todo) ->
    Database.batch_loop session idx todo
    = ({| Database.committed :=
            Database.committed session ++ map (map Database.config_of) todo;
          Database.attempts := Database.attempts session + length todo;
          Database.faults := Database.faults session |},
       Ok tt).
Proof.
  induction todo as [|b todo IH]; intros session idx Hne Hok; simpl.
  - rewrite app_nil_r, Nat.add_0_r. by destruct session.
  - apply Forall_cons in Hne as [Hb Hne].
    unfold Database._create_batch.
    destruct b as [|e b]; [simpl in Hb; lia|]. simpl truthy_list. simpl negb. cbv iota.
    unfold Database.run.
    replace (Database.faults session (Database.attempts session)) with (@None string)
      by (rewrite <- (Hok 0) by (simpl; lia); f_equal; lia).
    rewrite IH; auto.
    + simpl. rewrite <- app_assoc. simpl.
      by replace (S (Database.attempts session + length todo))
        with (Database.attempts session + S (length todo)) by lia.
    + intros k Hk. simpl. rewrite <- (Hok (S k)) by (simpl; lia). f_equal. lia.
Qed.

(** C6, on the spec's example.  2500 edges, batch size 1000, the store
    failing the second query: one batch of 1000 edges is committed and the
    third batch is never sent, but the error that reaches the caller
    carries the text of the batch error and the total number of edges; it
    has no batch size and no count of committed edges. *)
Lemma batch_error_omits_progress :
  (Database.create_graph_data 1000 edges2500 (Some 1000%Z) second_query_fails).2
    = Err (GraphCreationError "Failed to create graph"
             [("error", VStr "Failed to process batch 2"); ("configs", VInt 2500)])
  /\ dict_get "batch_size"
       [("error", VStr "Failed to process batch 2"); ("configs", VInt 2500)] = None
  /\ ~ In (VInt 1000)
         (map snd [("error", VStr "Failed to process batch 2"); ("configs", VInt 2500)])
  /\ map length (Database.committed
       (Database.create_graph_data 1000 edges2500 (Some 1000%Z) second_query_fails).1)
     = [1000]
  /\ Database.attempts
       (Database.create_graph_data 1000 edges2500 (Some 1000%Z) second_query_fails).1 = 2.
Proof.
  repeat split; try (vm_compute; reflexivity).
  simpl. intros [H|[H|[]]]; discriminate.
Qed.

(** C6 (the code departs from the claim).  [create_graph_data] cuts the
    edge list into consecutive batches of the batch size (the last one
    possibly shorter) and sends them in order.  When the store fails batch
    [n + 1], the batches before it are committed and stay so and nothing
    after it is sent.  The handler of the batch loop raises a
    [GraphCreationError] that names the batch, its size and the store's
    error; the outer [except Exception] catches that very error and raises
    another one in its place, which keeps the batch index in its text and
    adds the total number of edges, and loses the batch size and the
    store's error.  No count of committed edges is reported. *)
Theorem create_graph_data_abort (self_batch_size bs : Z) (edges : list ProjectedEdge)
    (session : Database.Neo4jSession) (n : nat) (msg : string)
    (failed : list ProjectedEdge) :
  (0 < bs)%Z ->
  chunks (length edges) (Z.to_nat bs) edges !! n = Some failed ->
  no_fault_before session n ->
  Database.faults session (Database.attempts session + n) = Some msg ->
  concat (chunks (length edges) (Z.to_nat bs) edges) = edges
  /\ Forall (fun b => 0 < length b <= Z.to_nat bs) (chunks (length edges) (Z.to_nat bs) edges)
  /\ (forall i b,
        chunks (length edges) (Z.to_nat bs) edges !! i = Some b ->
        S i < length (chunks (length edges) (Z.to_nat bs) edges) ->
        length b = Z.to_nat bs)
  /\ (Database.batch_loop session 1 (chunks (length edges) (Z.to_nat bs) edges)).2
     = Err (GraphCreationError
              ("Failed to process batch " +:+ str_int (Z.of_nat (S n)))
              [("error", VStr msg); ("batch_size", VInt (Z.of_nat (length failed)))])
  /\ Database.create_graph_data self_batch_size edges (Some bs) session
     = ({| Database.committed :=
             Database.committed session
             ++ map (map Database.config_of)
                    (take n (chunks (length edges) (Z.to_nat bs) edges));
           Database.attempts := Database.attempts session + S n;
           Database.faults := Database.faults session |},
        Err (GraphCreationError "Failed to create graph"
               [("error", VStr ("Failed to process batch " +:+ str_int (Z.of_nat (S n))));
                ("configs", VInt (Z.of_nat (length edges)))])).
Proof.
  intros Hbs Hn Hok Hfail.
  assert (0 < Z.to_nat bs) as Hbs' by lia.
  assert (Hpos : Forall (fun b : list ProjectedEdge => 0 < length b)
                   (chunks (length edges) (Z.to_nat bs) edges)).
  { eapply Forall_impl; [by apply chunks_sizes|]. simpl. lia. }
  split; [by apply chunks_concat|].
  split; [by apply chunks_sizes|].
  split; [intros i b; by apply chunks_full|].
  split; [by erewrite batch_loop_abort by eauto|].
  unfold Database.create_graph_data.
  destruct edges as [|e edges]; [by destruct n|].
  rewrite bool_decide_eq_false_2 by done.
  unfold Database.or_int, Database.range0.
  destruct (Z.eqb_spec bs 0) as [|_]; [lia|].
  destruct (Z.eqb_spec bs 0) as [|_]; [lia|].
  destruct (Z.ltb_spec bs 0) as [|_]; [lia|].
  rewrite Nat2Z.id. cbv beta iota.
  rewrite batches_are_chunks0 by done.
  by erewrite batch_loop_abort by eauto.
Qed.

Lemma create_graph_data_abort_witness :
  (Database.create_graph_data 1000 edges2500 (Some 1000%Z) second_query_fails).2
  = Err (GraphCreationError "Failed to create graph"
           [("error", VStr "Failed to process batch 2"); ("configs", VInt 2500)]).
Proof.
  destruct (create_graph_data_abort 1000 1000 edges2500 second_query_fails 1 "boom"
              (repeat sample_edge 1000)) as (_ & _ & _ & _ & ->).
  - lia.
  - vm_compute. reflexivity.
  - intros k Hk. assert (k = 0) as -> by lia. reflexivity.
  - reflexivity.
  - vm_compute. reflexivity.
Defined.

(** Without a fault every batch is committed, in order, and the counts are
    returned. *)
Lemma create_graph_data_all_committed (self_batch_size bs : Z)
    (edges : list ProjectedEdge) (session : Database.Neo4jSession) :
  (0 < bs)%Z ->
  edges <> [] ->
  no_fault_before session (length (chunks (length edges) (Z.to_nat bs) edges)) ->
  Database.create_graph_data self_batch_size edges (Some bs) session
  = ({| Database.committed :=
          Database.committed session
          ++ map (map Database.config_of) (chunks (length edges) (Z.to_nat bs) edges);
        Database.attempts :=
          Database.attempts session + length (chunks (length edges) (Z.to_nat bs) edges);
        Database.faults := Database.faults session |},
     Ok {| Database.configs_processed := length edges;
           Database.batches := length (chunks (length edges) (Z.to_nat bs) edges) |}).
Proof.
  intros Hbs Hne Hok.
  unfold Database.create_graph_data.
  destruct edges as [|e edges]; [done|].
  rewrite bool_decide_eq_false_2 by done.
  unfold Database.or_int, Database.range0.
  destruct (Z.eqb_spec bs 0) as [|_]; [lia|].
  destruct (Z.eqb_spec bs 0) as [|_]; [lia|].
  destruct (Z.ltb_spec bs 0) as [|_]; [lia|].
  rewrite Nat2Z.id. cbv beta iota.
  rewrite batches_are_chunks0 by done.
  rewrite batch_loop_all; auto.
  eapply Forall_impl; [apply chunks_sizes; lia|]. simpl. lia.
Qed.

(** ** The session cache *)

#[local] Arguments String.append : simpl nomatch.

Lemma string_app_inv_tail (a b t : string) : a +:+ t = b +:+ t -> a = b.
Proof.
  intros E.
  assert (L : forall s u, list_ascii_of_string (s +:+ u)
                          = list_ascii_of_string s ++ list_ascii_of_string u).
  { induction s as [|c s IH]; intros u; simpl; [done|]. by rewrite IH. }
  apply (f_equal list_ascii_of_string) in E. rewrite !L in E.
  apply app_inv_tail in E.
  apply (f_equal string_of_list_ascii) in E.
  by rewrite !string_of_list_ascii_of_string in E.
Qed.

Lemma session_path_inj a b : _get_session_path a = _get_session_path b -> a = b.
Proof.
  unfold _get_session_path. simpl. intros [= E]. simpl in E.
  by apply string_app_inv_tail in E.
Qed.

Lemma string_drop_app s t : string_drop (String.length s) (s +:+ t) = t.
Proof. induction s as [|c s IH]; simpl; [by destruct t|done]. Qed.

Lemma string_length_app s t : String.length (s +:+ t) = String.length s + String.length t.
Proof. induction s as [|c s IH]; simpl; [done|]. by rewrite IH. Qed.

Lemma glob_match_session_path sid : glob_match (_get_session_path sid) = true.
Proof.
  unfold glob_match, _get_session_path. simpl.
  unfold ends_with. rewrite string_length_app. simpl.
  replace (String.length sid + 4 - 4) with (String.length sid) by lia.
  rewrite string_drop_app. by rewrite bool_decide_eq_true_2.
Qed.

Lemma same_elsewhere_refl sid a : same_elsewhere sid a a.
Proof. by repeat split. Qed.

Lemma same_elsewhere_trans sid a b c :
  same_elsewhere sid a b -> same_elsewhere sid b c -> same_elsewhere sid a c.
Proof.
  intros (T1 & F1 & M1 & C1) (T2 & F2 & M2 & C2). repeat split; try congruence.
  - intros k Hk. rewrite M2, M1; auto.
  - intros p Hp. rewrite C2, C1; auto.
Qed.

Lemma forget_elsewhere sid a :
  same_elsewhere sid a (with_sessions a (delete sid (_sessions a))).
Proof.
  repeat split; simpl; auto. intros k Hk. by rewrite lookup_delete_ne.
Qed.

Lemma remember_elsewhere sid d a :
  same_elsewhere sid a (with_sessions a (<[sid := d]> (_sessions a))).
Proof.
  repeat split; simpl; auto. intros k Hk. by rewrite lookup_insert_ne.
Qed.

Lemma delete_session_elsewhere self sid :
  same_elsewhere sid self (delete_session self sid).1.
Proof.
  unfold delete_session. simpl.
  repeat case_bool_decide; simpl; repeat split; simpl; auto;
    intros k Hk; by rewrite ?lookup_delete_ne.
Qed.

Lemma load_session_metadata_elsewhere now self sid :
  same_elsewhere sid self (_load_session_metadata now self sid).1.
Proof.
  unfold _load_session_metadata.
  destruct (cache_dir self !! _get_session_path sid) as [[d|]|];
    try apply same_elsewhere_refl.
  destruct (_ >? _)%Z; [apply delete_session_elsewhere|apply same_elsewhere_refl].
Qed.

Lemma get_session_elsewhere now self sid :
  same_elsewhere sid self (get_session now self sid).1.
Proof.
  unfold get_session.
  destruct (_sessions self !! sid) as [d|].
  - destruct (_ <=? _)%Z; [apply same_elsewhere_refl|].
    pose proof (load_session_metadata_elsewhere now
                  (with_sessions self (delete sid (_sessions self))) sid) as L.
    destruct (_load_session_metadata now _ sid) as [self' [d'|]]; simpl in *.
    + eapply same_elsewhere_trans; [apply forget_elsewhere|].
      eapply same_elsewhere_trans; [exact L|apply remember_elsewhere].
    + eapply same_elsewhere_trans; [apply forget_elsewhere|exact L].
  - pose proof (load_session_metadata_elsewhere now self sid) as L.
    destruct (_load_session_metadata now self sid) as [self' [d'|]]; simpl in *.
    + eapply same_elsewhere_trans; [exact L|apply remember_elsewhere].
    + exact L.
Qed.



Lemma same_elsewhere_absent sid k a b :
  k <> sid -> same_elsewhere k a b -> absent a sid -> absent b sid.
Proof.
  intros Hk (_ & _ & M & C) [Hc Hm]. split.
  - rewrite C; auto. intros E. apply session_path_inj in E. congruence.
  - rewrite M; auto.
Qed.

Lemma get_session_valid now self sid d :
  stored self sid d ->
  (now - created_at d <= session_timeout self)%Z ->
  (get_session now self sid).2 = Some d
  /\ stored (get_session now self sid).1 sid d
  /\ _sessions (get_session now self sid).1 !! sid = Some d.
Proof.
  intros [Hc Hm] Hv. unfold get_session.
  destruct Hm as [Hm|Hm]; rewrite Hm.
  - unfold _load_session_metadata. rewrite Hc.
    rewrite Z.gtb_ltb. destruct (Z.ltb_spec (session_timeout self) (now - created_at d)); [lia|].
    simpl. repeat split; auto.
    + right. apply lookup_insert_eq.
    + apply lookup_insert_eq.
  - destruct (Z.leb_spec (now - created_at d) (session_timeout self)); [|lia].
    simpl. repeat split; auto.
Qed.

Lemma get_session_expired now self sid d :
  stored self sid d ->
  (now - created_at d > session_timeout self)%Z ->
  _get_session_path sid ∉ faulty self ->
  (get_session now self sid).2 = None /\ absent (get_session now self sid).1 sid.
Proof.
  intros [Hc Hm] Hx Hf. unfold get_session.
  assert (L : forall m,
            _load_session_metadata now (with_sessions self m) sid
            = (with_cache_dir (with_sessions self (delete sid m))
                 (delete (_get_session_path sid) (cache_dir self)), None)).
  { intros m. unfold _load_session_metadata. simpl. rewrite Hc. simpl.
    rewrite Z.gtb_ltb.
    destruct (Z.ltb_spec (session_timeout self) (now - created_at d)); [|lia].
    unfold delete_session. simpl. rewrite Hc.
    rewrite bool_decide_eq_true_2 by eauto.
    by rewrite bool_decide_eq_false_2. }
  destruct Hm as [Hm|Hm]; rewrite Hm.
  - pose proof (L (_sessions self)) as L0.
    replace (with_sessions self (_sessions self)) with self in L0 at 1
      by (by destruct self).
    rewrite L0. simpl. repeat split; simpl; apply lookup_delete_eq.
  - destruct (Z.leb_spec (now - created_at d) (session_timeout self)); [lia|].
    rewrite L. simpl. repeat split; simpl; apply lookup_delete_eq.
Qed.

Lemma get_session_absent now self sid :
  absent self sid -> get_session now self sid = (self, None).
Proof.
  intros [Hc Hm]. unfold get_session, _load_session_metadata. by rewrite Hm, Hc.
Qed.




Lemma get_dataframes_as_get_session now self sid :
  get_dataframes now self sid
  = ((get_session now self sid).1, (get_session now self sid).2 ≫= dataframes).
Proof. unfold get_dataframes. by destruct (get_session now self sid). Qed.

Lemma get_session_info_as_get_session now self sid :
  get_session_info now self sid
  = ((get_session now self sid).1, info_of <$> (get_session now self sid).2).
Proof. unfold get_session_info. by destruct (get_session now self sid). Qed.

(** [create_session] leaves the session stored, stamped with the time of
    creation. *)
Lemma create_session_stored now self sid dfs td src self' :
  create_session now self sid dfs td src = Ok (self', sid) ->
  exists d, stored self' sid d /\ created_at d = now /\ dataframes d = Some dfs
            /\ session_timeout self' = session_timeout self.
Proof.
  unfold create_session, _save_session_metadata.
  case_bool_decide; simpl; [done|]. intros [= <-].
  eexists. split; [split; simpl; [apply lookup_insert_eq | right; apply lookup_insert_eq]|].
  done.
Qed.

(** C9.  [delete_session] answers [False] exactly when the session file
    exists and cannot be removed; the in-memory copy is dropped in every
    case.  For an id of which no copy exists it answers [True], and the
    endpoint reports a successful deletion instead of its 404. *)
Theorem delete_session_true_unless_io_error (self : SessionManager) (sid : string) :
  (delete_session self sid).2
    = negb (bool_decide (is_Some (cache_dir self !! _get_session_path sid))
            && bool_decide (_get_session_path sid ∈ faulty self))
  /\ _sessions (delete_session self sid).1 !! sid = None
  /\ (delete_session (empty_manager 3600) "nope").2 = true
  /\ (Endpoints.delete_session_endpoint "nope" (empty_manager 3600)).2
     = Ok "Session deleted successfully".
Proof.
  repeat split; try (vm_compute; reflexivity).
  - unfold delete_session. simpl. by repeat case_bool_decide.
  - unfold delete_session. simpl.
    repeat case_bool_decide; simpl; apply lookup_delete_eq.
Qed.

(** ** Upload and session identifier *)

#[local] Opaque Hashlib.md5_hexdigest.

Section UploadFacts.
Context `{Files.UploadEnv}.

Lemma string_drop_all s : string_drop (String.length s) s = "".
Proof. induction s as [|c s IH]; simpl; auto. Qed.

Lemma read_at_end file : at_end file -> (Files.read file).1 = "".
Proof. unfold at_end, Files.read. simpl. intros ->. apply string_drop_all. Qed.

Lemma read_leaves_at_end file : at_end (Files.read file).2.
Proof. done. Qed.

(** Loading reads every file to its end. *)
Lemma load_loop_at_end files : forall table_data dataframes files' r,
  Files.load_loop files table_data dataframes = (files', Ok r) ->
  Forall at_end files'.
Proof.
  induction files as [|file files IH]; intros td dfs files' r; simpl.
  - intros [= <- _]. constructor.
  - destruct (Files.load_file _ _) as [df|e]; [|done].
    destruct (Files.load_loop files _ _) as [rest r'] eqn:E.
    intros [= <- ->]. constructor; [done|]. eapply IH; eauto.
Qed.

(** A successful upload stores its tables under the digest of the empty
    byte string. *)
Lemma upload_files_ok now files sm sm' r :
  Files.upload_files now files sm = (sm', Ok r) ->
  Files.response_session_id r = Hashlib.md5_hexdigest ""
  /\ exists files' table_data dataframes,
       Files.validate files = Ok files'
       /\ (Files._create_data_frame_from_files files').2 = Ok (table_data, dataframes)
       /\ Files.data_tables (Files.data_responses r) = Files.strip_keys table_data
       /\ _sessions sm' !! Hashlib.md5_hexdigest ""
          = Some (session_of now (Hashlib.md5_hexdigest "") table_data dataframes)
       /\ cache_dir sm' !! _get_session_path (Hashlib.md5_hexdigest "")
          = Some (Pickle (session_of now (Hashlib.md5_hexdigest "") table_data dataframes)).
Proof.
  unfold Files.upload_files.
  destruct (truthy_list files); simpl; [|done].
  destruct (Files.validate files) as [files1|]; [|done].
  unfold Files._create_data_frame_from_files.
  destruct (Files.load_loop files1 [] []) as [files2 [[td dfs]|]] eqn:E; [|done].
  pose proof (load_loop_at_end _ _ _ _ _ E) as Hend.
  destruct files2 as [|first rest]; [done|].
  apply Forall_cons in Hend as [Hfirst _].
  replace (string_drop (Files.position first) (Files.stream first)) with ""
    by (symmetry; apply (read_at_end first Hfirst)).
  unfold create_session, _save_session_metadata.
  case_bool_decide; simpl; [done|].
  intros [= <- <-]. simpl. split; [done|].
  exists files1, td, dfs. rewrite E. simpl.
  split; [done|]. split; [done|]. split; [done|].
  split; apply lookup_insert_eq.
Qed.

End UploadFacts.

(** C7.  Every successful upload is stored under the MD5 digest of the
    empty byte string: [create_data_frame] has read each file to its end,
    so the [read()] that feeds the digest returns nothing.  Two uploads,
    whatever their files hold, therefore get the same session id, and
    after the second one that id holds the second upload's tables, in
    memory and on disk. *)
Theorem upload_session_id_is_empty_digest `{Files.UploadEnv} (now1 now2 : Z)
    (files1 files2 : list Files.UploadFile) (sm sm1 sm2 : SessionManager)
    (r1 r2 : Files.UploadResponse) :
  Files.upload_files now1 files1 sm = (sm1, Ok r1) ->
  Files.upload_files now2 files2 sm1 = (sm2, Ok r2) ->
  Files.response_session_id r1 = Hashlib.md5_hexdigest ""
  /\ Hashlib.md5_hexdigest "" = "d41d8cd98f00b204e9800998ecf8427e"
  /\ Files.response_session_id r2 = Files.response_session_id r1
  /\ (exists validated table_data dataframes,
        Files.validate files1 = Ok validated
        /\ (Files._create_data_frame_from_files validated).2 = Ok (table_data, dataframes)
        /\ _sessions sm1 !! Files.response_session_id r1
           = Some (session_of now1 (Files.response_session_id r1) table_data dataframes))
  /\ (exists validated table_data dataframes,
        Files.validate files2 = Ok validated
        /\ (Files._create_data_frame_from_files validated).2 = Ok (table_data, dataframes)
        /\ _sessions sm2 !! Files.response_session_id r1
           = Some (session_of now2 (Files.response_session_id r1) table_data dataframes)
        /\ cache_dir sm2 !! _get_session_path (Files.response_session_id r1)
           = Some (Pickle (session_of now2 (Files.response_session_id r1)
                             table_data dataframes))).
Proof.
  intros U1 U2.
  destruct (upload_files_ok _ _ _ _ _ U1) as (E1 & v1 & td1 & dfs1 & V1 & L1 & _ & M1 & _).
  destruct (upload_files_ok _ _ _ _ _ U2) as (E2 & v2 & td2 & dfs2 & V2 & L2 & _ & M2 & C2).
  rewrite E1, E2.
  split; [reflexivity|].
  split; [vm_compute; reflexivity|].
  split; [reflexivity|].
  split.
  - exists v1, td1, dfs1. split; [exact V1|]. split; [exact L1|]. exact M1.
  - exists v2, td2, dfs2. split; [exact V2|]. split; [exact L2|]. split; [exact M2|exact C2].
Qed.

#[local] Transparent Hashlib.md5_hexdigest.

Lemma upload_session_id_is_empty_digest_witness :
  Files.response_session_id uploaded_second = Files.response_session_id uploaded_first.
Proof.
  assert (Files.upload_files (H := raw_env) 5 [first_upload] (empty_manager 300)
          = ((Files.upload_files (H := raw_env) 5 [first_upload] (empty_manager 300)).1,
             Ok uploaded_first)) as U1 by (vm_compute; reflexivity).
  assert (Files.upload_files (H := raw_env) 6 [second_upload]
            (Files.upload_files (H := raw_env) 5 [first_upload] (empty_manager 300)).1
          = ((Files.upload_files (H := raw_env) 6 [second_upload]
                (Files.upload_files (H := raw_env) 5 [first_upload]
                   (empty_manager 300)).1).1,
             Ok uploaded_second)) as U2 by (vm_compute; reflexivity).
  exact (proj1 (proj2 (proj2
           (upload_session_id_is_empty_digest (H := raw_env) 5 6 _ _ _ _ _ _ _ U1 U2)))).
Defined.

(** ** Empty input *)

(** C10 (the claim fails).  Given zero rules and one table,
    [create_graph_api] succeeds with an empty edge list, whatever pandas'
    [join] does. *)
Lemma no_rules_project_to_nothing :
  length ([] : list GraphConfig) = 0
  /\ (forall J : PandasJoin, @create_graph_api J [] [("people", people)] = Ok []).
Proof. split; [reflexivity|]. intros J. reflexivity. Qed.

(** C10 (amended).  [create_graph_api] has no empty-input check of its
    own: with zero rules and at least one table it returns the empty edge
    list, and with zero tables it fails on indexing the first table.  The
    checks are those of the [create_graph_data] endpoint, made before
    projecting: a request with zero rules is refused with status 404 (no
    session, or no tables) or 400, and a session with no tables is refused
    with status 404; neither reaches the graph store. *)
Theorem empty_input_guards `{PandasJoin} :
  (forall d rest, create_graph_api [] (d :: rest) = Ok [])
  /\ (forall graph_config_list, create_graph_api graph_config_list [] = Err IndexError)
  /\ (forall now sid limit sm store,
        (Endpoints.create_graph_data now sid [] limit sm store).1.2 = store
        /\ exists code detail,
             (Endpoints.create_graph_data now sid [] limit sm store).2
               = Err (HTTPException code detail)
             /\ (code = 404%Z
                 \/ code = 400%Z /\ detail = "Graph configuration list is empty"))
  /\ (forall now sid graph_config_list limit sm store,
        match (get_dataframes now (get_session_info now sm sid).1 sid).2 with
        | Some (_ :: _) => True
        | _ =>
            (Endpoints.create_graph_data now sid graph_config_list limit sm store).1.2
              = store
            /\ exists detail,
                 (Endpoints.create_graph_data now sid graph_config_list limit sm store).2
                   = Err (HTTPException 404 detail)
        end).
Proof.
  split; [|split; [|split]].
  - intros d rest. unfold create_graph_api. by destruct rest, d; case_bool_decide.
  - intros cfgs. unfold create_graph_api. simpl. done.
  - intros now sid limit sm store. unfold Endpoints.create_graph_data.
    destruct (get_session_info now sm sid) as [sm1 [info|]]; simpl.
    + destruct (get_dataframes now sm1 sid) as [sm2 [[|df dfs]|]]; simpl; eauto 10.
    + eauto 10.
  - intros now sid cfgs limit sm store. unfold Endpoints.create_graph_data.
    destruct (get_session_info now sm sid) as [sm1 [info|]]; simpl.
    + destruct (get_dataframes now sm1 sid) as [sm2 [[|df dfs]|]]; simpl; eauto.
    + destruct (get_dataframes now sm1 sid) as [sm2 [[|df dfs]|]]; simpl; eauto.
Qed.

(* ===================================================================== *)
(** * Further properties *)
(* ===================================================================== *)

(** ** Column resolution and projection *)


Lemma dict_get_set_ne {V} k k' (v : V) d :
  k <> k' -> dict_get k (dict_set k' v d) = dict_get k d.
Proof.
  intros Hne. induction d as [|[k0 v0] d IH]; simpl.
  - by rewrite bool_decide_eq_false_2.
  - destruct (bool_decide (k' = k0)) eqn:E1; simpl.
    + apply bool_decide_eq_true_1 in E1 as <-.
      by rewrite !bool_decide_eq_false_2.
    + destruct (bool_decide (k = k0)); [done|apply IH].
Qed.

Lemma dict_get_fold_set {V} (f : string -> V) (l : list string) : forall d k,
  dict_get k (fold_left (fun d kv => dict_set kv.1 kv.2 d) (map (fun c => (c, f c)) l) d)
  = if bool_decide (k ∈ l) then Some (f k) else dict_get k d.
Proof.
  induction l as [|c l IH]; intros d k; cbn [map fold_left].
  - case_bool_decide as E; [by apply elem_of_nil in E|done].
  - rewrite IH. cbn [fst snd].
    destruct (decide (k ∈ l)) as [Hin|Hin].
    + rewrite (bool_decide_eq_true_2 _ Hin).
      rewrite bool_decide_eq_true_2; [done|by right].
    + rewrite (bool_decide_eq_false_2 _ Hin).
      destruct (decide (k = c)) as [->|Hne].
      * rewrite bool_decide_eq_true_2 by left. apply dict_get_set.
      * rewrite bool_decide_eq_false_2.
        -- by apply dict_get_set_ne.
        -- intros [?|?]%elem_of_cons; done.
Qed.

Lemma check_cols_info data cols : forall p c,
  dict_get c (fold_left (check_cols_step data) cols p).2
  = if bool_decide (c ∈ cols) then Some (column_status data c) else dict_get c p.2.
Proof.
  induction cols as [|a cols IH]; intros [acc info] c; cbn [fold_left].
  - case_bool_decide as E; [by apply elem_of_nil in E|done].
  - rewrite IH.
    destruct (decide (c ∈ cols)) as [Hin|Hin].
    + rewrite (bool_decide_eq_true_2 _ Hin).
      rewrite bool_decide_eq_true_2; [done|by right].
    + rewrite (bool_decide_eq_false_2 _ Hin).
      destruct (decide (c = a)) as [->|Hne].
      * rewrite (bool_decide_eq_true_2 (a ∈ a :: cols)) by left.
        unfold column_status, check_cols_step.
        case_bool_decide; cbn [snd]; apply dict_get_set.
      * rewrite (bool_decide_eq_false_2 (c ∈ a :: cols)).
        -- unfold check_cols_step. case_bool_decide; cbn [snd]; by apply dict_get_set_ne.
        -- intros [?|?]%elem_of_cons; done.
Qed.

Lemma filter_nil_Forall {A} (P : A -> Prop) `{forall x, Decision (P x)} (l : list A) :
  filter P l = [] <-> Forall (fun x => ~ P x) l.
Proof.
  induction l as [|x l IH]; simpl.
  - split; [constructor|done].
  - rewrite filter_cons. destruct (decide (P x)).
    + split; [done|]. intros HF. inversion HF; done.
    + rewrite IH. split; [by constructor|]. intros HF. by inversion HF.
Qed.

(** X2.  [check_cols_exist_in_db] returns the requested columns that the
    frame has, in the order requested, and a report that maps every
    requested column, and no other, to its status; it raises exactly when
    the frame has none of the requested columns. *)
Theorem check_cols_exist_in_db_report (data : DataFrame) (cols : list string) :
  match check_cols_exist_in_db data cols with
  | Ok (exists_, info) =>
      exists_ = filter (fun c => c ∈ columns data) cols
      /\ exists_ <> []
      /\ (forall c, dict_get c info
                    = if bool_decide (c ∈ cols) then Some (column_status data c) else None)
  | Err e =>
      Forall (fun c => c ∉ columns data) cols
      /\ e = ValueError (Msg "Your columns does not exist in the data columns")
  end.
Proof.
  pose proof (check_cols_exist_in_db_spec data cols) as S.
  pose proof (check_cols_info data cols ([], [])) as I.
  unfold check_cols_exist_in_db in *.
  destruct (fold_left (check_cols_step data) cols ([], [])) as [exists_ info].
  destruct (truthy_list exists_).
  - destruct S as [E Hne]. simpl in E, Hne. split; [done|]. split; [done|].
    intros c. apply I.
  - destruct S as [Hnil _]. split; [|done]. by apply filter_nil_Forall in Hnil.
Qed.

Lemma find_data_frame_head df_name df rest props :
  filter (fun c => c ∈ columns df) props <> [] ->
  exists sub,
    getitem df (filter (fun c => c ∈ columns df) props) = Ok sub
    /\ find_data_frame ((df_name, df) :: rest) props = Ok (df_name, sub).
Proof.
  intros Hne. simpl.
  pose proof (check_cols_exist_in_db_spec df props) as S.
  destruct (check_cols_exist_in_db df props) as [r|e]; [|by destruct S].
  destruct S as [E _]. simpl. rewrite E.
  destruct (getitem_existing df (filter (fun c => c ∈ columns df) props)) as (sub & -> & Hsub).
  { apply Forall_forall. intros c Hc. by apply list_elem_of_filter in Hc as [? _]. }
  simpl. eauto.
Qed.

(** X1.  [find_data_frame] returns the first table, in the order of the
    mapping, that has at least one of the requested columns, narrowed to
    the requested columns it has, with all its rows; every table before it
    has none of them.  It raises exactly when no table has any of the
    requested columns. *)
Theorem find_data_frame_spec (data_dico : list (string * DataFrame)) (props : list string) :
  match find_data_frame data_dico props with
  | Ok (df_name, sub) =>
      exists skipped df rest,
        data_dico = skipped ++ (df_name, df) :: rest
        /\ Forall (fun t => Forall (fun c => c ∉ columns t.2) props) skipped
        /\ (exists c, c ∈ props /\ c ∈ columns df)
        /\ getitem df (filter (fun c => c ∈ columns df) props) = Ok sub
        /\ columns sub = filter (fun c => c ∈ columns df) props
        /\ len sub = len df
  | Err e =>
      e = ValueError (NoDataFrameFor props)
      /\ Forall (fun t => Forall (fun c => c ∉ columns t.2) props) data_dico
  end.
Proof.
  induction data_dico as [|[n df] rest IH].
  - simpl. split; [done|constructor].
  - destruct (decide (filter (fun c => c ∈ columns df) props = [])) as [Hnil|Hne].
    + rewrite (find_data_frame_skip _ _ _ _ Hnil).
      apply filter_nil_Forall in Hnil.
      destruct (find_data_frame rest props) as [[m sub]|e].
      * destruct IH as (skipped & df' & rest' & -> & Hsk & Hex & Hget & Hcols & Hlen).
        exists ((n, df) :: skipped), df', rest'. repeat split; try done.
        by constructor.
      * destruct IH as [-> Hall]. split; [done|]. by constructor.
    + destruct (find_data_frame_head n df rest props Hne) as (sub & Hget & ->).
      exists [], df, rest. split; [done|]. split; [constructor|].
      split.
      { assert (exists c, c ∈ filter (fun c => c ∈ columns df) props) as [c Hc].
        { destruct (filter _ props) as [|c l]; [done|]. exists c. left. }
        apply list_elem_of_filter in Hc as [? ?]. eauto. }
      split; [done|].
      unfold getitem in Hget. destruct (traverse _ _); simpl in Hget; [|done].
      injection Hget as <-. split; [done|]. unfold len; simpl. by rewrite length_map.
Qed.

Lemma zip_located df row : forall cols locs,
  traverse (fun c => match get_loc c (columns df) with
                     | Some i => Ok i
                     | None => Err (KeyError c)
                     end) cols = Ok locs ->
  zip cols (map (fun i => nth i row VNone) locs) = map (fun c => (c, cell df row c)) cols.
Proof.
  induction cols as [|c cols IH]; intros locs; simpl.
  - by intros [= <-].
  - unfold cell at 1.
    destruct (get_loc c (columns df)) eqn:E; simpl; [|done].
    destruct (traverse _ cols) eqn:T; simpl; [|done].
    intros [= <-]. simpl. f_equal. by apply IH.
Qed.

Lemma graph_element_props_rows data lbl props recs :
  graph_element_props data lbl props = Ok recs ->
  recs = map (fun row =>
                with_id lbl (row_dict data (filter (fun c => c ∈ columns data) props) row))
             (rows data).
Proof.
  unfold graph_element_props.
  pose proof (check_cols_exist_in_db_spec data props) as S.
  destruct (check_cols_exist_in_db data props) as [r|]; simpl; [|done].
  destruct S as [E _]. rewrite E. unfold getitem.
  destruct (traverse _ (filter _ props)) as [locs|] eqn:T; simpl; [|done].
  intros [= <-]. unfold to_dict_records. simpl. rewrite !map_map.
  apply map_ext. intros row. unfold row_dict. by rewrite (zip_located _ _ _ _ T).
Qed.

Lemma graph_element_props_outcome data lbl props :
  match graph_element_props data lbl props with
  | Ok _ => exists c, c ∈ props /\ c ∈ columns data
  | Err e =>
      e = ValueError (Wrapped (ValueError
            (Msg "Your columns does not exist in the data columns")))
      /\ Forall (fun c => c ∉ columns data) props
  end.
Proof.
  unfold graph_element_props.
  pose proof (check_cols_exist_in_db_spec data props) as S.
  destruct (check_cols_exist_in_db data props) as [r|e]; simpl.
  - destruct S as [E Hne].
    destruct (getitem_existing data r.1) as (sub & -> & _).
    { rewrite E. apply Forall_forall. intros c Hc.
      by apply list_elem_of_filter in Hc as [? _]. }
    simpl. rewrite E in Hne.
    assert (exists c, c ∈ filter (fun c => c ∈ columns data) props) as [c Hc].
    { destruct (filter _ props) as [|c l]; [done|]. exists c. left. }
    apply list_elem_of_filter in Hc as [? ?]. eauto.
  - destruct S as [Hnil ->]. split; [done|]. by apply filter_nil_Forall in Hnil.
Qed.

Lemma row_dict_NoDup data cols row : NoDup (keys (row_dict data cols row)).
Proof.
  unfold row_dict. generalize (map (fun c => (c, cell data row c)) cols). intros l.
  assert (G : forall acc : dict Value, NoDup (keys acc) ->
            NoDup (keys (fold_left (fun d kv => dict_set kv.1 kv.2 d) l acc))).
  { induction l as [|kv l IH]; simpl; intros acc ND; [done|].
    apply IH. by apply dict_set_keys_NoDup. }
  apply G. constructor.
Qed.

Lemma row_dict_get data props row k :
  dict_get k (row_dict data (filter (fun c => c ∈ columns data) props) row)
  = if bool_decide (k ∈ props /\ k ∈ columns data) then Some (cell data row k) else None.
Proof.
  unfold row_dict. rewrite dict_get_fold_set. simpl.
  rewrite (bool_decide_ext _ (k ∈ props /\ k ∈ columns data)); [done|].
  rewrite list_elem_of_filter. tauto.
Qed.

(** X3.  On a frame of ASCII text, where the model of [repr] is Python's,
    [graph_element_props] makes one record per row, in row order.
    The record carries the label, the row's cells under the requested
    columns that the frame has (a requested column the frame lacks is left
    out without complaint), and under ["id"] the digest of the label and of
    those cells, which replaces a selected [id] column's value. *)
Theorem graph_element_props_records (data : DataFrame) (lbl : string)
    (props : list string) (recs : list GraphElementRecord) :
  ascii_frame data = true ->
  graph_element_props data lbl props = Ok recs ->
  length recs = len data
  /\ forall i r, recs !! i = Some r ->
       exists row d,
         rows data !! i = Some row
         /\ r = with_id lbl d
         /\ NoDup (keys d)
         /\ (forall k, dict_get k d
                       = if bool_decide (k ∈ props /\ k ∈ columns data)
                         then Some (cell data row k) else None)
         /\ rec_label r = lbl
         /\ dict_get "id" (rec_properties r)
            = Some (VStr (Hashlib.sha1_hexdigest (raw_key lbl d)))
         /\ (forall k, k <> "id" ->
               dict_get k (rec_properties r)
               = if bool_decide (k ∈ props /\ k ∈ columns data)
                 then Some (cell data row k) else None).
Proof.
  intros _ Hrecs. split; [by eapply graph_element_props_length|].
  apply graph_element_props_rows in Hrecs as ->.
  intros i r Hi. rewrite list_lookup_fmap in Hi.
  destruct (rows data !! i) as [row|]; [|done]. injection Hi as <-.
  exists row, (row_dict data (filter (fun c => c ∈ columns data) props) row).
  split; [done|]. split; [done|]. split; [apply row_dict_NoDup|].
  split; [apply row_dict_get|]. split; [done|]. split.
  - unfold with_id; cbn [rec_properties]. apply dict_get_set.
  - intros k Hk. unfold with_id; cbn [rec_properties].
    rewrite dict_get_set_ne by done. apply row_dict_get.
Qed.

Lemma graph_element_props_records_witness :
  exists r1 r2,
    graph_element_props people "City" ["city"; "zip"] = Ok [r1; r2]
    /\ dict_get "city" (rec_properties r2) = Some (VStr "LA")
    /\ dict_get "zip" (rec_properties r2) = None.
Proof.
  assert (E : graph_element_props people "City" ["city"; "zip"]
              = Ok (match graph_element_props people "City" ["city"; "zip"] with
                    | Ok recs => recs
                    | Err _ => []
                    end)) by (vm_compute; reflexivity).
  assert (A : ascii_frame people = true) by (vm_compute; reflexivity).
  destruct (graph_element_props_records _ _ _ _ A E) as [_ R].
  eexists _, _. split; [vm_compute; reflexivity|].
  destruct (R 1 _ eq_refl) as (row & d & Hrow & _ & _ & _ & _ & _ & Hget).
  injection Hrow as <-.
  split; [exact (Hget "city" ltac:(done))|exact (Hget "zip" ltac:(done))].
Defined.

(** X4.  Two rows that agree on the selected columns give the same record,
    synthetic id included: the store's [MERGE] folds them into one node. *)
Theorem equal_cells_equal_records (data : DataFrame) (lbl : string)
    (props : list string) (recs : list GraphElementRecord)
    (i j : nat) (row_i row_j : list Value) :
  graph_element_props data lbl props = Ok recs ->
  rows data !! i = Some row_i ->
  rows data !! j = Some row_j ->
  (forall c, c ∈ props -> c ∈ columns data -> cell data row_i c = cell data row_j c) ->
  is_Some (recs !! i) /\ recs !! i = recs !! j.
Proof.
  intros Hrecs Hi Hj Hsame.
  apply graph_element_props_rows in Hrecs as ->.
  rewrite !list_lookup_fmap, Hi, Hj. simpl. split; [eauto|].
  do 2 f_equal. unfold row_dict. f_equal.
  apply map_ext_in. intros c Hc%list_elem_of_In.
  apply list_elem_of_filter in Hc as [? ?]. f_equal. by apply Hsame.
Qed.

Lemma equal_cells_equal_records_witness :
  match graph_element_props residents "City" ["city"] with
  | Ok recs => is_Some (recs !! 0) /\ recs !! 0 = recs !! 1
  | Err _ => False
  end.
Proof.
  assert (E : graph_element_props residents "City" ["city"]
              = Ok (match graph_element_props residents "City" ["city"] with
                    | Ok recs => recs
                    | Err _ => []
                    end)) by (vm_compute; reflexivity).
  rewrite E.
  refine (equal_cells_equal_records residents "City" ["city"] _ 0 1
            [VStr "John"; VStr "NYC"] [VStr "Jane"; VStr "NYC"] E eq_refl eq_refl _).
  intros c Hc _. apply list_elem_of_singleton in Hc as ->. reflexivity.
Defined.

Lemma zip3_lookup ss ts rs i e :
  zip3 ss ts rs !! i = Some e ->
  ss !! i = Some (edge_source e) /\ ts !! i = Some (edge_target e)
  /\ rs !! i = Some (edge_rels e).
Proof.
  revert ts rs i. induction ss as [|s ss IH]; intros [|t ts] [|r rs] i; simpl; try done.
  destruct i as [|i]; simpl.
  - by intros [= <-].
  - apply IH.
Qed.

(** X5.  [source_to_target_rels] pairs, row by row, the source, target and
    relationship records of one frame, one edge per row.  It raises exactly
    when one of the three elements names no column of the frame, as an
    element with an empty property list does. *)
Theorem source_to_target_rels_spec (data : DataFrame) (graph_config : GraphConfig) :
  match source_to_target_rels data graph_config with
  | Ok edges =>
      exists ss ts rs,
        graph_element_props data (label (source graph_config))
          (properties (source graph_config)) = Ok ss
        /\ graph_element_props data (label (target graph_config))
             (properties (target graph_config)) = Ok ts
        /\ graph_element_props data (label (rels graph_config))
             (properties (rels graph_config)) = Ok rs
        /\ length edges = len data
        /\ (forall i e, edges !! i = Some e ->
              ss !! i = Some (edge_source e) /\ ts !! i = Some (edge_target e)
              /\ rs !! i = Some (edge_rels e))
        /\ Forall (fun el => exists c, c ∈ properties el /\ c ∈ columns data)
             [source graph_config; target graph_config; rels graph_config]
  | Err e =>
      e = ValueError (Wrapped (ValueError
            (Msg "Your columns does not exist in the data columns")))
      /\ Exists (fun el => Forall (fun c => c ∉ columns data) (properties el))
           [source graph_config; target graph_config; rels graph_config]
  end.
Proof.
  pose proof (source_to_target_rels_length data graph_config) as L.
  unfold source_to_target_rels in *.
  pose proof (graph_element_props_outcome data (label (source graph_config))
                (properties (source graph_config))) as Os.
  pose proof (graph_element_props_outcome data (label (target graph_config))
                (properties (target graph_config))) as Ot.
  pose proof (graph_element_props_outcome data (label (rels graph_config))
                (properties (rels graph_config))) as Or.
  destruct (graph_element_props data (label (source graph_config)) _) as [ss|es]; simpl.
  2: { destruct Os as [-> ?]. split; [done|]. by apply Exists_cons_hd. }
  destruct (graph_element_props data (label (target graph_config)) _) as [ts|et]; simpl.
  2: { destruct Ot as [-> ?]. split; [done|]. by apply Exists_cons_tl, Exists_cons_hd. }
  destruct (graph_element_props data (label (rels graph_config)) _) as [rs|er]; simpl.
  2: { destruct Or as [-> ?]. split; [done|].
       by apply Exists_cons_tl, Exists_cons_tl, Exists_cons_hd. }
  exists ss, ts, rs. repeat (split; [done|]). split; [by apply L|].
  split; [intros i e; apply zip3_lookup|].
  repeat constructor; done.
Qed.

(** ** The batch writer *)

Lemma chunks_nil {A} fuel size : chunks fuel size ([] : list A) = [].
Proof. by destruct fuel. Qed.

Lemma chunks_length {A} fuel size (l : list A) :
  0 < size -> length l <= fuel ->
  length (chunks fuel size l) = (length l + size - 1) / size.
Proof.
  intros Hs. revert l. induction fuel as [|fuel IH]; intros l Hl.
  - destruct l; simpl in *; [|lia].
    symmetry. apply Nat.div_small. lia.
  - destruct l as [|x l].
    + simpl. symmetry. apply Nat.div_small. lia.
    + cbn [chunks length]. rewrite IH by (rewrite length_drop; simpl in *; lia).
      rewrite length_drop. cbn [length].
      destruct (decide (size <= S (length l))) as [Hle|Hgt].
      * replace (S (length l) + size - 1) with ((S (length l) - size + size - 1) + 1 * size)
          by lia.
        rewrite Nat.div_add by lia. lia.
      * replace (S (length l) - size + size - 1) with (size - 1) by lia.
        rewrite (Nat.div_small (size - 1)) by lia.
        replace (S (length l) + size - 1) with (length l + 1 * size) by lia.
        rewrite Nat.div_add by lia. rewrite Nat.div_small by lia. lia.
Qed.

Lemma create_graph_data_all_committed_any (self_batch_size : Z) (batch_size : option Z)
    (bs : Z) (edges : list ProjectedEdge) (session : Database.Neo4jSession) :
  Database.or_int batch_size self_batch_size = bs ->
  (0 < bs)%Z ->
  edges <> [] ->
  no_fault_before session (length (chunks (length edges) (Z.to_nat bs) edges)) ->
  Database.create_graph_data self_batch_size edges batch_size session
  = ({| Database.committed :=
          Database.committed session
          ++ map (map Database.config_of) (chunks (length edges) (Z.to_nat bs) edges);
        Database.attempts :=
          Database.attempts session + length (chunks (length edges) (Z.to_nat bs) edges);
        Database.faults := Database.faults session |},
     Ok {| Database.configs_processed := length edges;
           Database.batches := length (chunks (length edges) (Z.to_nat bs) edges) |}).
Proof.
  intros Hor Hbs Hne Hok.
  unfold Database.create_graph_data.
  destruct edges as [|e edges]; [done|].
  rewrite bool_decide_eq_false_2 by done.
  rewrite Hor. unfold Database.range0.
  destruct (Z.eqb_spec bs 0) as [|_]; [lia|].
  destruct (Z.ltb_spec bs 0) as [|_]; [lia|].
  rewrite Nat2Z.id. cbv beta iota.
  rewrite batches_are_chunks0 by done.
  rewrite batch_loop_all; auto.
  eapply Forall_impl; [apply chunks_sizes; lia|]. simpl. lia.
Qed.

Lemma concat_map_map {A B} (f : A -> B) (ls : list (list A)) :
  concat (map (map f) ls) = map f (concat ls).
Proof.
  induction ls as [|l ls IH]; simpl; [done|]. by rewrite map_app, IH.
Qed.

(** X6.  When the store fails none of the queries, [create_graph_data]
    sends every edge exactly once and in order, in ceil(n / batch_size)
    queries of at most [batch_size] edges each, and reports these counts.
    A [batch_size] of [None] or [0] means the writer's default. *)
Theorem create_graph_data_writes_every_edge_once (self_batch_size : Z)
    (batch_size : option Z) (bs : Z) (edges : list ProjectedEdge)
    (session : Database.Neo4jSession) :
  Database.or_int batch_size self_batch_size = bs ->
  (0 < bs)%Z ->
  edges <> [] ->
  no_fault_before session ((length edges + Z.to_nat bs - 1) / Z.to_nat bs) ->
  exists session',
    Database.create_graph_data self_batch_size edges batch_size session
    = (session',
       Ok {| Database.configs_processed := length edges;
             Database.batches := (length edges + Z.to_nat bs - 1) / Z.to_nat bs |})
    /\ concat (Database.committed session')
       = concat (Database.committed session) ++ map Database.config_of edges
    /\ Forall (fun query => 0 < length query <= Z.to_nat bs)
         (drop (length (Database.committed session)) (Database.committed session'))
    /\ length (Database.committed session')
       = length (Database.committed session)
         + (length edges + Z.to_nat bs - 1) / Z.to_nat bs
    /\ Database.attempts session'
       = Database.attempts session + (length edges + Z.to_nat bs - 1) / Z.to_nat bs
    /\ Database.faults session' = Database.faults session.
Proof.
  intros Hor Hbs Hne Hok.
  assert (Hlen : length (chunks (length edges) (Z.to_nat bs) edges)
                 = (length edges + Z.to_nat bs - 1) / Z.to_nat bs).
  { apply chunks_length; lia. }
  rewrite <- Hlen in *.
  eexists. split; [by apply create_graph_data_all_committed_any|].
  cbn [Database.committed Database.attempts Database.faults].
  split.
  { rewrite concat_app, concat_map_map, chunks_concat by lia. done. }
  split.
  { rewrite drop_app_length. apply Forall_fmap.
    eapply Forall_impl; [apply (chunks_sizes (length edges) (Z.to_nat bs) edges); lia|].
    intros b Hb. simpl. by rewrite length_map. }
  split; [by rewrite length_app, length_map|done].
Qed.

Lemma create_graph_data_writes_every_edge_once_witness :
  (Database.create_graph_data 1000 edges2500 None healthy_store).2
  = Ok {| Database.configs_processed := 2500; Database.batches := 3 |}.
Proof.
  assert (F : no_fault_before healthy_store
                ((length edges2500 + Z.to_nat 1000 - 1) / Z.to_nat 1000)).
  { intros k _. reflexivity. }
  destruct (create_graph_data_writes_every_edge_once 1000 None 1000 edges2500
              healthy_store eq_refl eq_refl ltac:(discriminate) F)
    as (session' & E & _).
  rewrite E. reflexivity.
Defined.

(** X7.  A batch size that is not positive writes nothing: with a negative
    one [create_graph_data] sends no query and still reports every edge as
    processed, in zero batches; when the given batch size and the default
    are both zero, the [ValueError] of [range] escapes as it is. *)
Theorem create_graph_data_nonpositive_batch_size (self_batch_size : Z)
    (batch_size : option Z) (edges : list ProjectedEdge)
    (session : Database.Neo4jSession) :
  edges <> [] ->
  (Database.or_int batch_size self_batch_size <= 0)%Z ->
  Database.create_graph_data self_batch_size edges batch_size session
  = (session,
     if (Database.or_int batch_size self_batch_size =? 0)%Z
     then Err (ValueError (Msg "range() arg 3 must not be zero"))
     else Ok {| Database.configs_processed := length edges; Database.batches := 0 |}).
Proof.
  intros Hne Hbs.
  unfold Database.create_graph_data.
  destruct edges as [|e edges]; [done|].
  rewrite bool_decide_eq_false_2 by done.
  unfold Database.range0.
  destruct (Z.eqb_spec (Database.or_int batch_size self_batch_size) 0) as [|Hnz]; [done|].
  destruct (Z.ltb_spec (Database.or_int batch_size self_batch_size) 0) as [_|]; [|lia].
  reflexivity.
Qed.

Lemma create_graph_data_nonpositive_batch_size_witness :
  Database.create_graph_data 1000 [sample_edge] (Some (-5)%Z) healthy_store
  = (healthy_store,
     Ok {| Database.configs_processed := 1; Database.batches := 0 |}).
Proof.
  exact (create_graph_data_nonpositive_batch_size 1000 (Some (-5)%Z) [sample_edge]
           healthy_store ltac:(discriminate) ltac:(done)).
Defined.

(** ** The session manager *)

Lemma get_table_data_as_get_session now self sid :
  get_table_data now self sid
  = ((get_session now self sid).1, table_data <$> (get_session now self sid).2).
Proof. unfold get_table_data. by destruct (get_session now self sid). Qed.

(** X8.  A session that [create_session] could save is read back unchanged
    until it times out: its frames, its table descriptions and, from
    [get_session_info], its metadata without the frames; these reads leave
    the manager as it is.  [create_session] fails only when the session
    file cannot be written. *)
Theorem create_session_round_trip (now now' : Z) (self : SessionManager) (sid : string)
    (dfs : list (string * DataFrame)) (td : dict TableData) (src : string) :
  _get_session_path sid ∉ faulty self ->
  (now' - now <= session_timeout self)%Z ->
  exists self',
    create_session now self sid dfs td src = Ok (self', sid)
    /\ get_dataframes now' self' sid = (self', Some dfs)
    /\ get_table_data now' self' sid = (self', Some td)
    /\ get_session_info now' self' sid
       = (self',
          Some {| session_id := sid; created_at := now; source_type := src;
                  table_data := td; dataframe_count := length dfs;
                  sd_total_rows := sum_list (map (fun d => len d.2) dfs);
                  dataframes := None |}).
Proof.
  intros Hf Hv. unfold create_session, _save_session_metadata.
  rewrite bool_decide_eq_false_2 by done. simpl.
  eexists. split; [reflexivity|].
  rewrite get_dataframes_as_get_session, get_table_data_as_get_session,
    get_session_info_as_get_session.
  unfold get_session. simpl. rewrite lookup_insert_eq. simpl.
  destruct (Z.leb_spec (now' - now) (session_timeout self)); [|lia].
  simpl. done.
Qed.

Lemma create_session_round_trip_witness :
  (get_dataframes 1300 cached_manager "d41d8cd98f00b204e9800998ecf8427e").2
  = Some [("people", people)].
Proof.
  destruct (create_session_round_trip 1000 1300 (empty_manager 300)
              "d41d8cd98f00b204e9800998ecf8427e" [("people", people)] [] "file"
              ltac:(set_solver) ltac:(simpl; lia))
    as (self' & Hc & Hd & _).
  unfold cached_manager. rewrite Hc. simpl. by rewrite Hd.
Defined.

Lemma get_session_returns (now : Z) (self : SessionManager) (sid : string)
    (d : SessionData) :
  (get_session now self sid).2 = Some d ->
  (now - created_at d <= session_timeout self)%Z
  /\ (_sessions self !! sid = Some d
      \/ cache_dir self !! _get_session_path sid = Some (Pickle d))
  /\ _sessions (get_session now self sid).1 !! sid = Some d
  /\ cache_dir (get_session now self sid).1 = cache_dir self.
Proof.
  unfold get_session.
  assert (L : forall m d',
            (_load_session_metadata now (with_sessions self m) sid).2 = Some d' ->
            (now - created_at d' <= session_timeout self)%Z
            /\ cache_dir self !! _get_session_path sid = Some (Pickle d')
            /\ (_load_session_metadata now (with_sessions self m) sid).1
               = with_sessions self m).
  { intros m d'. unfold _load_session_metadata. simpl.
    destruct (cache_dir self !! _get_session_path sid) as [[d0|]|]; simpl; try done.
    rewrite Z.gtb_ltb.
    destruct (Z.ltb_spec (session_timeout self) (now - created_at d0)); simpl; [done|].
    intros [= <-]. repeat split; auto. }
  destruct (_sessions self !! sid) as [d0|] eqn:Hm.
  - destruct (Z.leb_spec (now - created_at d0) (session_timeout self)); simpl.
    + intros [= <-]. auto.
    + pose proof (L (delete sid (_sessions self))) as L0.
      destruct (_load_session_metadata now _ sid) as [self' [d'|]]; simpl; [|done].
      intros [= <-]. destruct (L0 d' eq_refl) as (? & ? & E). simpl in E. subst self'.
      simpl. rewrite lookup_insert_eq. auto.
  - pose proof (L (_sessions self)) as L0.
    replace (with_sessions self (_sessions self)) with self in L0 by (by destruct self).
    destruct (_load_session_metadata now self sid) as [self' [d'|]]; simpl; [|done].
    intros [= <-]. destruct (L0 d' eq_refl) as (? & ? & E). simpl in E. subst self'.
    simpl. rewrite lookup_insert_eq. auto.
Qed.


(** X9.  In whatever state the manager is, a session that [get_session]
    returns has not timed out; it is the copy held in memory or the one in
    the session file, it is held in memory afterwards, and the cache
    directory is left as it was. *)
Theorem get_session_never_expired (now : Z) (self : SessionManager) (sid : string)
    (d : SessionData) :
  (get_session now self sid).2 = Some d ->
  (now - created_at d <= session_timeout self)%Z
  /\ (_sessions self !! sid = Some d
      \/ cache_dir self !! _get_session_path sid = Some (Pickle d))
  /\ _sessions (get_session now self sid).1 !! sid = Some d
  /\ cache_dir (get_session now self sid).1 = cache_dir self.
Proof. apply get_session_returns. Qed.

Lemma get_session_never_expired_witness :
  (1300 - created_at cached_session <= session_timeout cached_manager)%Z.
Proof.
  exact (proj1 (get_session_never_expired 1300 cached_manager
                  "d41d8cd98f00b204e9800998ecf8427e" cached_session eq_refl)).
Defined.

Lemma get_session_result_local now a b k :
  session_timeout b = session_timeout a ->
  _sessions b !! k = _sessions a !! k ->
  cache_dir b !! _get_session_path k = cache_dir a !! _get_session_path k ->
  (get_session now b k).2 = (get_session now a k).2.
Proof.
  intros Ht Hm Hc. unfold get_session. rewrite Hm, Ht.
  assert (L : forall ma mb,
            (_load_session_metadata now (with_sessions b mb) k).2
            = (_load_session_metadata now (with_sessions a ma) k).2).
  { intros ma mb. unfold _load_session_metadata. simpl. rewrite Hc, Ht.
    destruct (cache_dir a !! _get_session_path k) as [[d0|]|]; simpl; try done.
    by destruct (_ >? _)%Z. }
  destruct (_sessions a !! k) as [d0|].
  - destruct (_ <=? _)%Z; [done|].
    pose proof (L (delete k (_sessions a)) (delete k (_sessions b))) as L0.
    destruct (_load_session_metadata now (with_sessions b _) k) as [b' [db|]],
      (_load_session_metadata now (with_sessions a _) k) as [a' [da|]]; simpl in *;
      congruence.
  - pose proof (L (_sessions a) (_sessions b)) as L0.
    replace (with_sessions a (_sessions a)) with a in L0 by (by destruct a).
    replace (with_sessions b (_sessions b)) with b in L0 by (by destruct b).
    destruct (_load_session_metadata now b k) as [b' [db|]],
      (_load_session_metadata now a k) as [a' [da|]]; simpl in *; congruence.
Qed.

Lemma same_elsewhere_read now' sid other a b :
  other <> sid -> same_elsewhere sid a b ->
  (get_session now' b other).2 = (get_session now' a other).2.
Proof.
  intros Hne (Ht & _ & Hm & Hc). apply get_session_result_local; auto.
  apply Hc. intros E. by apply session_path_inj in E.
Qed.

(** X10.  Reading or deleting one session changes nothing for any other
    session: after [get_session], [get_dataframes], [get_table_data],
    [get_session_info] or [delete_session] on [sid], the memory entry and
    the file of every other session are as before, and so is what a read
    of it returns. *)
Theorem session_operations_are_local (now now' : Z) (self self' : SessionManager)
    (sid other : string) :
  other <> sid ->
  self' ∈ [(get_session now self sid).1; (get_dataframes now self sid).1;
           (get_table_data now self sid).1; (get_session_info now self sid).1;
           (delete_session self sid).1] ->
  _sessions self' !! other = _sessions self !! other
  /\ cache_dir self' !! _get_session_path other
     = cache_dir self !! _get_session_path other
  /\ (get_session now' self' other).2 = (get_session now' self other).2
  /\ (get_dataframes now' self' other).2 = (get_dataframes now' self other).2
  /\ (get_session_info now' self' other).2 = (get_session_info now' self other).2.
Proof.
  intros Hne Hin.
  assert (S : same_elsewhere sid self self').
  { rewrite get_dataframes_as_get_session, get_table_data_as_get_session,
      get_session_info_as_get_session in Hin. simpl in Hin.
    repeat (apply elem_of_cons in Hin as [->|Hin]);
      try apply get_session_elsewhere; try apply delete_session_elsewhere.
    by apply elem_of_nil in Hin. }
  pose proof (same_elsewhere_read now' sid other self self' Hne S) as R.
  destruct S as (Ht & _ & Hm & Hc).
  split; [by apply Hm|]. split.
  { apply Hc. intros E. by apply session_path_inj in E. }
  rewrite !get_dataframes_as_get_session, !get_session_info_as_get_session. simpl.
  by rewrite R.
Qed.

Lemma session_operations_are_local_witness :
  (get_session 1300 (delete_session cached_manager "other").1
     "d41d8cd98f00b204e9800998ecf8427e").2
  = (get_session 1300 cached_manager "d41d8cd98f00b204e9800998ecf8427e").2.
Proof.
  refine (proj1 (proj2 (proj2 (session_operations_are_local 0 1300 cached_manager
            (delete_session cached_manager "other").1 "other"
            "d41d8cd98f00b204e9800998ecf8427e" ltac:(done) _)))).
  do 4 right. left.
Defined.

(** X11.  After a [delete_session] that answered [True] the session is
    gone: whenever it is read next, [get_session] finds nothing.  After one
    that answered [False] the memory entry is gone but the file is still
    there, and a read within the timeout brings the session back from it. *)
Theorem delete_session_then_get (now : Z) (self : SessionManager) (sid : string) :
  _sessions (delete_session self sid).1 !! sid = None
  /\ if (delete_session self sid).2
     then get_session now (delete_session self sid).1 sid
          = ((delete_session self sid).1, None)
     else cache_dir (delete_session self sid).1 !! _get_session_path sid
          = cache_dir self !! _get_session_path sid
          /\ is_Some (cache_dir self !! _get_session_path sid)
          /\ forall d,
               cache_dir self !! _get_session_path sid = Some (Pickle d) ->
               (now - created_at d <= session_timeout self)%Z ->
               (get_session now (delete_session self sid).1 sid).2 = Some d.
Proof.
  unfold delete_session. simpl.
  case_bool_decide as Hex; simpl.
  - case_bool_decide as Hf; simpl.
    + split; [apply lookup_delete_eq|]. split; [done|]. split; [done|].
      intros d Hd Hv.
      apply (get_session_valid now (with_sessions self (delete sid (_sessions self))) sid d).
      * split; simpl; [done|]. left. apply lookup_delete_eq.
      * done.
    + split; [apply lookup_delete_eq|].
      apply get_session_absent. split; simpl; apply lookup_delete_eq.
  - split; [apply lookup_delete_eq|].
    apply get_session_absent. split; simpl; [|apply lookup_delete_eq].
    destruct (cache_dir self !! _get_session_path sid) eqn:E; [|done].
    exfalso. apply Hex. eauto.
Qed.

Lemma forget_stale_lookup (stale : list (string * SessionData))
    (m : gmap string SessionData) k :
  foldr (fun kv m => delete kv.1 m) m stale !! k
  = if bool_decide (k ∈ stale.*1) then None else m !! k.
Proof.
  induction stale as [|[k0 d0] stale IH]; cbn [foldr fmap list_fmap fst].
  - case_bool_decide as E; [by apply elem_of_nil in E|done].
  - destruct (decide (k = k0)) as [->|Hne].
    + rewrite lookup_delete_eq. rewrite bool_decide_eq_true_2; [done|left].
    + rewrite lookup_delete_ne by done. rewrite IH.
      apply (f_equal (fun b : bool => if b then None else m !! k)).
      apply bool_decide_ext. rewrite elem_of_cons.
        split; [by right|intros [?|?]; done].
Qed.

Lemma cleanup_file_step now self s n f :
  session_timeout s = session_timeout self -> faulty s = faulty self ->
  cache_dir s !! f = cache_dir self !! f ->
  cleanup_file now (s, n) f
  = if removable now self f
    then (with_cache_dir s (delete f (cache_dir s)), S n)
    else (s, n).
Proof.
  intros Ht Hf Hc. unfold cleanup_file, removable, expired. rewrite Hc, Hf, Ht.
  destruct (bool_decide (f ∈ faulty self)); simpl.
  - by destruct (cache_dir self !! f) as [[d|]|]; [destruct (_ >? _)%Z| |].
  - by destruct (cache_dir self !! f) as [[d|]|]; [destruct (_ >? _)%Z| |].
Qed.

Lemma cleanup_files_fold now self : forall files acc,
  NoDup files ->
  session_timeout acc.1 = session_timeout self -> faulty acc.1 = faulty self ->
  (forall f, f ∈ files -> cache_dir acc.1 !! f = cache_dir self !! f) ->
  session_timeout (fold_left (cleanup_file now) files acc).1 = session_timeout self
  /\ faulty (fold_left (cleanup_file now) files acc).1 = faulty self
  /\ _sessions (fold_left (cleanup_file now) files acc).1 = _sessions acc.1
  /\ (forall p, cache_dir (fold_left (cleanup_file now) files acc).1 !! p
                = if bool_decide (p ∈ files) && removable now self p
                  then None else cache_dir acc.1 !! p)
  /\ (fold_left (cleanup_file now) files acc).2
     = acc.2 + length (filter (fun f => removable now self f = true) files).
Proof.
  induction files as [|f files IH]; intros [s n] ND Ht Hf Hc; cbn [fold_left].
  - simpl. repeat split; auto; lia.
  - apply NoDup_cons in ND as [Hnf ND]. simpl in Ht, Hf, Hc.
    assert (Hcf : cache_dir s !! f = cache_dir self !! f) by (apply Hc; left).
    rewrite (cleanup_file_step now self s n f Ht Hf Hcf).
    rewrite filter_cons.
    destruct (removable now self f) eqn:R.
    + destruct (IH (with_cache_dir s (delete f (cache_dir s)), S n) ND Ht Hf)
        as (IH1 & IH2 & IH3 & IH4 & IH5).
      { intros f' Hin. simpl. rewrite lookup_delete_ne by (intros ->; done).
        apply Hc. by right. }
      rewrite decide_True by done.
      split; [done|]. split; [done|]. split; [done|]. split.
      * intros p. rewrite IH4. simpl.
        destruct (decide (p = f)) as [E|Hne].
        -- subst p. rewrite (bool_decide_eq_false_2 (f ∈ files)) by done.
           rewrite (bool_decide_eq_true_2 (f ∈ f :: files)) by left.
           rewrite R. simpl. apply lookup_delete_eq.
        -- rewrite lookup_delete_ne by done.
           apply (f_equal (fun b : bool => if b && removable now self p
                                           then None else cache_dir s !! p)).
           apply bool_decide_ext. rewrite elem_of_cons.
        split; [by right|intros [?|?]; done].
      * rewrite IH5. simpl. lia.
    + destruct (IH (s, n) ND Ht Hf) as (IH1 & IH2 & IH3 & IH4 & IH5).
      { intros f' Hin. apply Hc. by right. }
      rewrite decide_False by done.
      split; [done|]. split; [done|]. split; [done|]. split; [|done].
      intros p. rewrite IH4. simpl.
      destruct (decide (p = f)) as [E|Hne].
      * subst p. rewrite R, !andb_false_r. done.
      * apply (f_equal (fun b : bool => if b && removable now self p
                                        then None else cache_dir s !! p)).
        apply bool_decide_ext. rewrite elem_of_cons.
        split; [by right|intros [?|?]; done].
Qed.

Lemma elem_of_glob self p :
  p ∈ glob self <-> glob_match p = true /\ is_Some (cache_dir self !! p).
Proof.
  unfold glob. rewrite list_elem_of_filter, list_elem_of_fmap. split.
  - intros [Hg ([p' f] & -> & Hin)]. apply elem_of_map_to_list in Hin. simpl in *. eauto.
  - intros [Hg [f Hf]]. split; [done|]. exists (p, f). split; [done|].
    by apply elem_of_map_to_list.
Qed.

(** X13.  [cleanup_expired_sessions] drops from memory exactly the entries
    that have timed out, and unlinks exactly the session files that can be
    unlinked and hold a timed-out session or fail to load; it returns the
    number of entries dropped plus the number of files unlinked, so a
    session held both in memory and on disk counts twice.  A stored session
    that has not timed out is still stored afterwards. *)
Theorem cleanup_expired_sessions_spec (now : Z) (self : SessionManager) :
  (forall k, _sessions (cleanup_expired_sessions now self).1 !! k
             = _sessions self !! k ≫= fun d => if expired now self d then None else Some d)
  /\ (forall p, cache_dir (cleanup_expired_sessions now self).1 !! p
                = if glob_match p && removable now self p
                  then None else cache_dir self !! p)
  /\ (cleanup_expired_sessions now self).2
     = length (filter (fun kv => expired now self kv.2 = true)
                 (map_to_list (_sessions self)))
       + length (filter (fun f => removable now self f = true) (glob self))
  /\ faulty (cleanup_expired_sessions now self).1 = faulty self
  /\ session_timeout (cleanup_expired_sessions now self).1 = session_timeout self
  /\ (forall sid d,
        stored self sid d -> expired now self d = false ->
        stored (cleanup_expired_sessions now self).1 sid d).
Proof.
  unfold cleanup_expired_sessions.
  set (stale := filter (fun kv => expired now self kv.2 = true)
                  (map_to_list (_sessions self))).
  set (self1 := with_sessions self (foldr (fun kv m => delete kv.1 m) (_sessions self) stale)).
  assert (Hglob : glob self1 = glob self) by done.
  destruct (cleanup_files_fold now self (glob self1) (self1, length stale))
    as (F1 & F2 & F3 & F4 & F5); try done.
  { rewrite Hglob. unfold glob. apply NoDup_filter, NoDup_fst_map_to_list. }
  assert (M : forall k, _sessions self1 !! k
              = _sessions self !! k ≫= fun d => if expired now self d then None else Some d).
  { intros k. unfold self1. simpl. rewrite forget_stale_lookup.
    destruct (_sessions self !! k) as [d|] eqn:Hk; simpl.
    - destruct (expired now self d) eqn:Hx.
      + rewrite bool_decide_eq_true_2; [done|].
        apply list_elem_of_fmap. exists (k, d). split; [done|].
        apply list_elem_of_filter. split; [done|]. by apply elem_of_map_to_list.
      + rewrite bool_decide_eq_false_2; [done|].
        intros ([k' d'] & -> & Hin)%list_elem_of_fmap.
        apply list_elem_of_filter in Hin as [Hx' Hin].
        apply elem_of_map_to_list in Hin. simpl in *. congruence.
    - by case_bool_decide. }
  assert (C : forall p, cache_dir (fold_left (cleanup_file now) (glob self1)
                                     (self1, length stale)).1 !! p
              = if glob_match p && removable now self p
                then None else cache_dir self !! p).
  { intros p. rewrite F4, Hglob. simpl.
    destruct (removable now self p) eqn:R; [|by rewrite !andb_false_r].
    rewrite !andb_true_r.
    destruct (glob_match p) eqn:G.
    - rewrite bool_decide_eq_true_2; [done|]. apply elem_of_glob. split; [done|].
      unfold removable in R. apply andb_true_iff in R as [_ R].
      destruct (cache_dir self !! p); [eauto|done].
    - rewrite bool_decide_eq_false_2; [done|].
      intros [? _]%elem_of_glob. congruence. }
  split; [intros k; rewrite F3; apply M|].
  split; [exact C|].
  split; [by rewrite F5, Hglob|].
  split; [done|]. split; [done|].
  intros sid d [Hc Hm] Hx. split.
  - rewrite C. unfold removable. rewrite Hc, Hx. by rewrite !andb_false_r.
  - rewrite F3, !M. destruct Hm as [->| ->]; simpl; [by left|]. rewrite Hx. by right.
Qed.

(** ** File names and extensions *)

Lemma contains_cons sep c s :
  str_contains_char sep (String c s) = bool_decide (sep = c) || str_contains_char sep s.
Proof. reflexivity. Qed.

Lemma contains_chars sep s :
  str_contains_char sep s = true <-> sep ∈ list_ascii_of_string s.
Proof.
  induction s as [|c s IH].
  - simpl. split; [done|]. intros H. by apply elem_of_nil in H.
  - rewrite contains_cons, orb_true_iff, IH, bool_decide_eq_true. cbn [list_ascii_of_string].
    rewrite elem_of_cons. done.
Qed.

Lemma chars_filter keep s c :
  c ∈ list_ascii_of_string (Security.str_filter keep s)
  <-> c ∈ list_ascii_of_string s /\ keep c = true.
Proof.
  induction s as [|d s IH]; cbn [Security.str_filter list_ascii_of_string].
  - split; [intros H; by apply elem_of_nil in H|intros [H _]; by apply elem_of_nil in H].
  - destruct (keep d) eqn:K; cbn [list_ascii_of_string]; rewrite ?elem_of_cons, IH.
    + split; [intros [->|[? ?]]; auto|intros [[->|?] ?]; auto].
    + split; [intros [? ?]; auto|intros [[->|?] ?]; [congruence|auto]].
Qed.

Lemma chars_after_last sep s c :
  c ∈ list_ascii_of_string (Security.after_last sep s) ->
  c ∈ list_ascii_of_string s /\ c <> sep.
Proof.
  induction s as [|d s IH]; cbn [Security.after_last].
  - intros H. by apply elem_of_nil in H.
  - destruct (str_contains_char sep (String d s)) eqn:E.
    + intros H. destruct (IH H) as [? ?]. split; [|done].
      cbn [list_ascii_of_string]. by right.
    + intros H. split; [done|]. intros ->.
      apply contains_chars in H. congruence.
Qed.

Lemma chars_before_last sep s c :
  c ∈ list_ascii_of_string (Security.before_last sep s) -> c ∈ list_ascii_of_string s.
Proof.
  induction s as [|d s IH]; cbn [Security.before_last]; [done|].
  destruct (str_contains_char sep s); cbn [list_ascii_of_string].
  - rewrite !elem_of_cons. intros [->|?]; auto.
  - intros H. by apply elem_of_nil in H.
Qed.

Lemma chars_take n s c :
  c ∈ list_ascii_of_string (string_take n s) -> c ∈ list_ascii_of_string s.
Proof.
  revert s. induction n as [|n IH]; intros [|d s]; cbn [string_take list_ascii_of_string];
    try (intros H; by apply elem_of_nil in H).
  rewrite !elem_of_cons. intros [->|?]; auto.
Qed.

Lemma chars_slice_to k s c :
  c ∈ list_ascii_of_string (Security.slice_to k s) -> c ∈ list_ascii_of_string s.
Proof. unfold Security.slice_to. destruct (k <? 0)%Z; apply chars_take. Qed.

Lemma chars_app a b c :
  c ∈ list_ascii_of_string (a +:+ b)
  <-> c ∈ list_ascii_of_string a \/ c ∈ list_ascii_of_string b.
Proof.
  induction a as [|d a IH]; cbn [String.append list_ascii_of_string].
  - split; [auto|]. intros [H|H]; [by apply elem_of_nil in H|done].
  - rewrite !elem_of_cons, IH. tauto.
Qed.

Lemma chars_remove ds : forall s c,
  c ∈ list_ascii_of_string (fold_left (fun name d => Security.remove_char d name) ds s)
  <-> c ∈ list_ascii_of_string s /\ c ∉ ds.
Proof.
  induction ds as [|d ds IH]; intros s c; cbn [fold_left].
  - split; [intros H; split; [done|apply not_elem_of_nil]|tauto].
  - rewrite IH. unfold Security.remove_char. rewrite chars_filter.
    rewrite not_elem_of_cons, negb_true_iff, bool_decide_eq_false. tauto.
Qed.

Lemma chars_cleaned filename c :
  c ∈ list_ascii_of_string (Security.cleaned filename) -> safe_char c.
Proof.
  unfold Security.cleaned. intros H.
  apply chars_remove in H as [H Hd].
  unfold Security.remove_char in H.
  apply chars_filter in H as [H _].
  apply chars_filter in H as [H Hord].
  apply chars_after_last in H as [H Hb].
  apply chars_after_last in H as [_ Hs].
  apply Z.leb_le in Hord.
  split; [done|]. rewrite !not_elem_of_cons. auto.
Qed.

Lemma safe_dot : safe_char Security.dot.
Proof.
  split; [by vm_compute|]. unfold Security.dangerous_chars.
  rewrite !not_elem_of_cons. repeat split; try (by vm_compute).
  apply not_elem_of_nil.
Qed.

Lemma chars_limited max_length s c :
  c ∈ list_ascii_of_string (Security.limited max_length s) ->
  c ∈ list_ascii_of_string s \/ c = Security.dot.
Proof.
  unfold Security.limited.
  destruct (_ <? _)%Z; [|auto].
  destruct (str_contains_char Security.dot s).
  - rewrite !chars_app. intros [H|[H|H]].
    + left. eapply chars_before_last, chars_slice_to, H.
    + right. cbn [list_ascii_of_string] in H.
      apply elem_of_cons in H as [->|H]; [done|by apply elem_of_nil in H].
    + left. by apply chars_after_last in H as [? _].
  - intros H. left. eapply chars_slice_to, H.
Qed.

Lemma sanitize_filename_cases filename max_length :
  Security.sanitize_filename filename max_length = "unnamed"
  \/ (Security.sanitize_filename filename max_length
      = Security.limited max_length (Security.cleaned filename)
      /\ Security.limited max_length (Security.cleaned filename) ∉ [""; "."; ".."]).
Proof.
  unfold Security.sanitize_filename.
  case_bool_decide; [by left|].
  destruct (bool_decide (Security.limited max_length (Security.cleaned filename) = ""))
    eqn:E1; simpl; [by left|].
  destruct (bool_decide (Security.limited max_length (Security.cleaned filename)
                         ∈ ["."; ".."])) eqn:E2; simpl; [by left|].
  right. split; [done|].
  apply bool_decide_eq_false in E1, E2.
  rewrite not_elem_of_cons. done.
Qed.

Lemma sanitized_name_is_safe (filename : string) (max_length : Z) :
  (Security.sanitize_filename filename max_length ∉ [""; "."; ".."])
  /\ forall c,
       c ∈ list_ascii_of_string (Security.sanitize_filename filename max_length) ->
       safe_char c.
Proof.
  destruct (sanitize_filename_cases filename max_length) as [->|[-> Hne]].
  - split.
    + rewrite !not_elem_of_cons. repeat split; try done. apply not_elem_of_nil.
    + intros c Hc. cbn [list_ascii_of_string] in Hc.
      unfold safe_char, Security.dangerous_chars.
      repeat (apply elem_of_cons in Hc as [->|Hc];
              [split; [by vm_compute|];
               rewrite !not_elem_of_cons; repeat split; try (by vm_compute);
               apply not_elem_of_nil|]).
      by apply elem_of_nil in Hc.
  - split; [done|]. intros c Hc.
    apply chars_limited in Hc as [Hc| ->]; [by eapply chars_cleaned|apply safe_dot].
Qed.

(** X14.  Whatever name it is given, [sanitize_filename] returns a name
    that is not empty, is neither ["."] nor [".."], and holds no path
    separator, no control character, no double quote and none of the
    characters [< > : | ? *]. *)
Theorem sanitize_filename_safe (filename : string) (max_length : Z) :
  (Security.sanitize_filename filename max_length ∉ [""; "."; ".."])
  /\ forall c,
       c ∈ list_ascii_of_string (Security.sanitize_filename filename max_length) ->
       safe_char c.
Proof. apply sanitized_name_is_safe. Qed.

Lemma length_string_take n s : String.length (string_take n s) <= n.
Proof.
  revert s. induction n as [|n IH]; intros [|d s]; cbn [string_take String.length]; try lia.
  specialize (IH s). lia.
Qed.

(** X15.  The result of [sanitize_filename] is at most [max_length]
    characters long, provided [max_length] leaves room for the fallback
    name (7 characters) and for the extension of the cleaned name with its
    dot.  (With a longer extension the cut is taken from the end of the
    stem and the result can exceed the limit.) *)
Theorem sanitize_filename_length (filename : string) (max_length : Z) :
  (7 <= max_length)%Z ->
  (Z.of_nat (String.length (Security.after_last Security.dot (Security.cleaned filename)))
   < max_length)%Z ->
  (Z.of_nat (String.length (Security.sanitize_filename filename max_length))
   <= max_length)%Z.
Proof.
  intros H7 Hext.
  destruct (sanitize_filename_cases filename max_length) as [->|[-> _]];
    [simpl; lia|].
  unfold Security.limited.
  destruct (Z.ltb_spec max_length
              (Z.of_nat (String.length (Security.cleaned filename)))); [|lia].
  destruct (str_contains_char Security.dot (Security.cleaned filename)).
  - rewrite !string_length_app. unfold Security.slice_to.
    destruct (Z.ltb_spec (max_length
                - Z.of_nat (String.length
                    (Security.after_last Security.dot (Security.cleaned filename))) - 1) 0);
      [lia|].
    match goal with |- context [string_take ?n ?s] =>
      pose proof (length_string_take n s) end.
    simpl String.length. lia.
  - unfold Security.slice_to. destruct (Z.ltb_spec max_length 0); [lia|].
    pose proof (length_string_take (Z.to_nat max_length) (Security.cleaned filename)). lia.
Qed.

Lemma sanitize_filename_length_witness :
  Security.sanitize_filename "abcdefghijkl.txt" 10 = "abcdef.txt"
  /\ (Z.of_nat (String.length (Security.sanitize_filename "abcdefghijkl.txt" 10)) <= 10)%Z
  /\ Security.sanitize_filename "abcdefgh.txtlong" 6 = "abcdef.txtlong".
Proof.
  split; [reflexivity|]. split; [|reflexivity].
  apply (sanitize_filename_length "abcdefghijkl.txt" 10); vm_compute; done.
Defined.

Lemma after_last_none sep s :
  str_contains_char sep s = false -> Security.after_last sep s = s.
Proof. destruct s as [|c s]; [done|]. cbn [Security.after_last]. by intros ->. Qed.

Lemma after_last_no_sep sep s :
  str_contains_char sep (Security.after_last sep s) = false.
Proof.
  destruct (str_contains_char sep (Security.after_last sep s)) eqn:E; [|done].
  apply contains_chars, chars_after_last in E as [_ ?]. done.
Qed.

Lemma contains_app sep a b :
  str_contains_char sep (a +:+ b) = str_contains_char sep a || str_contains_char sep b.
Proof.
  induction a as [|c a IH]; [done|].
  cbn [String.append]. rewrite !contains_cons, IH. by rewrite orb_assoc.
Qed.

Lemma after_last_app_sep sep x e :
  str_contains_char sep e = false ->
  Security.after_last sep (x +:+ String sep e) = e.
Proof.
  intros He. induction x as [|c x IH]; cbn [String.append Security.after_last].
  - rewrite contains_cons, bool_decide_eq_true_2 by done. simpl.
    by apply after_last_none.
  - rewrite contains_cons, contains_app, contains_cons,
      (bool_decide_eq_true_2 (sep = sep)) by done.
    rewrite orb_true_r, orb_true_r. exact IH.
Qed.

Lemma limited_extension max_length s :
  Security.get_file_extension (Security.limited max_length s)
  = Security.get_file_extension s.
Proof.
  unfold Security.limited.
  destruct (_ <? _)%Z; [|done].
  destruct (str_contains_char Security.dot s) eqn:E.
  - unfold Security.get_file_extension. rewrite E.
    change ("." +:+ Security.after_last Security.dot s)
      with (String Security.dot (Security.after_last Security.dot s)).
    rewrite contains_app, contains_cons, (bool_decide_eq_true_2 (Security.dot = Security.dot))
      by done.
    rewrite orb_true_r. simpl negb. cbv iota.
    by rewrite after_last_app_sep by apply after_last_no_sep.
  - unfold Security.get_file_extension. rewrite E.
    destruct (str_contains_char Security.dot (Security.slice_to max_length s)) eqn:E'; [|done].
    apply contains_chars, chars_slice_to, contains_chars in E'. congruence.
Qed.

Lemma check_file_extension_get filename allowed_extensions :
  Security.check_file_extension filename allowed_extensions
  = match Security.get_file_extension filename with
    | Some extension => bool_decide (extension ∈ map Security.lower allowed_extensions)
    | None => false
    end.
Proof.
  unfold Security.check_file_extension, Security.get_file_extension.
  by destruct (str_contains_char Security.dot filename).
Qed.

(** X16.  Cutting a name down to [max_length] never changes its
    extension: unless it falls back to ["unnamed"], [sanitize_filename]
    returns a name with the extension of the cleaned name, so
    [check_file_extension] gives the same verdict on both. *)
Theorem sanitize_filename_keeps_extension (filename : string) (max_length : Z) :
  Security.sanitize_filename filename max_length = "unnamed"
  \/ (Security.get_file_extension (Security.sanitize_filename filename max_length)
      = Security.get_file_extension (Security.cleaned filename)
      /\ forall allowed_extensions,
           Security.check_file_extension
             (Security.sanitize_filename filename max_length) allowed_extensions
           = Security.check_file_extension (Security.cleaned filename) allowed_extensions).
Proof.
  destruct (sanitize_filename_cases filename max_length) as [->|[-> _]]; [by left|].
  right. split; [apply limited_extension|].
  intros allowed. by rewrite !check_file_extension_get, limited_extension.
Qed.

Lemma lower_char_dot c : Security.dot = Security.lower_char c <-> Security.dot = c.
Proof.
  destruct c as [[] [] [] [] [] [] [] []]; vm_compute; split; intros E; congruence.
Qed.

Lemma lower_char_idem c : Security.lower_char (Security.lower_char c) = Security.lower_char c.
Proof. by destruct c as [[] [] [] [] [] [] [] []]. Qed.

Lemma lower_idem s : Security.lower (Security.lower s) = Security.lower s.
Proof.
  induction s as [|c s IH]; [done|]. cbn [Security.lower]. by rewrite lower_char_idem, IH.
Qed.

Lemma contains_dot_lower s :
  str_contains_char Security.dot (Security.lower s) = str_contains_char Security.dot s.
Proof.
  induction s as [|c s IH]; [done|].
  cbn [Security.lower]. rewrite !contains_cons, IH. f_equal.
  apply bool_decide_ext, lower_char_dot.
Qed.

Lemma after_last_dot_lower s :
  Security.after_last Security.dot (Security.lower s)
  = Security.lower (Security.after_last Security.dot s).
Proof.
  induction s as [|c s IH]; [done|].
  change (Security.lower (String c s)) with (String (Security.lower_char c) (Security.lower s)) at 1.
  cbn [Security.after_last].
  change (String (Security.lower_char c) (Security.lower s)) with (Security.lower (String c s)).
  rewrite contains_dot_lower.
  destruct (str_contains_char Security.dot (String c s)); [exact IH|done].
Qed.

(** X17.  [check_file_extension] ignores case, in the file name and in
    the allowed extensions alike, and accepts a name exactly when
    [get_file_extension] finds an extension that, lowered, is among the
    allowed ones lowered; a name without a dot is always refused. *)
Theorem check_file_extension_case_insensitive (filename : string)
    (allowed_extensions : list string) :
  Security.check_file_extension (Security.lower filename) allowed_extensions
  = Security.check_file_extension filename allowed_extensions
  /\ Security.check_file_extension filename (map Security.lower allowed_extensions)
     = Security.check_file_extension filename allowed_extensions
  /\ (Security.check_file_extension filename allowed_extensions = true
      <-> exists extension,
            Security.get_file_extension filename = Some extension
            /\ extension ∈ map Security.lower allowed_extensions)
  /\ (Security.get_file_extension filename = None
      <-> Security.dot ∉ list_ascii_of_string filename).
Proof.
  split; [|split; [|split]].
  - unfold Security.check_file_extension.
    by rewrite contains_dot_lower, after_last_dot_lower, lower_idem.
  - unfold Security.check_file_extension. rewrite map_map.
    by rewrite (map_ext _ _ (fun e => lower_idem e)).
  - rewrite check_file_extension_get.
    destruct (Security.get_file_extension filename) as [e|].
    + rewrite bool_decide_eq_true. split; [eauto|]. by intros (e' & [= <-] & ?).
    + split; [done|]. by intros (e' & ? & _).
  - unfold Security.get_file_extension. rewrite <- contains_chars.
    destruct (str_contains_char Security.dot filename); simpl; split; done.
Qed.

(** ** The endpoints of the graph builder *)

Lemma elem_of_missing e i what element :
  e ∈ Validation.missing i what element
  <-> label element = ""
      /\ e = "Config " +:+ str_int (Z.of_nat i) +:+ ": Missing " +:+ what +:+ " label".
Proof.
  unfold Validation.missing. case_bool_decide.
  - rewrite list_elem_of_singleton. tauto.
  - split; [intros H'; by apply elem_of_nil in H'|tauto].
Qed.

Lemma elem_of_config_errors e i config :
  e ∈ Validation.config_errors i config
  <-> exists what element,
        (what, element) ∈ elements_of config /\ label element = ""
        /\ e = "Config " +:+ str_int (Z.of_nat i) +:+ ": Missing " +:+ what +:+ " label".
Proof.
  unfold Validation.config_errors, elements_of.
  rewrite !elem_of_app, !elem_of_missing. split.
  - intros [[? ->]|[[? ->]|[? ->]]]; eexists _, _; (split; [|split; [eassumption|reflexivity]]).
    + left.
    + right; left.
    + right; right; left.
  - intros (what & element & Hin & Hl & ->).
    repeat (apply elem_of_cons in Hin as [[= -> ->]|Hin]); auto.
    by apply elem_of_nil in Hin.
Qed.

Lemma elem_of_validation_errors e (graph_config : list GraphConfig) :
  e ∈ concat (imap Validation.config_errors graph_config)
  <-> exists i config what element,
        graph_config !! i = Some config
        /\ (what, element) ∈ elements_of config /\ label element = ""
        /\ e = "Config " +:+ str_int (Z.of_nat i) +:+ ": Missing " +:+ what +:+ " label".
Proof.
  rewrite list_elem_of_In, in_concat. split.
  - intros (errs & Hin & He). apply list_elem_of_In in Hin, He.
    apply elem_of_lookup_imap in Hin as (i & config & -> & Hi).
    apply elem_of_config_errors in He as (what & element & ? & ? & ?).
    eauto 10.
  - intros (i & config & what & element & Hi & Hin & Hl & He).
    exists (Validation.config_errors i config). split.
    + apply list_elem_of_In. by apply elem_of_lookup_imap_2.
    + apply list_elem_of_In, elem_of_config_errors. eauto.
Qed.

Lemma config_errors_without_properties i config :
  Validation.config_errors i (without_properties config)
  = Validation.config_errors i config.
Proof. done. Qed.

(** X18.  [validate_graph_config] accepts a list of rules exactly when it
    is not empty and every rule has a non-empty label on its source, its
    target and its relationship; otherwise it answers with one message for
    each missing label, naming the position of the rule from 0.  The
    property lists play no part in the answer. *)
Theorem validate_graph_config_spec (graph_config : list GraphConfig) :
  match Validation.validate_graph_config graph_config with
  | Validation.EmptyList => graph_config = []
  | Validation.Invalid errors =>
      graph_config <> [] /\ errors <> []
      /\ forall e,
           e ∈ errors
           <-> exists i config what element,
                 graph_config !! i = Some config
                 /\ (what, element) ∈ elements_of config /\ label element = ""
                 /\ e = "Config " +:+ str_int (Z.of_nat i) +:+ ": Missing "
                        +:+ what +:+ " label"
  | Validation.Valid message =>
      graph_config <> []
      /\ Forall (fun config =>
                   Forall (fun el => label el.2 <> "") (elements_of config)) graph_config
      /\ message = "Validated " +:+ str_int (Z.of_nat (length graph_config))
                   +:+ " graph configurations"
  end
  /\ Validation.validate_graph_config (map without_properties graph_config)
     = Validation.validate_graph_config graph_config.
Proof.
  split.
  - unfold Validation.validate_graph_config.
    destruct graph_config as [|c0 cs]; [done|]. cbn [truthy_list negb].
    pose proof (elem_of_validation_errors) as M.
    destruct (concat (imap Validation.config_errors (c0 :: cs))) as [|e0 errs] eqn:E;
      cbn [truthy_list].
    + split; [done|]. split; [|done].
      apply Forall_lookup. intros i config Hi.
      apply Forall_forall. intros [what element] Hin Hl.
      assert (Hbad : "Config " +:+ str_int (Z.of_nat i) +:+ ": Missing " +:+ what +:+ " label"
                     ∈ concat (imap Validation.config_errors (c0 :: cs))).
      { apply M. eauto 10. }
      rewrite E in Hbad. by apply elem_of_nil in Hbad.
    + split; [done|]. split; [done|]. intros e. rewrite <- E. apply M.
  - unfold Validation.validate_graph_config.
    replace (truthy_list (map without_properties graph_config))
      with (truthy_list graph_config) by (by destruct graph_config).
    rewrite length_map.
    change (map without_properties graph_config)
      with (without_properties <$> graph_config).
    rewrite imap_fmap.
    by rewrite (imap_ext _ Validation.config_errors graph_config)
      by (intros; apply config_errors_without_properties).
Qed.

Lemma create_graph_data_ok_stats (self_batch_size bs : Z) (edges : list ProjectedEdge)
    (store store' : Database.Neo4jSession) (stats : Database.Stats) :
  (0 < bs)%Z ->
  Database.create_graph_data self_batch_size edges (Some bs) store = (store', Ok stats) ->
  edges <> []
  /\ Database.configs_processed stats = length edges
  /\ Database.batches stats = (length edges + Z.to_nat bs - 1) / Z.to_nat bs.
Proof.
  intros Hbs. unfold Database.create_graph_data.
  case_bool_decide as Hn; [done|].
  unfold Database.or_int, Database.range0.
  destruct (Z.eqb_spec bs 0) as [|_]; [lia|].
  destruct (Z.eqb_spec bs 0) as [|_]; [lia|].
  destruct (Z.ltb_spec bs 0) as [|_]; [lia|].
  rewrite Nat2Z.id. cbv beta iota.
  rewrite batches_are_chunks0 by done.
  destruct (Database.batch_loop store 1 _) as [s [[]|e]].
  - intros [= _ <-]. simpl. split; [by destruct edges|]. split; [done|].
    apply chunks_length; lia.
  - by destruct e.
Qed.

(** X19.  The endpoint [create_graph_data] lets no exception but an
    [HTTPException] out, with status 404 (no live session, or a session
    without frames), 400 (no rules) or 500 (anything the projection or the
    writer raised); with 404 and 400 nothing was sent to the store.  When
    it succeeds, it reports a positive number of edges, at most [limit]
    when a positive limit is given, written in batches of 1000. *)
Theorem create_graph_data_endpoint_outcomes `{PandasJoin} (now : Z) (sid : string)
    (graph_config_list : list GraphConfig) (limit : option Z)
    (sm : SessionManager) (store : Database.Neo4jSession) :
  match (Endpoints.create_graph_data now sid graph_config_list limit sm store).2 with
  | Ok stats =>
      graph_config_list <> []
      /\ 0 < Database.configs_processed stats
      /\ Database.batches stats = (Database.configs_processed stats + 999) / 1000
      /\ (forall n, limit = Some n -> (0 < n)%Z ->
            Database.configs_processed stats <= Z.to_nat n)
  | Err e =>
      exists code detail,
        e = HTTPException code detail
        /\ (code = 404 \/ code = 400 \/ code = 500)%Z
        /\ (code <> 500%Z ->
            (Endpoints.create_graph_data now sid graph_config_list limit sm store).1.2
            = store)
  end.
Proof.
  unfold Endpoints.create_graph_data.
  destruct (get_session_info now sm sid) as [sm1 [info|]]; simpl; [|eauto 10].
  destruct (get_dataframes now sm1 sid) as [sm2 [[|df dfs]|]]; simpl; [eauto 10| |eauto 10].
  destruct graph_config_list as [|cfg cfgs]; simpl; [eauto 10|].
  destruct (create_graph_api (cfg :: cfgs) (df :: dfs)) as [graph_api|e]; simpl.
  2: { eexists _, _. split; [done|]. split; [auto|done]. }
  match goal with |- context [Database.create_graph_data 1000 ?es _ _] =>
    set (graph_api_to_process := es) end.
  destruct (Database.create_graph_data 1000 graph_api_to_process (Some 1000%Z) store)
    as [store' [stats|e]] eqn:W; simpl.
  2: { eexists _, _. split; [done|]. split; [auto|done]. }
  apply create_graph_data_ok_stats in W as (Hne & Hc & Hb); [|done].
  split; [done|]. split.
  { rewrite Hc. destruct (length graph_api_to_process) eqn:L; [|lia].
    apply nil_length_inv in L. contradiction. }
  split.
  { rewrite Hb, Hc. replace (Z.to_nat 1000) with 1000 by (vm_compute; reflexivity).
    change ((Nat.divmod (length graph_api_to_process + 999) 999 0 999).1)
      with ((length graph_api_to_process + 999) / 1000).
    f_equal. lia. }
  intros n -> Hn. rewrite Hc. unfold graph_api_to_process.
  destruct (Z.eqb_spec n 0); [lia|]. unfold Endpoints.slice_to.
  destruct (Z.ltb_spec n 0); [lia|]. rewrite length_take. lia.
Qed.

(** X20.  A live session whose projection yields no edge, as a frame
    without rows does, or a negative [limit] that cuts every edge away, ends
    in status 500 with the writer's message about an empty list; nothing is
    sent to the store. *)
Theorem create_graph_data_endpoint_no_edges `{PandasJoin} (now : Z) (sid : string)
    (graph_config_list : list GraphConfig) (limit : option Z)
    (sm : SessionManager) (store : Database.Neo4jSession)
    (d : SessionData) (dfs : list (string * DataFrame)) (edges : list ProjectedEdge) :
  stored sm sid d ->
  (now - created_at d <= session_timeout sm)%Z ->
  dataframes d = Some dfs ->
  dfs <> [] ->
  graph_config_list <> [] ->
  create_graph_api graph_config_list dfs = Ok edges ->
  edges = []
  \/ (exists n, limit = Some n /\ (n < 0)%Z /\ (Z.of_nat (length edges) <= - n)%Z) ->
  (Endpoints.create_graph_data now sid graph_config_list limit sm store).2
  = Err (HTTPException 500
           "Failed to create graph data: Empty graph configuration list")
  /\ (Endpoints.create_graph_data now sid graph_config_list limit sm store).1.2 = store.
Proof.
  intros Hst Hv Hd Hdfs Hcfg Hproj Hnone.
  unfold Endpoints.create_graph_data.
  rewrite get_session_info_as_get_session.
  destruct (get_session_valid now sm sid d Hst Hv) as (R1 & Hst1 & _).
  assert (Ht : session_timeout (get_session now sm sid).1 = session_timeout sm).
  { by destruct (get_session_elsewhere now sm sid) as (? & _). }
  destruct (get_session now sm sid) as [sm1 r1]. simpl in R1, Hst1, Ht. subst r1. simpl.
  rewrite get_dataframes_as_get_session.
  destruct (get_session_valid now sm1 sid d Hst1) as (R2 & _); [lia|].
  destruct (get_session now sm1 sid) as [sm2 r2]. simpl in R2. subst r2. simpl.
  rewrite Hd. destruct dfs as [|df dfs]; [done|].
  destruct graph_config_list as [|cfg cfgs]; [done|]. simpl.
  rewrite Hproj.
  match goal with |- context [Database.create_graph_data 1000 ?es _ _] =>
    assert (E : es = []) end.
  { destruct Hnone as [->|(n & -> & Hn & Hlen)].
    - destruct limit as [n|]; [|done]. destruct (n =? 0)%Z; [done|].
      unfold Endpoints.slice_to. destruct (n <? 0)%Z; apply take_nil.
    - destruct (Z.eqb_spec n 0); [lia|]. unfold Endpoints.slice_to.
      destruct (Z.ltb_spec n 0); [|lia].
      replace (length edges - Z.to_nat (- n)) with 0 by lia. done. }
  rewrite E. done.
Qed.

Lemma create_graph_data_endpoint_no_edges_witness :
  (Endpoints.create_graph_data (H := fun _ _ _ _ => Err IndexError) 1300
     "d41d8cd98f00b204e9800998ecf8427e" [lives_in_city] (Some (-2)%Z)
     cached_manager healthy_store).2
  = Err (HTTPException 500
           "Failed to create graph data: Empty graph configuration list").
Proof.
  assert (E : create_graph_api (H := fun _ _ _ _ => Err IndexError)
                [lives_in_city] [("people", people)]
              = Ok (match create_graph_api (H := fun _ _ _ _ => Err IndexError)
                            [lives_in_city] [("people", people)] with
                    | Ok edges => edges
                    | Err _ => []
                    end)) by (vm_compute; reflexivity).
  refine (proj1 (create_graph_data_endpoint_no_edges (H := fun _ _ _ _ => Err IndexError)
            1300 "d41d8cd98f00b204e9800998ecf8427e" [lives_in_city] (Some (-2)%Z)
            cached_manager healthy_store cached_session [("people", people)] _
            _ _ eq_refl _ _ E _)).
  - vm_compute. split; [reflexivity|right; reflexivity].
  - vm_compute. discriminate.
  - discriminate.
  - discriminate.
  - right. exists (-2)%Z. split; [reflexivity|]. split; [reflexivity|].
    vm_compute. discriminate.
Defined.

(** ** Uploads *)

#[local] Opaque Hashlib.md5_hexdigest.

Lemma dict_set_length {V} k (v : V) d : length (dict_set k v d) <= S (length d).
Proof.
  induction d as [|[k' v'] d IH]; simpl; [lia|]. case_bool_decide; simpl; lia.
Qed.

Lemma dict_set_length_ge {V} k (v : V) d : length d <= length (dict_set k v d).
Proof.
  induction d as [|[k' v'] d IH]; simpl; [lia|]. case_bool_decide; simpl; lia.
Qed.

Lemma dict_set_nonempty {V} k (v : V) d : 0 < length (dict_set k v d).
Proof. destruct d as [|[k' v'] d]; simpl; [lia|]. case_bool_decide; simpl; lia. Qed.

Lemma dict_set_fresh {V} k (v : V) d :
  k ∉ keys d -> dict_set k v d = d ++ [(k, v)].
Proof.
  induction d as [|[k' v'] d IH]; simpl; [done|].
  intros Hk. apply not_elem_of_cons in Hk as [Hne Hk].
  rewrite bool_decide_eq_false_2 by done. by rewrite IH.
Qed.

Lemma elem_of_dict_set {V} k (v : V) d x :
  x ∈ dict_set k v d -> x = (k, v) \/ x ∈ d.
Proof.
  induction d as [|[k' v'] d IH]; simpl.
  - intros ->%list_elem_of_singleton. by left.
  - case_bool_decide.
    + intros [->|?]%elem_of_cons; [by left|right; by right].
    + intros [->|?]%elem_of_cons; [right; left|].
      destruct IH as [?|?]; auto. right. by right.
Qed.

Section UploadMore.
Context `{Files.UploadEnv}.

Lemma dict_set_describe_all name df dataframes :
  dict_set name (describe name df) (describe_all dataframes)
  = describe_all (dict_set name df dataframes).
Proof.
  induction dataframes as [|[k v] l IH]; [done|].
  cbn [describe_all map dict_set fst snd]. case_bool_decide; [done|].
  cbn [map fst snd]. f_equal. exact IH.
Qed.

(** *** Keys stripped by the response model *)

Lemma strip_keys_fold_elem {V} (d : dict V) : forall acc x,
  x ∈ fold_left (fun acc kv => dict_set (Files.strip kv.1) kv.2 acc) d acc ->
  x ∈ acc \/ exists name, (name, x.2) ∈ d /\ x.1 = Files.strip name.
Proof.
  induction d as [|[k v] d IH]; intros acc x; simpl; [by left|].
  intros [Hin|(name & Hin & E)]%IH.
  - apply elem_of_dict_set in Hin as [->|Hin]; [|by left].
    right. exists k. split; [left|done].
  - right. exists name. split; [by right|done].
Qed.

Lemma strip_keys_fold_get {V} (d : dict V) : forall acc key,
  is_Some (dict_get key acc) \/ (exists name v, (name, v) ∈ d /\ key = Files.strip name) ->
  is_Some (dict_get key
             (fold_left (fun acc kv => dict_set (Files.strip kv.1) kv.2 acc) d acc)).
Proof.
  induction d as [|[k v] d IH]; intros acc key; simpl.
  - intros [?|(name & v & Hin & _)]; [done|]. by apply elem_of_nil in Hin.
  - intros Hcase. apply IH.
    destruct (decide (key = Files.strip k)) as [->|Hne].
    { left. by rewrite dict_get_set. }
    destruct Hcase as [Hs|(name & v' & Hin & E)].
    + left. by rewrite dict_get_set_ne.
    + apply elem_of_cons in Hin as [[= -> ->]|Hin]; [done|].
      right. by exists name, v'.
Qed.

Lemma strip_keys_fold_length {V} (d : dict V) : forall acc,
  length (fold_left (fun acc kv => dict_set (Files.strip kv.1) kv.2 acc) d acc)
  <= length acc + length d.
Proof.
  induction d as [|[k v] d IH]; intros acc; simpl; [lia|].
  pose proof (IH (dict_set (Files.strip k) v acc)).
  pose proof (dict_set_length (Files.strip k) v acc). lia.
Qed.

Lemma strip_keys_fold_keys {V} (d : dict V) : forall acc,
  NoDup (keys acc) ->
  NoDup (keys (fold_left (fun acc kv => dict_set (Files.strip kv.1) kv.2 acc) d acc)).
Proof.
  induction d as [|[k v] d IH]; intros acc ND; simpl; [done|].
  apply IH. by apply dict_set_keys_NoDup.
Qed.

Lemma strip_keys_fold_id {V} (d : dict V) : forall acc,
  NoDup (keys (acc ++ d)) ->
  (forall k, k ∈ keys d -> Files.strip k = k) ->
  fold_left (fun acc kv => dict_set (Files.strip kv.1) kv.2 acc) d acc = acc ++ d.
Proof.
  induction d as [|[k v] d IH]; intros acc ND Hid; simpl; [by rewrite app_nil_r|].
  rewrite Hid by left.
  unfold keys in ND. rewrite fmap_app in ND. apply NoDup_app in ND as (NDa & Hdis & NDd).
  rewrite dict_set_fresh.
  - rewrite IH.
    + by rewrite <- app_assoc.
    + rewrite <- app_assoc. unfold keys. rewrite fmap_app.
      apply NoDup_app. done.
    + intros k' Hk'. apply Hid. by right.
  - intros Hin. apply (Hdis k Hin). left.
Qed.

Lemma load_loop_tables files : forall table_data dataframes files' td dfs,
  table_data = describe_all dataframes ->
  NoDup (keys dataframes) ->
  Files.load_loop files table_data dataframes = (files', Ok (td, dfs)) ->
  td = describe_all dfs
  /\ NoDup (keys dfs)
  /\ length dfs <= length dataframes + length files
  /\ length dataframes <= length dfs
  /\ (files <> [] -> 0 < length dfs)
  /\ forall name df, (name, df) ∈ dfs ->
       (name, df) ∈ dataframes
       \/ exists file, file ∈ files /\ name = Files.path_stem (name_of file)
                       /\ Files.load_file (unread file) (name_of file) = Ok df.
Proof.
  induction files as [|file files IH]; intros table_data dataframes files' td dfs Htd ND;
    cbn [Files.load_loop].
  - intros [= <- <- <-]. repeat split; auto; simpl; try lia. done.
  - unfold Files.read. cbn [Files.filename fst snd].
    fold (name_of file). fold (unread file).
    destruct (Files.load_file (unread file) (name_of file)) as [df|e] eqn:L; [|done].
    destruct (Files.load_loop files _ _) as [rest r'] eqn:E.
    intros [= <- ->].
    eapply IH in E as (E1 & E2 & E3 & E4 & _ & E5).
    + pose proof (dict_set_length (Files.path_stem (name_of file)) df dataframes).
      pose proof (dict_set_length_ge (Files.path_stem (name_of file)) df dataframes).
      pose proof (dict_set_nonempty (Files.path_stem (name_of file)) df dataframes).
      split; [done|]. split; [done|]. split; [simpl; lia|].
      split; [lia|]. split; [lia|].
      intros name df' Hin. destruct (E5 name df' Hin) as [Hd|(f & Hf & ? & ?)].
      * apply elem_of_dict_set in Hd as [[= -> ->]|?]; [|by left].
        right. exists file. split; [left|done].
      * right. exists f. split; [by right|done].
    + subst table_data. apply dict_set_describe_all.
    + by apply dict_set_keys_NoDup.
Qed.

Lemma preview_of_length df :
  match Files.preview_of df with
  | Some records => 0 < len df /\ length records = Nat.min 5 (len df)
  | None => len df = 0
  end.
Proof.
  unfold Files.preview_of. case_bool_decide; [|lia].
  split; [done|]. unfold to_dict_records. simpl. by rewrite length_map, length_take.
Qed.

(** X21.  The two dictionaries [_create_data_frame_from_files] returns go
    together: they have the same table names in the same order, each name
    once, and every description is the [TableData] of the frame under the
    same name: the name and the column names as the model keeps them, that
    is stripped, the row and column counts, and a preview of at most five
    rows.  Each frame was loaded from one of the files and is named after
    its stem; files with the same stem leave one table. *)
Theorem create_data_frame_from_files_tables (files : list Files.UploadFile)
    (td : dict TableData) (dfs : list (string * DataFrame)) :
  (Files._create_data_frame_from_files files).2 = Ok (td, dfs) ->
  td = describe_all dfs
  /\ NoDup (keys dfs)
  /\ length dfs <= length files
  /\ (files <> [] -> 0 < length dfs)
  /\ (forall name df, (name, df) ∈ dfs ->
        exists file, file ∈ files /\ name = Files.path_stem (name_of file)
                     /\ Files.load_file (unread file) (name_of file) = Ok df)
  /\ (forall name t, (name, t) ∈ td ->
        exists df,
          (name, df) ∈ dfs
          /\ table_name t = Files.strip name
          /\ td_columns t = map Files.strip (columns df)
          /\ total_rows t = len df
          /\ total_columns t = length (columns df)
          /\ total_columns t = length (td_columns t)
          /\ match preview t with
             | Some records => 0 < total_rows t /\ length records = Nat.min 5 (total_rows t)
             | None => total_rows t = 0
             end).
Proof.
  unfold Files._create_data_frame_from_files.
  destruct (Files.load_loop files [] []) as [files' r] eqn:E. simpl. intros ->.
  apply load_loop_tables in E as (E1 & E2 & E3 & _ & E4 & E5); [|done|constructor].
  split; [done|]. split; [done|]. split; [simpl in E3; lia|].
  split; [exact E4|]. split.
  - intros name df Hin. destruct (E5 name df Hin) as [Hd|?]; [|done].
    by apply elem_of_nil in Hd.
  - subst td. intros name t Hin.
    apply list_elem_of_fmap in Hin as ([n df] & [= -> ->] & Hin). simpl.
    exists df. split; [done|]. split; [done|]. split; [done|]. split; [done|].
    split; [done|]. split; [by rewrite length_map|]. apply preview_of_length.
Qed.

Lemma validate_outcome files :
  match Files.validate files with
  | Ok files' =>
      Forall2 (fun file file' =>
                 Files.filename file' = Files.sanitize_filename (Files.filename file)
                 /\ Files.stream file' = Files.stream file
                 /\ Files.position file' = 0
                 /\ Files.check_file_extension (Files.filename file') = true
                 /\ String.length (unread file) <= Files.max_upload_size)
              files files'
  | Err e =>
      exists file,
        file ∈ files
        /\ (Files.check_file_extension (Files.sanitize_filename (Files.filename file))
            = false
            /\ e = InvalidFileFormatError
                     (Files.sanitize_filename (Files.filename file))
                     Files.allowed_extensions
            \/ Files.max_upload_size < String.length (unread file)
               /\ e = FileTooLargeError
                        (Files.sanitize_filename (Files.filename file))
                        (String.length (unread file)) Files.max_upload_size)
  end.
Proof.
  induction files as [|file files IH]; cbn [Files.validate]; [constructor|].
  cbn [Files.filename Files.stream Files.position].
  destruct (Files.check_file_extension (Files.sanitize_filename (Files.filename file)))
    eqn:Hext; cbn [negb].
  2: { exists file. split; [left|]. by left. }
  unfold Files.read. cbn [Files.filename Files.stream Files.position fst snd].
  fold (unread file).
  case_bool_decide as Hsize.
  { exists file. split; [left|]. by right. }
  destruct (Files.validate files) as [files'|e]; simpl.
  - constructor; [|done]. simpl. repeat split; auto. lia.
  - destruct IH as (f & Hf & Hcase). exists f. split; [by right|done].
Qed.

(** X22.  The validation loop of [upload_files] lets a list of files
    through exactly when every file, under its sanitized name, has an
    allowed extension and no more than [max_upload_size] bytes left to
    read; the files it passes on carry the sanitized names and are rewound
    to their start.  Otherwise it raises [InvalidFileFormatError] or
    [FileTooLargeError] about one of the files. *)
Theorem validate_spec (files : list Files.UploadFile) :
  match Files.validate files with
  | Ok files' =>
      Forall2 (fun file file' =>
                 Files.filename file' = Files.sanitize_filename (Files.filename file)
                 /\ Files.stream file' = Files.stream file
                 /\ Files.position file' = 0
                 /\ Files.check_file_extension (Files.filename file') = true
                 /\ String.length (unread file) <= Files.max_upload_size)
              files files'
  | Err e =>
      exists file,
        file ∈ files
        /\ (Files.check_file_extension (Files.sanitize_filename (Files.filename file))
            = false
            /\ e = InvalidFileFormatError
                     (Files.sanitize_filename (Files.filename file))
                     Files.allowed_extensions
            \/ Files.max_upload_size < String.length (unread file)
               /\ e = FileTooLargeError
                        (Files.sanitize_filename (Files.filename file))
                        (String.length (unread file)) Files.max_upload_size)
  end.
Proof. apply validate_outcome. Qed.

Lemma upload_files_response now files sm sm' r :
  Files.upload_files now files sm = (sm', Ok r) ->
  exists files' files'' table_data dataframes,
    Files.validate files = Ok files'
    /\ Files._create_data_frame_from_files files' = (files'', Ok (table_data, dataframes))
    /\ r = {| Files.success := true;
              Files.response_session_id := Hashlib.md5_hexdigest "";
              Files.data_responses :=
                Files.make_DataResponses
                  ("Successfully uploaded " +:+ str_int (Z.of_nat (length files''))
                   +:+ " file(s)")
                  (length table_data) table_data |}
    /\ session_timeout sm' = session_timeout sm
    /\ _sessions sm' !! Hashlib.md5_hexdigest ""
       = Some (session_of now (Hashlib.md5_hexdigest "") table_data dataframes)
    /\ files <> [].
Proof.
  unfold Files.upload_files.
  destruct (truthy_list files) eqn:Tr; simpl; [|done].
  destruct (Files.validate files) as [files1|]; [|done].
  unfold Files._create_data_frame_from_files.
  destruct (Files.load_loop files1 [] []) as [files2 [[td dfs]|]] eqn:E; [|done].
  pose proof (load_loop_at_end _ _ _ _ _ E) as Hend.
  destruct files2 as [|first rest]; [done|].
  apply Forall_cons in Hend as [Hfirst _].
  replace (string_drop (Files.position first) (Files.stream first)) with ""
    by (symmetry; apply (read_at_end first Hfirst)).
  unfold create_session, _save_session_metadata.
  case_bool_decide; simpl; [done|].
  intros [= <- <-]. simpl.
  exists files1, (first :: rest), td, dfs.
  split; [done|]. split; [done|]. split; [done|]. split; [done|].
  split; [apply lookup_insert_eq|]. by intros ->.
Qed.

(** X23.  What a successful upload answers goes with what its session
    holds.  Until the session times out, the session id of the response
    gives back the frames and, as table data, their descriptions one by
    one under the names of the frames.  The tables of the response are the
    same descriptions filed under the stripped names, as the response
    model keeps its keys: every entry describes a frame of the session,
    every frame has an entry under its stripped name, two frames whose
    names strip to the same key share one entry, and where stripping
    changes no name the tables of the response are the table data of the
    session.  [total_tables] counts the frames. *)
Theorem upload_response_describes_session (now now' : Z)
    (files : list Files.UploadFile) (sm sm' : SessionManager)
    (r : Files.UploadResponse) :
  Files.upload_files now files sm = (sm', Ok r) ->
  (now' - now <= session_timeout sm)%Z ->
  exists dfs,
    get_dataframes now' sm' (Files.response_session_id r) = (sm', Some dfs)
    /\ get_table_data now' sm' (Files.response_session_id r)
       = (sm', Some (describe_all dfs))
    /\ Files.data_tables (Files.data_responses r) = Files.strip_keys (describe_all dfs)
    /\ NoDup (keys (Files.data_tables (Files.data_responses r)))
    /\ (forall key t, (key, t) ∈ Files.data_tables (Files.data_responses r) ->
          exists name df, (name, df) ∈ dfs /\ key = Files.strip name
                          /\ t = describe name df)
    /\ (forall name df, (name, df) ∈ dfs ->
          is_Some (dict_get (Files.strip name)
                     (Files.data_tables (Files.data_responses r))))
    /\ ((forall name, name ∈ keys dfs -> Files.strip name = name) ->
        Files.data_tables (Files.data_responses r) = describe_all dfs)
    /\ Files.total_tables (Files.data_responses r) = length dfs
    /\ length (Files.data_tables (Files.data_responses r)) <= length dfs
    /\ 0 < length dfs <= length files
    /\ Files.success r = true.
Proof.
  intros Hup Hv.
  apply upload_files_response in Hup
    as (files' & files'' & td & dfs & Hval & Hload & -> & Ht & Hm & Hne).
  unfold Files._create_data_frame_from_files in Hload.
  apply load_loop_tables in Hload as (-> & ND & Hlen & _ & Hpos & _); [|done|constructor].
  pose proof (validate_outcome files) as V. rewrite Hval in V.
  apply Forall2_length in V.
  assert (Hkeys : keys (describe_all dfs) = keys dfs).
  { unfold describe_all, keys. rewrite <- list_fmap_compose. done. }
  exists dfs. cbn [Files.response_session_id Files.data_responses Files.data_tables
                   Files.total_tables Files.success Files.make_DataResponses].
  rewrite get_dataframes_as_get_session, get_table_data_as_get_session.
  unfold get_session. rewrite Hm. cbn [created_at session_of].
  rewrite Ht. destruct (Z.leb_spec (now' - now) (session_timeout sm)); [|lia].
  simpl. split; [done|]. split; [done|]. split; [done|].
  split; [apply strip_keys_fold_keys; constructor|].
  split.
  { intros key t [Hin|(name & Hin & E)]%strip_keys_fold_elem;
      [by apply elem_of_nil in Hin|].
    simpl in Hin, E.
    apply list_elem_of_fmap in Hin as ([n df] & [= -> ->] & Hin). simpl in *.
    by exists n, df. }
  split.
  { intros name df Hin. apply strip_keys_fold_get. right.
    exists name, (describe name df). split; [|done].
    apply list_elem_of_fmap. by exists (name, df). }
  split.
  { intros Hid. unfold Files.strip_keys.
    rewrite strip_keys_fold_id; [done| |by rewrite Hkeys].
    simpl. by rewrite Hkeys. }
  split; [unfold describe_all; by rewrite length_map|].
  split.
  { pose proof (strip_keys_fold_length (describe_all dfs) []) as L.
    unfold describe_all in L at 2. rewrite length_map in L. simpl in L. exact L. }
  split; [|done]. split; [|simpl in Hlen; lia].
  apply Hpos. intros ->. destruct files; [done|discriminate].
Qed.

(** X24.  An upload that fails leaves the session manager as it was.  It
    fails with status 400 when no file is given, with the error of the
    validation loop, or else with [DataIngestionError]. *)
Theorem upload_files_outcomes (now : Z) (files : list Files.UploadFile)
    (sm : SessionManager) :
  match Files.upload_files now files sm with
  | (sm', Ok r) => Files.success r = true /\ files <> []
  | (sm', Err e) =>
      sm' = sm
      /\ (files = [] /\ e = HTTPException 400 "No files provided"
          \/ files <> [] /\ Files.validate files = Err e
          \/ files <> [] /\ is_ok (Files.validate files) = true
             /\ exists cause,
                  e = DataIngestionError "Failed to process uploaded files" cause)
  end.
Proof.
  unfold Files.upload_files.
  destruct files as [|file0 files0]; [simpl; auto|].
  set (files := file0 :: files0).
  assert (Hne : files <> []) by done. clearbody files.
  replace (truthy_list files) with true by (by destruct files).
  cbn [negb].
  destruct (Files.validate files) as [files1|]; [|auto].
  destruct (Files._create_data_frame_from_files files1) as [files2 [[td dfs]|]];
    [|split; [done|]; right; right; eauto].
  destruct files2 as [|first rest]; [split; [done|]; right; right; eauto|].
  destruct (create_session now sm _ dfs td "file") as [[sm' sid]|e]; [done|].
  split; [done|]. right; right; eauto.
Qed.

(** X25.  With the file-name policy of [app/core/security.py] in place,
    every file the validation loop passes on has a name made of safe
    characters only, with an extension that is, lowered, among the allowed
    ones, and is rewound to its start. *)
Theorem upload_accepts_only_safe_names (files files' : list Files.UploadFile) :
  (forall name, Files.sanitize_filename name = Security.sanitize_filename name 255) ->
  (forall name, Files.check_file_extension name
                = Security.check_file_extension name Files.allowed_extensions) ->
  Files.validate files = Ok files' ->
  length files' = length files
  /\ Forall (fun file' =>
               (forall c, c ∈ list_ascii_of_string (Files.filename file') -> safe_char c)
               /\ (exists extension,
                     Security.get_file_extension (Files.filename file') = Some extension
                     /\ extension ∈ map Security.lower Files.allowed_extensions)
               /\ Files.position file' = 0)
            files'.
Proof.
  intros Hs Hc Hval.
  pose proof (validate_outcome files) as V. rewrite Hval in V.
  split; [symmetry; by eapply Forall2_length|].
  clear Hval.
  induction V as [|file file' files files' (Hn & Hst & Hp & Hext & Hsize) _ IH];
    constructor; [|exact IH].
  split.
  { rewrite Hn, Hs. apply sanitized_name_is_safe. }
  split; [|done].
  rewrite Hc, check_file_extension_get in Hext.
  destruct (Security.get_file_extension (Files.filename file')) as [e|]; [|done].
  exists e. split; [done|]. by apply bool_decide_eq_true in Hext.
Qed.

End UploadMore.

#[local] Transparent Hashlib.md5_hexdigest.

Lemma create_data_frame_from_files_tables_witness :
  match (Files._create_data_frame_from_files (H := raw_env)
           [first_upload; second_upload]).2 with
  | Ok (td, dfs) => td = describe_all (H := raw_env) dfs /\ length dfs = 2
  | Err _ => False
  end.
Proof.
  assert (E : (Files._create_data_frame_from_files (H := raw_env)
                 [first_upload; second_upload]).2
              = Ok (match (Files._create_data_frame_from_files (H := raw_env)
                             [first_upload; second_upload]).2 with
                    | Ok r => r
                    | Err _ => ([], [])
                    end)) by (vm_compute; reflexivity).
  destruct (match (Files._create_data_frame_from_files (H := raw_env)
                     [first_upload; second_upload]).2 with
            | Ok r => r
            | Err _ => ([], [])
            end) as [td dfs] eqn:R.
  rewrite E.
  split; [exact (proj1 (create_data_frame_from_files_tables (H := raw_env) _ td dfs E))|].
  vm_compute in R. by injection R as _ <-.
Defined.

Lemma upload_response_describes_session_witness :
  exists dfs,
    (get_dataframes 300
       (Files.upload_files (H := raw_env) 5 [first_upload] (empty_manager 300)).1
       (Files.response_session_id uploaded_first)).2 = Some dfs
    /\ Files.data_tables (Files.data_responses uploaded_first)
       = Files.strip_keys (H := raw_env) (describe_all (H := raw_env) dfs).
Proof.
  assert (E : Files.upload_files (H := raw_env) 5 [first_upload] (empty_manager 300)
              = ((Files.upload_files (H := raw_env) 5 [first_upload] (empty_manager 300)).1,
                 Ok uploaded_first)) by (vm_compute; reflexivity).
  destruct (upload_response_describes_session (H := raw_env) 5 300 [first_upload]
              (empty_manager 300) _ uploaded_first E ltac:(simpl; lia))
    as (dfs & Hd & _ & Ht & _).
  exists dfs. split; [|exact Ht].
  exact (f_equal snd Hd).
Defined.

Lemma upload_accepts_only_safe_names_witness :
  exists file',
    Files.validate (H := policy_env) [first_upload] = Ok [file']
    /\ forall c, c ∈ list_ascii_of_string (Files.filename file') -> safe_char c.
Proof.
  assert (E : Files.validate (H := policy_env) [first_upload]
              = Ok [first_upload]) by (vm_compute; reflexivity).
  exists first_upload. split; [exact E|].
  destruct (upload_accepts_only_safe_names (H := policy_env) [first_upload] [first_upload]
              (fun _ => eq_refl) (fun _ => eq_refl) E) as [_ HF].
  apply Forall_cons in HF as [[Hsafe _] _]. exact Hsafe.
Defined.

(** ** Session files and the whole request *)

Lemma string_take_app s t : string_take (String.length s) (s +:+ t) = s.
Proof. induction s as [|c s IH]; simpl; [by destruct t|]. by rewrite IH. Qed.

Lemma remove_all_without_s s :
  "s"%char ∉ list_ascii_of_string s -> remove_all "session_" 0 s = s.
Proof.
  induction s as [|c s IH]; [done|].
  cbn [list_ascii_of_string]. rewrite not_elem_of_cons. intros [Hc Hs].
  cbn [remove_all starts_with].
  rewrite (bool_decide_eq_false_2 ("s"%char = c)) by done. cbn [andb].
  by rewrite IH.
Qed.

(** X26.  A session id without the letter [s], as every hexadecimal digest
    is, is recovered from the name of its session file, which matches the
    pattern [list_sessions] and the cleanup look for. *)
Theorem session_file_round_trip (sid : string) :
  "s"%char ∉ list_ascii_of_string sid ->
  session_id_of_file (_get_session_path sid) = sid
  /\ glob_match (_get_session_path sid) = true.
Proof.
  intros Hs. split; [|apply glob_match_session_path].
  unfold session_id_of_file, _get_session_path.
  replace ("session_" +:+ sid +:+ ".pkl") with (("session_" +:+ sid) +:+ ".pkl")
    by (simpl; done).
  rewrite string_length_app. cbn [String.length].
  replace (String.length ("session_" +:+ sid) + 4 - 4)
    with (String.length ("session_" +:+ sid)) by lia.
  rewrite string_take_app. simpl.
  by apply remove_all_without_s.
Qed.

Lemma session_file_round_trip_witness :
  session_id_of_file (_get_session_path "d41d8cd98f00b204e9800998ecf8427e")
  = "d41d8cd98f00b204e9800998ecf8427e".
Proof.
  refine (proj1 (session_file_round_trip "d41d8cd98f00b204e9800998ecf8427e" _)).
  cbn [list_ascii_of_string]. rewrite !not_elem_of_cons.
  repeat split; try discriminate. apply not_elem_of_nil.
Defined.

Lemma traverse_projectable data cfgs :
  Forall (projectable data) cfgs ->
  exists rs, traverse (source_to_target_rels data) cfgs = Ok rs.
Proof.
  induction 1 as [|cfg cfgs Hp _ [rs IH]]; simpl; [eauto|].
  assert (exists edges, source_to_target_rels data cfg = Ok edges) as [edges ->].
  { unfold projectable in Hp.
    apply Forall_cons in Hp as [Hs Hp]. apply Forall_cons in Hp as [Ht Hp].
    apply Forall_cons in Hp as [Hr _].
    unfold source_to_target_rels.
    pose proof (graph_element_props_outcome data (label (source cfg))
                  (properties (source cfg))) as Os.
    pose proof (graph_element_props_outcome data (label (target cfg))
                  (properties (target cfg))) as Ot.
    pose proof (graph_element_props_outcome data (label (rels cfg))
                  (properties (rels cfg))) as Or.
    assert (No : forall props, (exists c, c ∈ props /\ c ∈ columns data) ->
                 ~ Forall (fun c => c ∉ columns data) props).
    { intros props (c & Hin & Hc) HF. by apply (proj1 (Forall_forall _ _) HF c Hin). }
    destruct (graph_element_props data (label (source cfg)) _);
      [|destruct Os as [_ Os]; by apply No in Os].
    destruct (graph_element_props data (label (target cfg)) _);
      [|destruct Ot as [_ Ot]; by apply No in Ot].
    destruct (graph_element_props data (label (rels cfg)) _);
      [|destruct Or as [_ Or]; by apply No in Or].
    simpl. eauto. }
  simpl. rewrite IH. simpl. eauto.
Qed.

(** X27.  The whole request, when nothing goes wrong: for a live session
    with one table that has rows, rules that each name existing columns
    for source, target and relationship, no limit, and a store that fails
    no query, the endpoint [create_graph_data] reports one edge per rule
    and row, written in batches of 1000, and the store has received exactly
    the edges of the projection, each once and in order; the session is
    still stored. *)
Theorem create_graph_data_endpoint_success `{PandasJoin} (now : Z) (sid : string)
    (graph_config_list : list GraphConfig) (sm : SessionManager)
    (store : Database.Neo4jSession) (d : SessionData) (df_name : string)
    (data : DataFrame) :
  stored sm sid d ->
  (now - created_at d <= session_timeout sm)%Z ->
  dataframes d = Some [(df_name, data)] ->
  graph_config_list <> [] ->
  0 < len data ->
  Forall (projectable data) graph_config_list ->
  no_fault_before store ((length graph_config_list * len data + 999) / 1000) ->
  exists sm' store' edges,
    Endpoints.create_graph_data now sid graph_config_list None sm store
    = (sm', store',
       Ok {| Database.configs_processed := length graph_config_list * len data;
             Database.batches := (length graph_config_list * len data + 999) / 1000 |})
    /\ create_graph_api graph_config_list [(df_name, data)] = Ok edges
    /\ length edges = length graph_config_list * len data
    /\ concat (Database.committed store')
       = concat (Database.committed store) ++ map Database.config_of edges
    /\ stored sm' sid d.
Proof.
  intros Hst Hv Hd Hcfg Hrows Hproj Hok.
  destruct (traverse_projectable data graph_config_list Hproj) as [rs Hrs].
  assert (Hapi : create_graph_api graph_config_list [(df_name, data)] = Ok (concat rs)).
  { unfold create_graph_api. rewrite bool_decide_eq_false_2 by (simpl; lia).
    rewrite extend_loop_traverse.
    change (fun graph_config_bloc => source_to_target_rels data graph_config_bloc)
      with (source_to_target_rels data).
    by rewrite Hrs. }
  pose proof (traverse_concat_length data graph_config_list rs Hrs) as Hlen.
  assert (Hne : concat rs <> []).
  { intros E. rewrite E in Hlen. simpl in Hlen.
    destruct graph_config_list; [done|]. simpl in Hlen. lia. }
  assert (Hchunks : length (chunks (length (concat rs)) (Z.to_nat 1000) (concat rs))
                    = (length graph_config_list * len data + 999) / 1000).
  { rewrite chunks_length by lia. rewrite Hlen.
    replace (Z.to_nat 1000) with 1000 by (vm_compute; reflexivity).
    f_equal. lia. }
  pose proof (create_graph_data_all_committed_any 1000 (Some 1000%Z) 1000 (concat rs)
                store eq_refl eq_refl Hne) as W.
  rewrite Hchunks, Hlen in W. specialize (W Hok).
  unfold Endpoints.create_graph_data.
  rewrite get_session_info_as_get_session.
  destruct (get_session_valid now sm sid d Hst Hv) as (R1 & Hst1 & _).
  assert (Ht : session_timeout (get_session now sm sid).1 = session_timeout sm).
  { by destruct (get_session_elsewhere now sm sid) as (? & _). }
  destruct (get_session now sm sid) as [sm1 r1]. simpl in R1, Hst1, Ht. subst r1.
  cbn [fst snd fmap option_fmap option_map].
  rewrite get_dataframes_as_get_session.
  destruct (get_session_valid now sm1 sid d Hst1) as (R2 & Hst2 & _); [lia|].
  destruct (get_session now sm1 sid) as [sm2 r2]. simpl in R2, Hst2. subst r2.
  cbn [fst snd mbind option_bind]. rewrite Hd.
  destruct graph_config_list as [|cfg cfgs]; [done|].
  cbn [truthy_list negb]. rewrite Hapi. rewrite W.
  eexists _, _, (concat rs). split; [reflexivity|].
  split; [done|]. split; [done|]. split; [|done].
  cbn [Database.committed].
  by rewrite concat_app, concat_map_map, chunks_concat by lia.
Qed.

Lemma create_graph_data_endpoint_success_witness :
  (Endpoints.create_graph_data (H := fun _ _ _ _ => Err IndexError) 1300
     "d41d8cd98f00b204e9800998ecf8427e" [lives_in_city] None
     cached_manager healthy_store).2
  = Ok {| Database.configs_processed := 2; Database.batches := 1 |}.
Proof.
  assert (Hst : stored cached_manager "d41d8cd98f00b204e9800998ecf8427e" cached_session).
  { vm_compute. split; [reflexivity|right; reflexivity]. }
  assert (Hproj : Forall (projectable people) [lives_in_city]).
  { constructor; [|constructor]. unfold projectable.
    repeat constructor.
    - exists "id". split; [left|left].
    - exists "city". split; [left|]. do 3 right. left.
    - exists "city". split; [left|]. do 3 right. left. }
  destruct (create_graph_data_endpoint_success (H := fun _ _ _ _ => Err IndexError)
              1300 "d41d8cd98f00b204e9800998ecf8427e" [lives_in_city] cached_manager
              healthy_store cached_session "people" people Hst
              ltac:(vm_compute; discriminate) eq_refl ltac:(discriminate)
              ltac:(vm_compute; lia) Hproj ltac:(intros k _; reflexivity))
    as (sm' & store' & edges & E & _).
  rewrite E. reflexivity.
Defined.

(** ** The synthetic id *)

Lemma elem_of_dict {V} (d : dict V) k v :
  NoDup (keys d) -> (k, v) ∈ d <-> dict_get k d = Some v.
Proof.
  induction d as [|[k' v'] d IH]; simpl.
  - intros _. split; [intros H; by apply elem_of_nil in H|done].
  - intros ND. apply NoDup_cons in ND as [Hk ND]. rewrite elem_of_cons.
    case_bool_decide as E.
    + subst k'. split.
      * intros [[= ->]|Hin]; [done|].
        exfalso. apply Hk. apply list_elem_of_fmap. by exists (k, v).
      * intros [= ->]. by left.
    + rewrite IH by done. split; [intros [[= -> ->]|?]; done|by right].
Qed.

Lemma dict_permutation {V} (d d' : dict V) :
  NoDup (keys d) -> NoDup (keys d') ->
  (forall k, dict_get k d = dict_get k d') -> d ≡ₚ d'.
Proof.
  intros ND ND' Hget. apply NoDup_Permutation.
  - by eapply NoDup_fmap_1.
  - by eapply NoDup_fmap_1.
  - intros [k v]. rewrite !elem_of_dict by done. by rewrite Hget.
Qed.

Lemma row_dict_permutation data props props' row :
  props ≡ₚ props' ->
  row_dict data (filter (fun c => c ∈ columns data) props) row
  ≡ₚ row_dict data (filter (fun c => c ∈ columns data) props') row.
Proof.
  intros P. apply dict_permutation; try apply row_dict_NoDup.
  intros k. rewrite !row_dict_get.
  apply (f_equal (fun b : bool => if b then Some (cell data row k) else None)).
  apply bool_decide_ext. by rewrite P.
Qed.

Lemma with_id_id lbl d :
  dict_get "id" (rec_properties (with_id lbl d))
  = Some (VStr (Hashlib.sha1_hexdigest (lbl +:+ ":" +:+ repr_items (sorted d)))).
Proof. unfold with_id, raw_key. simpl. apply dict_get_set. Qed.

(** C5.  The synthetic [id] that [graph_element_props] stores in a record
    is the same for every order in which the columns are requested, that
    is for every insertion order of the row's properties, and the same for
    two rows that hold the same selected cells: it is the SHA-1 digest of
    the label, a colon and the [repr] of the properties' items sorted by
    key. *)
Theorem synthetic_id_order_independent (data : DataFrame) (lbl : string)
    (props props' : list string) (recs : list GraphElementRecord) :
  props ≡ₚ props' ->
  graph_element_props data lbl props = Ok recs ->
  exists recs',
    graph_element_props data lbl props' = Ok recs'
    /\ length recs' = length recs
    /\ (forall i r r',
          recs !! i = Some r -> recs' !! i = Some r' ->
          dict_get "id" (rec_properties r') = dict_get "id" (rec_properties r))
    /\ (forall i j r_i r_j row_i row_j,
          recs !! i = Some r_i -> recs !! j = Some r_j ->
          rows data !! i = Some row_i -> rows data !! j = Some row_j ->
          (forall c, c ∈ props -> c ∈ columns data ->
                     cell data row_i c = cell data row_j c) ->
          dict_get "id" (rec_properties r_j) = dict_get "id" (rec_properties r_i))
    /\ (ascii_frame data = true ->
        forall i r,
          recs !! i = Some r ->
          exists row d,
            rows data !! i = Some row
            /\ NoDup (keys d)
            /\ (forall k, dict_get k d
                          = if bool_decide (k ∈ props /\ k ∈ columns data)
                            then Some (cell data row k) else None)
            /\ Sorted item_le (sorted d)
            /\ sorted d ≡ₚ d
            /\ dict_get "id" (rec_properties r)
               = Some (VStr (Hashlib.sha1_hexdigest
                               (lbl +:+ ":" +:+ repr_items (sorted d))))).
Proof.
  intros P Hrecs.
  assert (exists recs', graph_element_props data lbl props' = Ok recs') as [recs' Hrecs'].
  { pose proof (graph_element_props_outcome data lbl props) as O.
    pose proof (graph_element_props_outcome data lbl props') as O'.
    rewrite Hrecs in O. destruct O as (c & Hc & Hcol).
    destruct (graph_element_props data lbl props') as [recs'|e]; [eauto|].
    destruct O' as [_ O']. rewrite <- P in O'.
    by apply (proj1 (Forall_forall _ _) O' c Hc) in Hcol. }
  exists recs'. split; [done|].
  pose proof (graph_element_props_length _ _ _ _ Hrecs) as L.
  pose proof (graph_element_props_length _ _ _ _ Hrecs') as L'.
  apply graph_element_props_rows in Hrecs, Hrecs'. subst recs recs'.
  split; [lia|]. split; [|split].
  - intros i r r'. rewrite !list_lookup_fmap.
    destruct (rows data !! i) as [row|]; [|done]. simpl. intros [= <-] [= <-].
    rewrite !with_id_id.
    rewrite (sorted_permutation_invariant
               (row_dict data (filter (fun c => c ∈ columns data) props) row)
               (row_dict data (filter (fun c => c ∈ columns data) props') row));
      [done|apply row_dict_NoDup|by apply row_dict_permutation].
  - intros i j r_i r_j row_i row_j. rewrite !list_lookup_fmap.
    intros Hi Hj Hri Hrj Hsame. rewrite Hri in Hi. rewrite Hrj in Hj.
    simpl in Hi, Hj. injection Hi as <-. injection Hj as <-.
    do 3 f_equal. unfold row_dict. f_equal.
    apply map_ext_in. intros c Hc%list_elem_of_In.
    apply list_elem_of_filter in Hc as [? ?]. f_equal. symmetry. by apply Hsame.
  - intros _ i r. rewrite list_lookup_fmap.
    destruct (rows data !! i) as [row|]; [|done]. simpl. intros [= <-].
    exists row, (row_dict data (filter (fun c => c ∈ columns data) props) row).
    split; [done|]. split; [apply row_dict_NoDup|]. split; [apply row_dict_get|].
    split; [apply sorted_sorted|]. split; [apply sorted_perm|]. apply with_id_id.
Qed.

Lemma synthetic_id_order_independent_witness :
  exists r1 r2 r1' r2',
    graph_element_props people "Person" ["id"; "name"; "age"] = Ok [r1; r2]
    /\ graph_element_props people "Person" ["age"; "id"; "name"] = Ok [r1'; r2']
    /\ dict_get "id" (rec_properties r1') = dict_get "id" (rec_properties r1)
    /\ dict_get "id" (rec_properties r1)
       = Some (VStr "b4351c260aec4aa0305fbf98d068554de8cfb3dc").
Proof.
  assert (E : graph_element_props people "Person" ["id"; "name"; "age"]
              = Ok (match graph_element_props people "Person" ["id"; "name"; "age"] with
                    | Ok recs => recs
                    | Err _ => []
                    end)) by (vm_compute; reflexivity).
  assert (P : ["id"; "name"; "age"] ≡ₚ ["age"; "id"; "name"]).
  { change ["age"; "id"; "name"] with (["age"] ++ ["id"; "name"]).
    change ["id"; "name"; "age"] with (["id"; "name"] ++ ["age"]).
    apply Permutation_app_comm. }
  destruct (synthetic_id_order_independent people "Person" ["id"; "name"; "age"]
              ["age"; "id"; "name"] _ P E) as (recs' & E' & _ & Hsame & _).
  assert (R' : recs' = match graph_element_props people "Person" ["age"; "id"; "name"] with
                       | Ok recs => recs
                       | Err _ => []
                       end) by (by rewrite E').
  eexists _, _, _, _. split; [vm_compute; reflexivity|].
  split; [vm_compute; reflexivity|]. split.
  - apply (Hsame 0); [reflexivity|]. rewrite R'. vm_compute. reflexivity.
  - vm_compute. reflexivity.
Defined.

(** ** Expiry of sessions *)





Section Listing.
Variables (current_time : Z) (clock : nat -> Z) (sid : string) (d : SessionData).
Variables (T : Z) (F : gset string).

(** *** Live at every reading *)


Hypothesis live_now : (current_time - created_at d <= T)%Z.
Hypothesis live_later : forall k, (clock k - created_at d <= T)%Z.





End Listing.

Section Stale.
Variables (current_time : Z) (clock : nat -> Z) (sid : string) (d : SessionData).
Variables (T : Z) (F : gset string).
Hypothesis stale_now : (current_time - created_at d > T)%Z.
Hypothesis stale_later : forall k, (clock k - created_at d > T)%Z.






End Stale.




(** ** What a listing holds *)




